(** * Node-Maw: version comparison, store clients with bounded retry, and the
      unified facade

    A shallow embedding of the TypeScript sources

      - [types.ts]             ([compareVersions], the error classes),
      - [app-store-client.ts]  ([AppStoreClient]),
      - [play-store-client.ts] ([PlayStoreClient]),
      - [index.ts]             ([NodeMaw], the facade),

    followed by the properties of the written specification that concern
    them.  Strings are sequences of 8-bit code units; numbers that the code
    only ever uses as integers are in [Z]; configuration objects are records
    whose optional properties are [option] fields; the [headers] dictionary
    is a finite map. *)

From Stdlib Require Import ZArith Lia List Bool Ascii String DecimalString.
From stdpp Require Import gmap strings.

Local Open Scope string_scope.
Local Open Scope Z_scope.

(** ** JavaScript primitives used by the sources *)

Module JS.

(** *** Characters and strings *)

Definition is_digit (c : ascii) : bool :=
  let n := nat_of_ascii c in (48 <=? n)%nat && (n <=? 57)%nat.

Definition is_letter (c : ascii) : bool :=
  let n := nat_of_ascii c in
  ((65 <=? n)%nat && (n <=? 90)%nat) || ((97 <=? n)%nat && (n <=? 122)%nat).

(** White space of [String.prototype.trim] among the code units below 256:
    TAB, LF, VT, FF, CR, SP and NBSP. *)
Definition is_space (c : ascii) : bool :=
  let n := nat_of_ascii c in
  ((9 <=? n)%nat && (n <=? 13)%nat) || (n =? 32)%nat || (n =? 160)%nat.

Fixpoint filter_chars (keep : ascii -> bool) (s : string) : string :=
  match s with
  | EmptyString => EmptyString
  | String c s' =>
      if keep c then String c (filter_chars keep s') else filter_chars keep s'
  end.

Fixpoint all_chars (p : ascii -> bool) (s : string) : bool :=
  match s with
  | EmptyString => true
  | String c s' => p c && all_chars p s'
  end.

(** [s.split(sep)] for a one-character separator: never the empty list,
    [''.split('.')] is [['']]. *)
Fixpoint split (sep : ascii) (s : string) : list string :=
  match s with
  | EmptyString => [EmptyString]
  | String c s' =>
      if Ascii.eqb c sep then EmptyString :: split sep s'
      else match split sep s' with
           | seg :: rest => String c seg :: rest
           | [] => [String c EmptyString]
           end
  end.

Fixpoint drop_while (p : ascii -> bool) (s : string) : string :=
  match s with
  | EmptyString => EmptyString
  | String c s' => if p c then drop_while p s' else s
  end.

Fixpoint drop_while_end (p : ascii -> bool) (s : string) : string :=
  match s with
  | EmptyString => EmptyString
  | String c s' =>
      match drop_while_end p s' with
      | EmptyString => if p c then EmptyString else String c EmptyString
      | rest => String c rest
      end
  end.

(** [s.trim()] *)
Definition trim (s : string) : string :=
  drop_while_end is_space (drop_while is_space s).

Fixpoint drop_chars (n : nat) (s : string) : string :=
  match n, s with
  | O, _ => s
  | S n', String _ s' => drop_chars n' s'
  | S _, EmptyString => EmptyString
  end.

(** [hay.includes(needle)] *)
Fixpoint includes (hay needle : string) : bool :=
  String.prefix needle hay
  || match hay with
     | EmptyString => false
     | String _ hay' => includes hay' needle
     end.

(** [s.replace(pattern, replacement)] for a string pattern and a
    replacement without [$]: only the first occurrence is replaced. *)
Fixpoint replace (s pattern replacement : string) : string :=
  if String.prefix pattern s
  then replacement +:+ drop_chars (String.length pattern) s
  else match s with
       | EmptyString => EmptyString
       | String c s' => String c (replace s' pattern replacement)
       end.

(** Template-literal rendering of an integer, [`${n}`]: its decimal digits.
    This is what the code prints as long as the magnitude is at most [2^53];
    above, a Number is printed with its shortest digits that read back, and
    from [10^21] on with an exponent.  The theorems that state a rendered
    number keep to that range. *)
Definition show_int (n : Z) : string :=
  NilEmpty.string_of_int (Z.to_int n).

(** *** Numbers

    The only Number values [compareVersions] can produce are NaN, the
    non-negative integer-valued doubles and [Infinity]. *)

Inductive number :=
| NaN
| Finite (z : Z)
| Infinity.

Definition digit_value (c : ascii) : Z := Z.of_nat (nat_of_ascii c) - 48.

Fixpoint digits_value_from (acc : Z) (s : string) : Z :=
  match s with
  | EmptyString => acc
  | String c s' => digits_value_from (10 * acc + digit_value c) s'
  end.

(** The integer a string of decimal digits denotes ([0] for [""]). *)
Definition digits_value (s : string) : Z := digits_value_from 0 s.

(** The Number value for a non-negative integer: the nearest binary64
    value, ties to the even significand, [Infinity] from [2^1024] on. *)
Definition round_double (n : Z) : number :=
  if n <? 2 ^ 53 then Finite n
  else
    let e := Z.log2 n - 52 in
    let q := Z.shiftr n e in
    let r := n - Z.shiftl q e in
    let half := Z.shiftl 1 (e - 1) in
    let q' := if (half <? r) || ((r =? half) && Z.odd q) then q + 1 else q in
    let v := Z.shiftl q' e in
    if v <? 2 ^ 1024 then Finite v else Infinity.

(** [Number(s)], as far as the sources use it: on a string of decimal
    digits (possibly empty).  Node rounds correctly whatever the number of
    digits.  No other string reaches [Number] in [compareVersions] (lemma
    [split_clean_digits] below), and those are mapped to [NaN] here. *)
Definition Number (s : string) : number :=
  if all_chars is_digit s then round_double (digits_value s) else NaN.

(** [a < b] on numbers *)
Definition lt (a b : number) : bool :=
  match a, b with
  | Finite x, Finite y => x <? y
  | Finite _, Infinity => true
  | _, _ => false
  end.

(** [x || 0] where [x] is an array element, [None] standing for the
    [undefined] of an index out of range. *)
Definition or_zero (x : option number) : number :=
  match x with
  | None | Some NaN | Some (Finite 0) => Finite 0
  | Some v => v
  end.

(** *** Values

    What a caller can pass where the signature says [string].  The
    sources test such arguments with [typeof] and truthiness only. *)

Inductive value :=
| VUndefined
| VNull
| VBoolean (b : bool)
| VNumber (n : Z)
| VString (s : string)
| VObject.

Definition truthy (v : value) : bool :=
  match v with
  | VUndefined | VNull => false
  | VBoolean b => b
  | VNumber n => negb (n =? 0)
  | VString s => negb (String.eqb s "")
  | VObject => true
  end.

(** [v || ''] *)
Definition or_empty (v : value) : value :=
  if truthy v then v else VString "".

(** [o ?? d] *)
Definition nullish {A} (o : option A) (d : A) : A :=
  match o with Some a => a | None => d end.

(** Whether an optional property is there. *)
Definition present {A} (o : option A) : bool :=
  match o with Some _ => true | None => false end.

(** One property of [{...a, ...b}]: the one of [b] when it has it. *)
Definition spread {A} (a b : option A) : option A :=
  match b with Some _ => b | None => a end.

(** An optional property as an object literal can hold it: missing, there
    with the value [undefined], or there with a value. *)
Inductive property (A : Type) :=
| Absent
| Undefined
| Value (a : A).
Arguments Absent {A}.
Arguments Undefined {A}.
Arguments Value {A} a.

(** [p ?? d] on a property that was read *)
Definition coalesce {A} (p : property A) (d : A) : A :=
  match p with Value a => a | _ => d end.

(** One property of [{...a, ...b}]: the one of [b] when [b] has the key,
    whatever it holds. *)
Definition spread_property {A} (a b : property A) : property A :=
  match b with Absent => a | _ => b end.

(** An optional property that is either missing or holds a value. *)
Definition given {A} (o : option A) : property A :=
  match o with Some a => Value a | None => Absent end.

(** The value a property holds, if it holds one. *)
Definition held {A} (p : property A) : option A :=
  match p with Value a => Some a | _ => None end.

(** The property is not explicitly [undefined]. *)
Definition defined {A} (p : property A) : bool :=
  match p with Undefined => false | _ => true end.

(** How long a timer set with [setTimeout(f, ms)] runs, in milliseconds:
    Node sets the delay to 1 when it is not between 1 and [2^31 - 1]. *)
Definition setTimeout_delay (ms : Z) : Z :=
  if (1 <=? ms) && (ms <=? 2 ^ 31 - 1) then ms else 1.

End JS.

(** ** [types.ts] *)

Module Types.

Import JS.

(** [version.replace(/[^0-9.]/g, '')] *)
Definition clean (version : string) : string :=
  filter_chars (fun c => is_digit c || Ascii.eqb c ".") version.

(** The [for] loop of [compareVersions]: [steps] iterations remain,
    [i] is the loop index. *)
Fixpoint compare_parts (parts1 parts2 : list number) (steps i : nat) : Z :=
  match steps with
  | O => 0
  | S steps' =>
      let part1 := or_zero (parts1 !! i) in
      let part2 := or_zero (parts2 !! i) in
      if lt part1 part2 then -1
      else if lt part2 part1 then 1
      else compare_parts parts1 parts2 steps' (S i)
  end.

Definition compareVersions (version1 version2 : string) : Z :=
  if String.eqb version1 version2 then 0
  else if String.eqb version1 "Unknown" || String.eqb version1 "VARY" then -1
  else if String.eqb version2 "Unknown" || String.eqb version2 "VARY" then 1
  else
    let cleanVersion1 := clean version1 in
    let cleanVersion2 := clean version2 in
    let parts1 := map Number (split "." cleanVersion1) in
    let parts2 := map Number (split "." cleanVersion2) in
    let maxLength := Nat.max (length parts1) (length parts2) in
    compare_parts parts1 parts2 maxLength 0.

(** *** The reference algorithm of the specification (section 4.1)

    Written after the specification's words: literal equality, the two
    sentinels, stripping, splitting, every segment parsed as an integer,
    the shorter list completed with zeros, first difference decides. *)

Definition spec_is_sentinel (v : string) : bool :=
  String.eqb v "Unknown" || String.eqb v "VARY".

Definition spec_segments (v : string) : list Z :=
  map digits_value (split "." (clean v)).

Definition spec_pad (n : nat) (l : list Z) : list Z :=
  l ++ repeat 0 (n - length l).

Fixpoint spec_first_difference (l1 l2 : list Z) : Z :=
  match l1, l2 with
  | x :: l1', y :: l2' =>
      if x <? y then -1
      else if y <? x then 1
      else spec_first_difference l1' l2'
  | _, _ => 0
  end.

Definition spec_compareVersions (a b : string) : Z :=
  if String.eqb a b then 0
  else if spec_is_sentinel a then -1
  else if spec_is_sentinel b then 1
  else
    let s1 := spec_segments a in
    let s2 := spec_segments b in
    let n := Nat.max (length s1) (length s2) in
    spec_first_difference (spec_pad n s1) (spec_pad n s2).

(** Every segment of [v] denotes an integer below [2^53], the range in
    which a Number holds every integer exactly. *)
Definition segments_exact (v : string) : bool :=
  forallb (fun seg => digits_value seg <? 2 ^ 53) (split "." (clean v)).


(** *** Results and errors *)

Record AppVersion := {
  version : string;
  releaseDate : string;
  releaseNotes : option string;
  bundleId : option string;
  packageName : option string
}.

Record UpdateCheckResult := {
  updateAvailable : bool;
  currentVersion : string;
  latestVersion : string;
  updateDetails : option AppVersion;
  versionComparison : Z
}.

(** What [JSON.stringify] makes of a value: a text, or a [TypeError] (a
    circular structure, a BigInt), kept with its message. *)
Inductive rendering :=
| Rendered (text : string)
| Unrenderable (typeError : string).

(** Whatever a [catch] clause can receive: the three error classes of
    [types.ts], an [AxiosError] (with [response?.status]), any other
    [Error], or a thrown value that is not an [Error] (kept with what
    [JSON.stringify] makes of it). *)
#[warnings="-register-all"]
Inductive thrown :=
| AppStoreError (message : string) (id : value) (statusCode : option Z)
| PlayStoreError (message : string) (id : value) (statusCode : option Z)
| NetworkError (message : string) (originalError : option thrown)
| AxiosError (message : string) (status : option Z)
| OtherError (message : string)
| NonError (json : rendering).

(** [error instanceof Error] *)
Definition instanceof_Error (error : thrown) : bool :=
  match error with NonError _ => false | _ => true end.

Definition message_of (error : thrown) : string :=
  match error with
  | AppStoreError m _ _ | PlayStoreError m _ _ | NetworkError m _
  | AxiosError m _ | OtherError m => m
  | NonError _ => ""
  end.

(** [error instanceof Error ? error.message : 'Unknown error'] *)
Definition message_or_unknown (error : thrown) : string :=
  if instanceof_Error error then message_of error else "Unknown error".

(** [error instanceof Error ? error : undefined] *)
Definition as_Error (error : thrown) : option thrown :=
  if instanceof_Error error then Some error else None.

(** How a call ends, and how a promise settles. *)
Inductive completion (A : Type) :=
| Return (a : A)
| Throw (error : thrown).
Arguments Return {A} a.
Arguments Throw {A} error.

(** [JSON.stringify(error)], which returns the text or throws the
    [TypeError]; the sources apply it to values that are not [Error]
    instances only. *)
Definition stringify (error : thrown) : completion string :=
  match error with
  | NonError (Rendered text) => Return text
  | NonError (Unrenderable typeError) => Throw (OtherError typeError)
  | _ => Return ""
  end.

(** What a [getVersion] call does to the outside world, in order: the
    backend request of attempt [n], a [setTimeout] of [ms] milliseconds. *)
Inductive event :=
| Request (attempt : Z)
| Sleep (ms : Z).

(** *** [NodeMawConfig]

    [NodeMawConfig_ option] is the interface with its optional
    properties, [NodeMawConfig_ required] is [Required<NodeMawConfig>]. *)

Definition required (T : Type) : Type := T.

Record NodeMawConfig_ (F : Type -> Type) := {
  timeout : F Z;
  userAgent : F string;
  headers : F (gmap string string);
  retryEnabled : F bool;
  retryAttempts : F Z
}.
Arguments timeout {F} _.
Arguments userAgent {F} _.
Arguments headers {F} _.
Arguments retryEnabled {F} _.
Arguments retryAttempts {F} _.

Abbreviation NodeMawConfig := (NodeMawConfig_ option).

Definition no_NodeMawConfig : NodeMawConfig :=
  {| timeout := None; userAgent := None; headers := None;
     retryEnabled := None; retryAttempts := None |}.

(** A fully populated object read where a partial one is expected. *)
Definition partial_of (c : NodeMawConfig_ required) : NodeMawConfig :=
  {| timeout := Some (timeout c); userAgent := Some (userAgent c);
     headers := Some (headers c); retryEnabled := Some (retryEnabled c);
     retryAttempts := Some (retryAttempts c) |}.

(** [{...a, ...b}] on the shared properties, [a] partial. *)
Definition spread_shared (a b : NodeMawConfig) : NodeMawConfig :=
  {| timeout := spread (timeout a) (timeout b);
     userAgent := spread (userAgent a) (userAgent b);
     headers := spread (headers a) (headers b);
     retryEnabled := spread (retryEnabled a) (retryEnabled b);
     retryAttempts := spread (retryAttempts a) (retryAttempts b) |}.

(** [{...a, ...b}] on the shared properties, [a] fully populated. *)
Definition update_shared (a : NodeMawConfig_ required) (b : NodeMawConfig)
  : NodeMawConfig_ required :=
  {| timeout := nullish (timeout b) (timeout a);
     userAgent := nullish (userAgent b) (userAgent a);
     headers := nullish (headers b) (headers a);
     retryEnabled := nullish (retryEnabled b) (retryEnabled a);
     retryAttempts := nullish (retryAttempts b) (retryAttempts a) |}.

(** A configuration object as a caller can write it: every property
    missing, explicitly [undefined], or holding a value. *)
Definition raw_shared (c : NodeMawConfig) : NodeMawConfig_ property :=
  {| timeout := given (timeout c); userAgent := given (userAgent c);
     headers := given (headers c); retryEnabled := given (retryEnabled c);
     retryAttempts := given (retryAttempts c) |}.

(** The values that a configuration object holds. *)
Definition held_shared (c : NodeMawConfig_ property) : NodeMawConfig :=
  {| timeout := held (timeout c); userAgent := held (userAgent c);
     headers := held (headers c); retryEnabled := held (retryEnabled c);
     retryAttempts := held (retryAttempts c) |}.

Definition absent_NodeMawConfig : NodeMawConfig_ property :=
  {| timeout := Absent; userAgent := Absent; headers := Absent;
     retryEnabled := Absent; retryAttempts := Absent |}.

(** A fully populated object as an object literal. *)
Definition literal_of (c : NodeMawConfig_ required) : NodeMawConfig_ property :=
  {| timeout := Value (timeout c); userAgent := Value (userAgent c);
     headers := Value (headers c); retryEnabled := Value (retryEnabled c);
     retryAttempts := Value (retryAttempts c) |}.

(** [{...a, ...b}] on the shared properties of two object literals. *)
Definition spread_literal_shared (a b : NodeMawConfig_ property)
  : NodeMawConfig_ property :=
  {| timeout := spread_property (timeout a) (timeout b);
     userAgent := spread_property (userAgent a) (userAgent b);
     headers := spread_property (headers a) (headers b);
     retryEnabled := spread_property (retryEnabled a) (retryEnabled b);
     retryAttempts := spread_property (retryAttempts a) (retryAttempts b) |}.

(** No shared property is explicitly [undefined]. *)
Definition defined_shared (c : NodeMawConfig_ property) : bool :=
  defined (timeout c) && defined (userAgent c) && defined (headers c)
  && defined (retryEnabled c) && defined (retryAttempts c).

(** The own property names of the shared part, for [Object.keys]. *)
Definition shared_keys (c : NodeMawConfig) : list string :=
  (if present (timeout c) then ["timeout"] else [])
  ++ (if present (userAgent c) then ["userAgent"] else [])
  ++ (if present (headers c) then ["headers"] else [])
  ++ (if present (retryEnabled c) then ["retryEnabled"] else [])
  ++ (if present (retryAttempts c) then ["retryAttempts"] else []).

(** What the client hands to [axios.create]: the time-out and the headers
    object, with the keys as written.  What the library then does with them
    (its own default headers, its matching of header names) is not
    modelled. *)
Record AxiosInstance := {
  axios_timeout : Z;
  axios_headers : gmap string string
}.

Definition axios_create (timeout_ms : Z) (ua : string)
    (hs : gmap string string) : AxiosInstance :=
  {| axios_timeout := timeout_ms;
     axios_headers := hs ∪ {[ "User-Agent" := ua ]} |}.

End Types.

(** ** [app-store-client.ts] *)

Module AppStoreClient.

Import JS Types.

Record AppStoreConfig_ (F : Type -> Type) := {
  shared : NodeMawConfig_ F;
  country : F string;
  includeMetadata : F bool
}.
Arguments shared {F} _.
Arguments country {F} _.
Arguments includeMetadata {F} _.

Abbreviation AppStoreConfig := (AppStoreConfig_ option).

Definition no_AppStoreConfig : AppStoreConfig :=
  {| shared := no_NodeMawConfig; country := None; includeMetadata := None |}.

(** [{...a, ...b}] *)
Definition spread_config (a b : AppStoreConfig) : AppStoreConfig :=
  {| shared := spread_shared (shared a) (shared b);
     country := spread (country a) (country b);
     includeMetadata := spread (includeMetadata a) (includeMetadata b) |}.

(** The class: its two private fields. *)
Record t := {
  client : AxiosInstance;
  config : AppStoreConfig_ required
}.

Definition create_client (c : AppStoreConfig_ required) : AxiosInstance :=
  axios_create (timeout (shared c)) (userAgent (shared c)) (headers (shared c)).

(** [new AppStoreClient(config)], for a configuration as a caller can write
    it: [??] gives the default to a property that is missing or
    [undefined]. *)
Definition construct (cfg : AppStoreConfig_ property) : t :=
  let this_config : AppStoreConfig_ required :=
    {| shared :=
         {| timeout := coalesce (timeout (shared cfg)) 10000;
            userAgent := coalesce (userAgent (shared cfg)) "node-maw-appstore/1.0.0";
            headers := coalesce (headers (shared cfg)) ∅;
            retryEnabled := coalesce (retryEnabled (shared cfg)) true;
            retryAttempts := coalesce (retryAttempts (shared cfg)) 3 |};
       country := coalesce (country cfg) "us";
       includeMetadata := coalesce (includeMetadata cfg) false |} in
  {| client := create_client this_config; config := this_config |}.

Definition raw (cfg : AppStoreConfig) : AppStoreConfig_ property :=
  {| shared := raw_shared (shared cfg);
     country := given (country cfg);
     includeMetadata := given (includeMetadata cfg) |}.

Definition held_config (cfg : AppStoreConfig_ property) : AppStoreConfig :=
  {| shared := held_shared (shared cfg);
     country := held (country cfg);
     includeMetadata := held (includeMetadata cfg) |}.

Definition absent_AppStoreConfig : AppStoreConfig_ property :=
  {| shared := absent_NodeMawConfig; country := Absent; includeMetadata := Absent |}.

(** [{...a, ...b}] on two object literals. *)
Definition spread_literal (a b : AppStoreConfig_ property)
  : AppStoreConfig_ property :=
  {| shared := spread_literal_shared (shared a) (shared b);
     country := spread_property (country a) (country b);
     includeMetadata := spread_property (includeMetadata a) (includeMetadata b) |}.

(** No property is explicitly [undefined]. *)
Definition defined_config (cfg : AppStoreConfig_ property) : bool :=
  defined_shared (shared cfg) && defined (country cfg)
  && defined (includeMetadata cfg).

(** [new AppStoreClient(config)], for a configuration each of whose
    properties is missing or holds a value: [construct] on those (lemma
    [appStore_new_construct]). *)
Definition new (cfg : AppStoreConfig) : t :=
  let this_config : AppStoreConfig_ required :=
    {| shared :=
         {| timeout := nullish (timeout (shared cfg)) 10000;
            userAgent := nullish (userAgent (shared cfg)) "node-maw-appstore/1.0.0";
            headers := nullish (headers (shared cfg)) ∅;
            retryEnabled := nullish (retryEnabled (shared cfg)) true;
            retryAttempts := nullish (retryAttempts (shared cfg)) 3 |};
       country := nullish (country cfg) "us";
       includeMetadata := nullish (includeMetadata cfg) false |} in
  {| client := create_client this_config; config := this_config |}.

Definition getConfig (this : t) : AppStoreConfig_ required := config this.

(** [updateConfig(newConfig)]: [{...this.config, ...newConfig}], then a new
    [axios] instance. *)
Definition updateConfig (this : t) (newConfig : AppStoreConfig) : t :=
  let this_config : AppStoreConfig_ required :=
    {| shared := update_shared (shared (config this)) (shared newConfig);
       country := nullish (country newConfig) (country (config this));
       includeMetadata :=
         nullish (includeMetadata newConfig) (includeMetadata (config this)) |} in
  {| client := create_client this_config; config := this_config |}.

(** The part of the lookup response that the client reads. *)
Record AppStoreApp := {
  app_bundleId : string;
  app_version : string;
  app_currentVersionReleaseDate : string;
  app_releaseNotes : string
}.

Record AppStoreResponse := {
  resultCount : Z;
  results : list AppStoreApp
}.

(** The backend: what [this.client.get(url)] settles to at attempt [n] of
    the call, a response or a rejection. *)
Definition backend := Z -> completion AppStoreResponse.

(** The [try] block of one attempt. *)
Definition try_attempt (bundleId : string)
    (settled : completion AppStoreResponse) : completion AppVersion :=
  match settled with
  | Throw error => Throw error
  | Return response =>
      if resultCount response =? 0
      then Throw (AppStoreError ("App not found: " +:+ bundleId)
                                (VString bundleId) (Some 404))
      else match results response with
           | [] => Throw (AppStoreError ("Invalid response format for " +:+ bundleId)
                                        (VString bundleId) None)
           | app :: _ =>
               Return {| version := app_version app;
                         releaseDate := app_currentVersionReleaseDate app;
                         releaseNotes := Some (app_releaseNotes app);
                         bundleId := Some (app_bundleId app);
                         packageName := None |}
           end
  end.

(** [error.statusCode && error.statusCode >= 400 && error.statusCode < 500] *)
Definition client_error_status (statusCode : option Z) : bool :=
  match statusCode with
  | Some code => negb (code =? 0) && (400 <=? code) && (code <? 500)
  | None => false
  end.

(** The [catch] block of one attempt: [Some e] when it throws [e], [None]
    when it goes on to the backoff wait. *)
Definition catch_attempt (bundleId : string) (maxAttempts attempts : Z)
    (error : thrown) : option thrown :=
  let rethrown :=
    match error with
    | AppStoreError _ _ statusCode =>
        if maxAttempts <=? attempts then Some error
        else if client_error_status statusCode then Some error
        else None
    | _ => None
    end in
  match rethrown with
  | Some e => Some e
  | None =>
      if maxAttempts <=? attempts then
        match error with
        | AxiosError message status =>
            Some (AppStoreError ("Failed to fetch App Store version: " +:+ message)
                                (VString bundleId) status)
        | _ =>
            Some (NetworkError
                    ("Network error while fetching App Store version: "
                       +:+ message_or_unknown error)
                    (as_Error error))
        end
      else None
  end.

(** The [while] loop, with the events so far.  [fuel] bounds the number of
    iterations of the model; [None] is the model running out of it. *)
Fixpoint retry_loop (fuel : nat) (get : backend) (bundleId : string)
    (maxAttempts attempts : Z) (log : list event)
  : option (list event * completion AppVersion) :=
  match fuel with
  | O => None
  | S fuel' =>
      if attempts <? maxAttempts then
        let attempts := attempts + 1 in
        let log := (log ++ [Request attempts])%list in
        match try_attempt bundleId (get attempts) with
        | Return v => Some (log, Return v)
        | Throw error =>
            match catch_attempt bundleId maxAttempts attempts error with
            | Some e => Some (log, Throw e)
            | None =>
                retry_loop fuel' get bundleId maxAttempts attempts
                           (log ++ [Sleep (2 ^ attempts * 1000)])%list
            end
        end
      else
        Some (log,
              Throw (NetworkError
                       ("Failed to fetch App Store version after "
                          +:+ show_int maxAttempts +:+ " attempts")
                       None))
  end.

Definition max_attempts (this : t) : Z :=
  if retryEnabled (shared (config this))
  then retryAttempts (shared (config this)) else 1.

(** [getVersion(bundleId)] with [fuel] loop iterations allowed. *)
Definition getVersion_fuel (fuel : nat) (this : t) (get : backend)
    (bundleId : value) : option (list event * completion AppVersion) :=
  match bundleId with
  | VString s =>
      if (String.length (trim s) =? 0)%nat
      then Some ([], Throw (AppStoreError "Bundle ID cannot be empty" bundleId None))
      else retry_loop fuel get s (max_attempts this) 0 []
  | _ =>
      Some ([], Throw (AppStoreError "Bundle ID is required and must be a string"
                                     (or_empty bundleId) None))
  end.

(** The loop leaves after at most [maxAttempts] iterations and one more
    test of its condition. *)
Definition getVersion (this : t) (get : backend) (bundleId : value)
  : option (list event * completion AppVersion) :=
  getVersion_fuel (S (Z.to_nat (max_attempts this))) this get bundleId.

(** [error instanceof AppStoreError && error.statusCode === 404] *)
Definition is_not_found (error : thrown) : bool :=
  match error with
  | AppStoreError _ _ (Some code) => code =? 404
  | _ => false
  end.

(** [exists(bundleId)] *)
Definition exists_ (this : t) (get : backend) (bundleId : value)
  : option (list event * completion bool) :=
  match getVersion this get bundleId with
  | None => None
  | Some (log, Return _) => Some (log, Return true)
  | Some (log, Throw error) =>
      if is_not_found error then Some (log, Return false)
      else Some (log, Throw error)
  end.

(** [checkForUpdates(bundleId, currentVersion)] *)
Definition checkForUpdates (this : t) (get : backend)
    (bundleId currentVersion : value)
  : option (list event * completion UpdateCheckResult) :=
  match currentVersion with
  | VString current =>
      if (String.length (trim current) =? 0)%nat
      then Some ([], Throw (AppStoreError "Current version cannot be empty"
                                          bundleId None))
      else
        match getVersion this get bundleId with
        | None => None
        | Some (log, Return latestAppInfo) =>
            let latestVersion := version latestAppInfo in
            let versionComparison := compareVersions current latestVersion in
            let updateAvailable := versionComparison <? 0 in
            Some (log,
                  Return {| updateAvailable := updateAvailable;
                            currentVersion := current;
                            latestVersion := latestVersion;
                            versionComparison := versionComparison;
                            updateDetails :=
                              if updateAvailable then Some latestAppInfo
                              else None |})
        | Some (log, Throw error) =>
            match error with
            | AppStoreError _ _ _ => Some (log, Throw error)
            | _ =>
                Some (log,
                      Throw (NetworkError
                               ("Failed to check for updates: "
                                  +:+ message_or_unknown error)
                               (as_Error error)))
            end
        end
  | _ =>
      Some ([], Throw (AppStoreError "Current version is required and must be a string"
                                     bundleId None))
  end.

(** One record of a response, as the [AppVersion] that [search] builds. *)
Definition to_version (app : AppStoreApp) : AppVersion :=
  {| version := app_version app;
     releaseDate := app_currentVersionReleaseDate app;
     releaseNotes := Some (app_releaseNotes app);
     bundleId := Some (app_bundleId app);
     packageName := None |}.

(** [search(term, limit)]: one request, no retry.  [get] is what the GET of
    the search URL (built from [term], the country and [limit]) settles
    to. *)
Definition search (this : t) (get : completion AppStoreResponse)
    (term : value) (limit : Z) : list event * completion (list AppVersion) :=
  let rejected :=
    ([], Throw (AppStoreError "Search term is required and must be a string"
                              (VString "") None)) in
  match term with
  | VString _ =>
      if negb (truthy term) then rejected
      else
        ([Request 1],
         match get with
         | Return response => Return (map to_version (results response))
         | Throw error =>
             match error with
             | AxiosError message status =>
                 Throw (AppStoreError ("Failed to search App Store: " +:+ message)
                                      term status)
             | _ =>
                 Throw (NetworkError
                          ("Network error while searching App Store: "
                             +:+ message_or_unknown error)
                          (as_Error error))
             end
         end)
  | _ => rejected
  end.

End AppStoreClient.

(** ** [play-store-client.ts] *)

Module PlayStoreClient.

Import JS Types.

Record PlayStoreConfig_ (F : Type -> Type) := {
  shared : NodeMawConfig_ F;
  language : F string;
  country : F string;
  includeMetadata : F bool
}.
Arguments shared {F} _.
Arguments language {F} _.
Arguments country {F} _.
Arguments includeMetadata {F} _.

Abbreviation PlayStoreConfig := (PlayStoreConfig_ option).

Definition no_PlayStoreConfig : PlayStoreConfig :=
  {| shared := no_NodeMawConfig; language := None; country := None;
     includeMetadata := None |}.

(** [{...a, ...b}] *)
Definition spread_config (a b : PlayStoreConfig) : PlayStoreConfig :=
  {| shared := spread_shared (shared a) (shared b);
     language := spread (language a) (language b);
     country := spread (country a) (country b);
     includeMetadata := spread (includeMetadata a) (includeMetadata b) |}.

(** The class: its private field. *)
Record t := {
  config : PlayStoreConfig_ required
}.

(** [new PlayStoreClient(config)], for a configuration as a caller can write
    it: [??] gives the default to a property that is missing or
    [undefined]. *)
Definition construct (cfg : PlayStoreConfig_ property) : t :=
  {| config :=
       {| shared :=
            {| timeout := coalesce (timeout (shared cfg)) 10000;
               userAgent := coalesce (userAgent (shared cfg)) "node-maw-playstore/1.0.0";
               headers := coalesce (headers (shared cfg)) ∅;
               retryEnabled := coalesce (retryEnabled (shared cfg)) true;
               retryAttempts := coalesce (retryAttempts (shared cfg)) 3 |};
          language := coalesce (language cfg) "en";
          country := coalesce (country cfg) "us";
          includeMetadata := coalesce (includeMetadata cfg) false |} |}.

Definition raw (cfg : PlayStoreConfig) : PlayStoreConfig_ property :=
  {| shared := raw_shared (shared cfg);
     language := given (language cfg);
     country := given (country cfg);
     includeMetadata := given (includeMetadata cfg) |}.

Definition held_config (cfg : PlayStoreConfig_ property) : PlayStoreConfig :=
  {| shared := held_shared (shared cfg);
     language := held (language cfg);
     country := held (country cfg);
     includeMetadata := held (includeMetadata cfg) |}.

Definition absent_PlayStoreConfig : PlayStoreConfig_ property :=
  {| shared := absent_NodeMawConfig; language := Absent; country := Absent;
     includeMetadata := Absent |}.

(** [{...a, ...b}] on two object literals. *)
Definition spread_literal (a b : PlayStoreConfig_ property)
  : PlayStoreConfig_ property :=
  {| shared := spread_literal_shared (shared a) (shared b);
     language := spread_property (language a) (language b);
     country := spread_property (country a) (country b);
     includeMetadata := spread_property (includeMetadata a) (includeMetadata b) |}.

(** No property is explicitly [undefined]. *)
Definition defined_config (cfg : PlayStoreConfig_ property) : bool :=
  defined_shared (shared cfg) && defined (language cfg)
  && defined (country cfg) && defined (includeMetadata cfg).

(** [new PlayStoreClient(config)], for a configuration each of whose
    properties is missing or holds a value: [construct] on those (lemma
    [playStore_new_construct]). *)
Definition new (cfg : PlayStoreConfig) : t :=
  {| config :=
       {| shared :=
            {| timeout := nullish (timeout (shared cfg)) 10000;
               userAgent := nullish (userAgent (shared cfg)) "node-maw-playstore/1.0.0";
               headers := nullish (headers (shared cfg)) ∅;
               retryEnabled := nullish (retryEnabled (shared cfg)) true;
               retryAttempts := nullish (retryAttempts (shared cfg)) 3 |};
          language := nullish (language cfg) "en";
          country := nullish (country cfg) "us";
          includeMetadata := nullish (includeMetadata cfg) false |} |}.

Definition getConfig (this : t) : PlayStoreConfig_ required := config this.

(** [updateConfig(newConfig)]: [{...this.config, ...newConfig}] *)
Definition updateConfig (this : t) (newConfig : PlayStoreConfig) : t :=
  {| config :=
       {| shared := update_shared (shared (config this)) (shared newConfig);
          language := nullish (language newConfig) (language (config this));
          country := nullish (country newConfig) (country (config this));
          includeMetadata :=
            nullish (includeMetadata newConfig) (includeMetadata (config this)) |} |}.

(** [[a-zA-Z0-9_]] *)
Definition is_word (c : ascii) : bool :=
  is_letter c || is_digit c || Ascii.eqb c "_".

(** The automaton of the anchored pattern of [getVersion]: a letter and
    any number of word characters, then one or more times a dot, a letter
    and any number of word characters.  Either the next character opens a
    segment, or a segment is being read; [dotted] records that a dot was
    passed. *)
Inductive re_state :=
| SegmentStart
| InSegment.

Fixpoint re_run (st : re_state) (dotted : bool) (s : string) : bool :=
  match s, st with
  | EmptyString, SegmentStart => false
  | EmptyString, InSegment => dotted
  | String c s', SegmentStart => is_letter c && re_run InSegment dotted s'
  | String c s', InSegment =>
      if is_word c then re_run InSegment dotted s'
      else if Ascii.eqb c "." then re_run SegmentStart true s'
      else false
  end.

(** [regex.test(packageName)] *)
Definition package_name_format (packageName : string) : bool :=
  re_run SegmentStart false packageName.

(** What [appDetails.updated] can hold. *)
Inductive updated_value :=
| UpdatedMissing
| UpdatedNumber (n : Z)
| UpdatedString (s : string).

(** The part of the scraper's record that the client reads. *)
Record AppDetails := {
  details_version : option string;
  details_updated : updated_value;
  details_recentChanges : option string
}.

(** The backend: what [gplay.app({appId, lang, country})] settles to at
    attempt [n] of the call; [Return None] is a falsy record. *)
Definition backend := Z -> completion (option AppDetails).

(** [s || undefined] for an optional string: the empty string is falsy. *)
Definition or_undefined (s : option string) : option string :=
  match s with
  | Some str => if String.eqb str "" then None else Some str
  | None => None
  end.

Section WithDate.

(** [formatPlayStoreDate] renders through the runtime's [Date] and falls
    back on the current time; its result is taken as given. *)
Variable formatPlayStoreDate : updated_value -> string.

(** The [try] block of one attempt. *)
Definition try_attempt (packageName : string)
    (settled : completion (option AppDetails)) : completion AppVersion :=
  match settled with
  | Throw error => Throw error
  | Return None =>
      Throw (PlayStoreError ("App not found: " +:+ packageName)
                            (VString packageName) (Some 404))
  | Return (Some appDetails) =>
      Return {| version :=
                  nullish (or_undefined (details_version appDetails)) "Unknown";
                releaseDate := formatPlayStoreDate (details_updated appDetails);
                releaseNotes := or_undefined (details_recentChanges appDetails);
                bundleId := None;
                packageName := Some packageName |}
  end.

(** What the [catch] block throws on the last attempt: one of its own
    errors, or the [TypeError] of [JSON.stringify]. *)
Definition classify (packageName : string) (error : thrown) : thrown :=
  if instanceof_Error error then
    let message := message_of error in
    if includes message "not found" || includes message "404" then
      PlayStoreError ("App not found: " +:+ packageName)
                     (VString packageName) (Some 404)
    else if includes message "network" || includes message "timeout" then
      NetworkError ("Network error while fetching Play Store version: "
                      +:+ message)
                   (Some error)
    else
      PlayStoreError ("Failed to fetch Play Store version: " +:+ message)
                     (VString packageName) None
  else
    match stringify error with
    | Return text =>
        NetworkError ("Unknown error while fetching Play Store version: "
                        +:+ text)
                     (as_Error error)
    | Throw typeError => typeError
    end.

(** The [catch] block of one attempt: [Some e] when it throws [e],
    [None] when it goes on to the backoff wait. *)
Definition catch_attempt (packageName : string) (maxAttempts attempts : Z)
    (error : thrown) : option thrown :=
  if maxAttempts <=? attempts then Some (classify packageName error)
  else None.

(** The [while] loop, with the events so far.  [fuel] bounds the number
    of iterations of the model; [None] is the model running out of it. *)
Fixpoint retry_loop (fuel : nat) (app : backend) (packageName : string)
    (maxAttempts attempts : Z) (log : list event)
  : option (list event * completion AppVersion) :=
  match fuel with
  | O => None
  | S fuel' =>
      if attempts <? maxAttempts then
        let attempts := attempts + 1 in
        let log := (log ++ [Request attempts])%list in
        match try_attempt packageName (app attempts) with
        | Return v => Some (log, Return v)
        | Throw error =>
            match catch_attempt packageName maxAttempts attempts error with
            | Some e => Some (log, Throw e)
            | None =>
                retry_loop fuel' app packageName maxAttempts attempts
                           (log ++ [Sleep (2 ^ attempts * 1000)])%list
            end
        end
      else
        Some (log,
              Throw (NetworkError
                       ("Failed to fetch Play Store version after "
                          +:+ show_int maxAttempts +:+ " attempts")
                       None))
  end.

Definition max_attempts (this : t) : Z :=
  if retryEnabled (shared (config this))
  then retryAttempts (shared (config this)) else 1.

(** [getVersion(packageName)] with [fuel] loop iterations allowed. *)
Definition getVersion_fuel (fuel : nat) (this : t) (app : backend)
    (packageName : value) : option (list event * completion AppVersion) :=
  match packageName with
  | VString s =>
      if (String.length (trim s) =? 0)%nat
      then Some ([], Throw (PlayStoreError "Package name cannot be empty"
                                           packageName None))
      else if negb (package_name_format s)
      then Some ([], Throw (PlayStoreError
                              ("Invalid package name format: " +:+ s
                                 +:+ ". Expected format: com.example.app")
                              packageName None))
      else retry_loop fuel app s (max_attempts this) 0 []
  | _ =>
      Some ([], Throw (PlayStoreError "Package name is required and must be a string"
                                      (or_empty packageName) None))
  end.

(** The loop leaves after at most [maxAttempts] iterations and one more
    test of its condition. *)
Definition getVersion (this : t) (app : backend) (packageName : value)
  : option (list event * completion AppVersion) :=
  getVersion_fuel (S (Z.to_nat (max_attempts this))) this app packageName.

(** [error instanceof PlayStoreError && error.statusCode === 404] *)
Definition is_not_found (error : thrown) : bool :=
  match error with
  | PlayStoreError _ _ (Some code) => code =? 404
  | _ => false
  end.

(** [exists(packageName)] *)
Definition exists_ (this : t) (app : backend) (packageName : value)
  : option (list event * completion bool) :=
  match getVersion this app packageName with
  | None => None
  | Some (log, Return _) => Some (log, Return true)
  | Some (log, Throw error) =>
      if is_not_found error then Some (log, Return false)
      else Some (log, Throw error)
  end.

(** [checkForUpdates(packageName, currentVersion)] *)
Definition checkForUpdates (this : t) (app : backend)
    (packageName currentVersion : value)
  : option (list event * completion UpdateCheckResult) :=
  match currentVersion with
  | VString current =>
      if (String.length (trim current) =? 0)%nat
      then Some ([], Throw (PlayStoreError "Current version cannot be empty"
                                           packageName None))
      else
        match getVersion this app packageName with
        | None => None
        | Some (log, Return latestAppInfo) =>
            let latestVersion := version latestAppInfo in
            let versionComparison := compareVersions current latestVersion in
            let updateAvailable := versionComparison <? 0 in
            Some (log,
                  Return {| updateAvailable := updateAvailable;
                            currentVersion := current;
                            latestVersion := latestVersion;
                            versionComparison := versionComparison;
                            updateDetails :=
                              if updateAvailable then Some latestAppInfo
                              else None |})
        | Some (log, Throw error) =>
            match error with
            | PlayStoreError _ _ _ => Some (log, Throw error)
            | _ =>
                Some (log,
                      Throw (NetworkError
                               ("Failed to check for updates: "
                                  +:+ message_or_unknown error)
                               (as_Error error)))
            end
        end
  | _ =>
      Some ([], Throw (PlayStoreError
                         "Current version is required and must be a string"
                         packageName None))
  end.

End WithDate.

(** The part of a search hit that the client reads. *)
Record SearchHit := {
  hit_version : option string;
  hit_updated : updated_value;
  hit_recentChanges : option string;
  hit_appId : string
}.

Section WithDateSearch.

Variable formatPlayStoreDate : updated_value -> string.

Definition hit_to_version (hit : SearchHit) : AppVersion :=
  {| version := nullish (or_undefined (hit_version hit)) "Unknown";
     releaseDate := formatPlayStoreDate (hit_updated hit);
     releaseNotes := or_undefined (hit_recentChanges hit);
     bundleId := None;
     packageName := Some (hit_appId hit) |}.

(** [search(term, options)]: one request, no retry.  [gsearch] is what
    [gplay.search({term, lang, country, num, fullDetail})] settles to. *)
Definition search (this : t) (gsearch : completion (list SearchHit))
    (term : value) : list event * completion (list AppVersion) :=
  let rejected :=
    ([], Throw (PlayStoreError "Search term is required and must be a string"
                               (VString "") None)) in
  match term with
  | VString _ =>
      if negb (truthy term) then rejected
      else
        ([Request 1],
         match gsearch with
         | Return hits => Return (map hit_to_version hits)
         | Throw error =>
             Throw (NetworkError
                      ("Network error while searching Play Store: "
                         +:+ message_or_unknown error)
                      (as_Error error))
         end)
  | _ => rejected
  end.

End WithDateSearch.

(** [getFullDetails(packageName)]: one request, no retry, the scraper's
    record handed back as it is ([None] for a falsy one).  [app] is what
    [gplay.app({appId, lang, country})] settles to. *)
Definition getFullDetails (this : t) (app : completion (option AppDetails))
    (packageName : value) : list event * completion (option AppDetails) :=
  let rejected :=
    ([], Throw (PlayStoreError "Package name is required and must be a string"
                               (or_empty packageName) None)) in
  match packageName with
  | VString s =>
      if negb (truthy packageName) then rejected
      else
        ([Request 1],
         match app with
         | Return details => Return details
         | Throw error =>
             if instanceof_Error error then
               let message := message_of error in
               if includes message "not found" || includes message "404"
               then Throw (PlayStoreError ("App not found: " +:+ s)
                                          packageName (Some 404))
               else Throw (PlayStoreError
                             ("Failed to fetch Play Store details: " +:+ message)
                             packageName None)
             else
               match stringify error with
               | Return text =>
                   Throw (NetworkError
                            ("Unknown error while fetching Play Store details: "
                               +:+ text)
                            (as_Error error))
               | Throw typeError => Throw typeError
               end
         end)
  | _ => rejected
  end.

End PlayStoreClient.

(** ** [index.ts]: the facade *)

Module NodeMaw.

Import JS Types.

Record UnifiedNodeMawConfig := {
  top : NodeMawConfig;
  appStore : option AppStoreClient.AppStoreConfig;
  playStore : option PlayStoreClient.PlayStoreConfig
}.

Record t := {
  appStoreClient : AppStoreClient.t;
  playStoreClient : PlayStoreClient.t;
  config : NodeMawConfig_ required
}.

(** [{...c, userAgent: ua}] *)
Definition with_userAgent (c : NodeMawConfig) (ua : string) : NodeMawConfig :=
  {| timeout := timeout c; userAgent := Some ua; headers := headers c;
     retryEnabled := retryEnabled c; retryAttempts := retryAttempts c |}.

(** The constructor's argument as a caller can write it. *)
Record LiteralConfig := {
  literal_top : NodeMawConfig_ property;
  literal_appStore : property (AppStoreClient.AppStoreConfig_ property);
  literal_playStore : property (PlayStoreClient.PlayStoreConfig_ property)
}.

(** [{...c, userAgent: ua}] *)
Definition literal_with_userAgent (c : NodeMawConfig_ property) (ua : string)
  : NodeMawConfig_ property :=
  {| timeout := timeout c; userAgent := Value ua; headers := headers c;
     retryEnabled := retryEnabled c; retryAttempts := retryAttempts c |}.

(** [new NodeMaw(config)], for a configuration as a caller can write it.
    The spread of an override that is missing or [undefined] adds nothing;
    the spread of an override object copies each of its properties, an
    explicit [undefined] included. *)
Definition construct (cfg : LiteralConfig) : t :=
  let this_config : NodeMawConfig_ required :=
    {| timeout := coalesce (timeout (literal_top cfg)) 10000;
       userAgent := coalesce (userAgent (literal_top cfg)) "node-maw/1.0.0";
       headers := coalesce (headers (literal_top cfg)) ∅;
       retryEnabled := coalesce (retryEnabled (literal_top cfg)) true;
       retryAttempts := coalesce (retryAttempts (literal_top cfg)) 3 |} in
  let appStoreConfig :=
    AppStoreClient.spread_literal
      {| AppStoreClient.shared :=
           literal_with_userAgent (literal_of this_config)
             (replace (userAgent this_config) "node-maw" "node-maw-appstore");
         AppStoreClient.country := Absent;
         AppStoreClient.includeMetadata := Absent |}
      (coalesce (literal_appStore cfg) AppStoreClient.absent_AppStoreConfig) in
  let playStoreConfig :=
    PlayStoreClient.spread_literal
      {| PlayStoreClient.shared :=
           literal_with_userAgent (literal_of this_config)
             (replace (userAgent this_config) "node-maw" "node-maw-playstore");
         PlayStoreClient.language := Absent;
         PlayStoreClient.country := Absent;
         PlayStoreClient.includeMetadata := Absent |}
      (coalesce (literal_playStore cfg) PlayStoreClient.absent_PlayStoreConfig) in
  {| appStoreClient := AppStoreClient.construct appStoreConfig;
     playStoreClient := PlayStoreClient.construct playStoreConfig;
     config := this_config |}.

(** A configuration each of whose properties is missing or holds a value,
    as an object literal. *)
Definition raw (cfg : UnifiedNodeMawConfig) : LiteralConfig :=
  {| literal_top := raw_shared (top cfg);
     literal_appStore :=
       match appStore cfg with
       | Some o => Value (AppStoreClient.raw o)
       | None => Absent
       end;
     literal_playStore :=
       match playStore cfg with
       | Some o => Value (PlayStoreClient.raw o)
       | None => Absent
       end |}.

(** [new NodeMaw(config)], for a configuration each of whose properties is
    missing or holds a value: [construct] on those (lemma
    [facade_new_construct]). *)
Definition new (cfg : UnifiedNodeMawConfig) : t :=
  let this_config : NodeMawConfig_ required :=
    {| timeout := nullish (timeout (top cfg)) 10000;
       userAgent := nullish (userAgent (top cfg)) "node-maw/1.0.0";
       headers := nullish (headers (top cfg)) ∅;
       retryEnabled := nullish (retryEnabled (top cfg)) true;
       retryAttempts := nullish (retryAttempts (top cfg)) 3 |} in
  let appStoreConfig :=
    AppStoreClient.spread_config
      {| AppStoreClient.shared :=
           with_userAgent (partial_of this_config)
             (replace (userAgent this_config) "node-maw" "node-maw-appstore");
         AppStoreClient.country := None;
         AppStoreClient.includeMetadata := None |}
      (nullish (appStore cfg) AppStoreClient.no_AppStoreConfig) in
  let playStoreConfig :=
    PlayStoreClient.spread_config
      {| PlayStoreClient.shared :=
           with_userAgent (partial_of this_config)
             (replace (userAgent this_config) "node-maw" "node-maw-playstore");
         PlayStoreClient.language := None;
         PlayStoreClient.country := None;
         PlayStoreClient.includeMetadata := None |}
      (nullish (playStore cfg) PlayStoreClient.no_PlayStoreConfig) in
  {| appStoreClient := AppStoreClient.new appStoreConfig;
     playStoreClient := PlayStoreClient.new playStoreConfig;
     config := this_config |}.

Definition getConfig (this : t) : NodeMawConfig_ required := config this.

(** [Object.keys(newConfig)] *)
Definition keys (newConfig : UnifiedNodeMawConfig) : list string :=
  shared_keys (top newConfig)
  ++ (if present (appStore newConfig) then ["appStore"] else [])
  ++ (if present (playStore newConfig) then ["playStore"] else []).

(** [Object.keys(newConfig).some(key => !['appStore', 'playStore'].includes(key))] *)
Definition some_other_key (newConfig : UnifiedNodeMawConfig) : bool :=
  existsb (fun key => negb (existsb (String.eqb key) ["appStore"; "playStore"]))
          (keys newConfig).

(** [updateConfig(newConfig)] *)
Definition updateConfig (this : t) (newConfig : UnifiedNodeMawConfig) : t :=
  let this_config := update_shared (config this) (top newConfig) in
  let appStoreClient' :=
    if present (appStore newConfig) || some_other_key newConfig then
      let appStoreConfig :=
        AppStoreClient.spread_config
          {| AppStoreClient.shared := partial_of this_config;
             AppStoreClient.country := None;
             AppStoreClient.includeMetadata := None |}
          (nullish (appStore newConfig) AppStoreClient.no_AppStoreConfig) in
      AppStoreClient.updateConfig (appStoreClient this) appStoreConfig
    else appStoreClient this in
  let playStoreClient' :=
    if present (playStore newConfig) || some_other_key newConfig then
      let playStoreConfig :=
        PlayStoreClient.spread_config
          {| PlayStoreClient.shared := partial_of this_config;
             PlayStoreClient.language := None;
             PlayStoreClient.country := None;
             PlayStoreClient.includeMetadata := None |}
          (nullish (playStore newConfig) PlayStoreClient.no_PlayStoreConfig) in
      PlayStoreClient.updateConfig (playStoreClient this) playStoreConfig
    else playStoreClient this in
  {| appStoreClient := appStoreClient';
     playStoreClient := playStoreClient';
     config := this_config |}.

(** The pass-through methods. *)
Definition getAppStoreVersion (this : t) (get : AppStoreClient.backend)
    (bundleId : value) :=
  AppStoreClient.getVersion (appStoreClient this) get bundleId.

Definition getPlayStoreVersion
    (formatPlayStoreDate : PlayStoreClient.updated_value -> string)
    (this : t) (app : PlayStoreClient.backend) (packageName : value) :=
  PlayStoreClient.getVersion formatPlayStoreDate (playStoreClient this) app
                             packageName.

Definition checkAppStoreForUpdates (this : t) (get : AppStoreClient.backend)
    (bundleId currentVersion : value) :=
  AppStoreClient.checkForUpdates (appStoreClient this) get bundleId currentVersion.

Definition checkPlayStoreForUpdates
    (formatPlayStoreDate : PlayStoreClient.updated_value -> string)
    (this : t) (app : PlayStoreClient.backend)
    (packageName currentVersion : value) :=
  PlayStoreClient.checkForUpdates formatPlayStoreDate (playStoreClient this) app
                                  packageName currentVersion.

End NodeMaw.

(** ** The shape the two retry loops share

    Both [getVersion] loops are the same loop around a different [try] block
    and a different [catch] block; [AppStoreClient.retry_loop] and
    [PlayStoreClient.retry_loop] are shown equal to instances of it below,
    so that the loop is reasoned about once. *)

Module Retry.

Import JS Types.

Section Loop.

Context {A : Type}.

(** the [try] block at attempt [n] *)
Variable attempt : Z -> completion A.
(** the [catch] block at attempt [n] *)
Variable handler : Z -> thrown -> option thrown.
(** what is thrown after the loop *)
Variable fallback : thrown.
Variable maxAttempts : Z.

Fixpoint loop (fuel : nat) (attempts : Z) (log : list event)
  : option (list event * completion A) :=
  match fuel with
  | O => None
  | S fuel' =>
      if attempts <? maxAttempts then
        let attempts := attempts + 1 in
        let log := (log ++ [Request attempts])%list in
        match attempt attempts with
        | Return v => Some (log, Return v)
        | Throw error =>
            match handler attempts error with
            | Some e => Some (log, Throw e)
            | None =>
                loop fuel' attempts (log ++ [Sleep (2 ^ attempts * 1000)])%list
            end
        end
      else Some (log, Throw fallback)
  end.

(** Attempt [i] fails and its [catch] block goes on to the wait. *)
Definition retried (i : nat) : Prop :=
  exists e, attempt (Z.of_nat i) = Throw e /\ handler (Z.of_nat i) e = None.

(** Attempt [k] ends the call with [outcome]. *)
Definition settles (k : nat) (outcome : completion A) : Prop :=
  (exists v, attempt (Z.of_nat k) = Return v /\ outcome = Return v)
  \/ (exists e e', attempt (Z.of_nat k) = Throw e
                   /\ handler (Z.of_nat k) e = Some e'
                   /\ outcome = Throw e').

End Loop.

(** The events up to the moment attempt [j + 1] is about to start: [j]
    requests, each followed by its backoff wait of [2^n] seconds. *)
Fixpoint before_attempt (j : nat) : list event :=
  match j with
  | O => []
  | S j' =>
      before_attempt j'
        ++ [Request (Z.of_nat j); Sleep (2 ^ Z.of_nat j * 1000)]
  end.

(** The events of a call that stops at its [k]-th attempt:
    [Request 1; Sleep 2000; Request 2; Sleep 4000; ...; Request k]. *)
Definition schedule (k : nat) : list event :=
  match k with
  | O => []
  | S j => before_attempt j ++ [Request (Z.of_nat k)]
  end.

(** The number of backend requests among the events. *)
Fixpoint requests (events : list event) : nat :=
  match events with
  | [] => 0
  | Request _ :: rest => S (requests rest)
  | Sleep _ :: rest => requests rest
  end.

(** The time spent in backoff waits, in milliseconds. *)
Fixpoint total_wait (events : list event) : Z :=
  match events with
  | [] => 0
  | Request _ :: rest => total_wait rest
  | Sleep ms :: rest => ms + total_wait rest
  end.

End Retry.

(** ** The specification's side of the comparisons *)

Module Reference.

Import JS Types.

(** *** Identifier grammar (section 4.3)

    At least two dot-separated segments of letters, digits and
    underscores, each starting with a letter. *)

Definition spec_segment_ok (seg : string) : bool :=
  match seg with
  | EmptyString => false
  | String c rest => is_letter c && all_chars PlayStoreClient.is_word rest
  end.

Definition spec_identifier_ok (identifier : string) : bool :=
  let segments := split "." identifier in
  (2 <=? length segments)%nat && forallb spec_segment_ok segments.

(** An invalid identifier: not a string, an empty (or blank) string, or a
    string outside the grammar. *)
Definition spec_invalid (identifier : value) : bool :=
  match identifier with
  | VString s => (String.length (trim s) =? 0)%nat || negb (spec_identifier_ok s)
  | _ => true
  end.

(** What the App Store client's validation rejects: anything that is not
    a string, and the empty or blank string. *)
Definition no_identifier (identifier : value) : bool :=
  match identifier with
  | VString s => (String.length (trim s) =? 0)%nat
  | _ => true
  end.

(** *** Facade construction (section 4.4)

    A store client's configuration is that store's defaults, overridden by
    the shared fields (the user agent with its store token), overridden by
    the store's own override. *)

Definition spec_substituted (sharedConfig : NodeMawConfig) (token : string)
  : NodeMawConfig :=
  {| timeout := timeout sharedConfig;
     userAgent :=
       match userAgent sharedConfig with
       | Some ua => Some (replace ua "node-maw" token)
       | None => None
       end;
     headers := headers sharedConfig;
     retryEnabled := retryEnabled sharedConfig;
     retryAttempts := retryAttempts sharedConfig |}.

Definition spec_override {A} (base : A) (over : option A) : A :=
  match over with Some a => a | None => base end.

Definition spec_override_shared (base : NodeMawConfig_ required)
    (over : NodeMawConfig) : NodeMawConfig_ required :=
  {| timeout := spec_override (timeout base) (timeout over);
     userAgent := spec_override (userAgent base) (userAgent over);
     headers := spec_override (headers base) (headers over);
     retryEnabled := spec_override (retryEnabled base) (retryEnabled over);
     retryAttempts := spec_override (retryAttempts base) (retryAttempts over) |}.

Definition shared_defaults (ua : string) : NodeMawConfig_ required :=
  {| timeout := 10000; userAgent := ua; headers := ∅;
     retryEnabled := true; retryAttempts := 3 |}.

Definition spec_appStore_config (sharedConfig : NodeMawConfig)
    (override : option AppStoreClient.AppStoreConfig)
  : AppStoreClient.AppStoreConfig_ required :=
  let over := spec_override AppStoreClient.no_AppStoreConfig override in
  {| AppStoreClient.shared :=
       spec_override_shared
         (spec_override_shared (shared_defaults "node-maw-appstore/1.0.0")
            (spec_substituted sharedConfig "node-maw-appstore"))
         (AppStoreClient.shared over);
     AppStoreClient.country :=
       spec_override "us" (AppStoreClient.country over);
     AppStoreClient.includeMetadata :=
       spec_override false (AppStoreClient.includeMetadata over) |}.

Definition spec_playStore_config (sharedConfig : NodeMawConfig)
    (override : option PlayStoreClient.PlayStoreConfig)
  : PlayStoreClient.PlayStoreConfig_ required :=
  let over := spec_override PlayStoreClient.no_PlayStoreConfig override in
  {| PlayStoreClient.shared :=
       spec_override_shared
         (spec_override_shared (shared_defaults "node-maw-playstore/1.0.0")
            (spec_substituted sharedConfig "node-maw-playstore"))
         (PlayStoreClient.shared over);
     PlayStoreClient.language :=
       spec_override "en" (PlayStoreClient.language over);
     PlayStoreClient.country :=
       spec_override "us" (PlayStoreClient.country over);
     PlayStoreClient.includeMetadata :=
       spec_override false (PlayStoreClient.includeMetadata over) |}.

(** The same layering on a configuration as a caller can write it, as the
    specification words it: what a property holds overrides, a property
    that holds nothing does not. *)
Definition held_appStore
    (override : property (AppStoreClient.AppStoreConfig_ property))
  : option AppStoreClient.AppStoreConfig :=
  match override with
  | Value o => Some (AppStoreClient.held_config o)
  | _ => None
  end.

Definition held_playStore
    (override : property (PlayStoreClient.PlayStoreConfig_ property))
  : option PlayStoreClient.PlayStoreConfig :=
  match override with
  | Value o => Some (PlayStoreClient.held_config o)
  | _ => None
  end.

Definition spec_literal_appStore_config (cfg : NodeMaw.LiteralConfig)
  : AppStoreClient.AppStoreConfig_ required :=
  spec_appStore_config (held_shared (NodeMaw.literal_top cfg))
                       (held_appStore (NodeMaw.literal_appStore cfg)).

Definition spec_literal_playStore_config (cfg : NodeMaw.LiteralConfig)
  : PlayStoreClient.PlayStoreConfig_ required :=
  spec_playStore_config (held_shared (NodeMaw.literal_top cfg))
                        (held_playStore (NodeMaw.literal_playStore cfg)).

(** The layering with the one amendment: an override property that is
    explicitly [undefined] puts the field back to the store's default. *)
Definition amended_override {A} (default base : A) (over : property A) : A :=
  match over with
  | Value a => a
  | Undefined => default
  | Absent => base
  end.

Definition amended_override_shared (default base : NodeMawConfig_ required)
    (over : NodeMawConfig_ property) : NodeMawConfig_ required :=
  {| timeout := amended_override (timeout default) (timeout base) (timeout over);
     userAgent :=
       amended_override (userAgent default) (userAgent base) (userAgent over);
     headers := amended_override (headers default) (headers base) (headers over);
     retryEnabled :=
       amended_override (retryEnabled default) (retryEnabled base)
                        (retryEnabled over);
     retryAttempts :=
       amended_override (retryAttempts default) (retryAttempts base)
                        (retryAttempts over) |}.

Definition amended_appStore_config (cfg : NodeMaw.LiteralConfig)
  : AppStoreClient.AppStoreConfig_ required :=
  let over := coalesce (NodeMaw.literal_appStore cfg)
                       AppStoreClient.absent_AppStoreConfig in
  let defaults := shared_defaults "node-maw-appstore/1.0.0" in
  {| AppStoreClient.shared :=
       amended_override_shared defaults
         (spec_override_shared defaults
            (spec_substituted (held_shared (NodeMaw.literal_top cfg))
                              "node-maw-appstore"))
         (AppStoreClient.shared over);
     AppStoreClient.country :=
       amended_override "us" "us" (AppStoreClient.country over);
     AppStoreClient.includeMetadata :=
       amended_override false false (AppStoreClient.includeMetadata over) |}.

Definition amended_playStore_config (cfg : NodeMaw.LiteralConfig)
  : PlayStoreClient.PlayStoreConfig_ required :=
  let over := coalesce (NodeMaw.literal_playStore cfg)
                       PlayStoreClient.absent_PlayStoreConfig in
  let defaults := shared_defaults "node-maw-playstore/1.0.0" in
  {| PlayStoreClient.shared :=
       amended_override_shared defaults
         (spec_override_shared defaults
            (spec_substituted (held_shared (NodeMaw.literal_top cfg))
                              "node-maw-playstore"))
         (PlayStoreClient.shared over);
     PlayStoreClient.language :=
       amended_override "en" "en" (PlayStoreClient.language over);
     PlayStoreClient.country :=
       amended_override "us" "us" (PlayStoreClient.country over);
     PlayStoreClient.includeMetadata :=
       amended_override false false (PlayStoreClient.includeMetadata over) |}.

(** No property of the two overrides is explicitly [undefined]. *)
Definition defined_overrides (cfg : NodeMaw.LiteralConfig) : bool :=
  AppStoreClient.defined_config
    (coalesce (NodeMaw.literal_appStore cfg) AppStoreClient.absent_AppStoreConfig)
  && PlayStoreClient.defined_config
       (coalesce (NodeMaw.literal_playStore cfg)
                 PlayStoreClient.absent_PlayStoreConfig).

(** *** Facade update (section 4.4): the decision table *)

Definition spec_has_shared_field (partial : NodeMawConfig) : bool :=
  present (timeout partial) || present (userAgent partial)
  || present (headers partial) || present (retryEnabled partial)
  || present (retryAttempts partial).

Definition spec_touches_appStore (partial : NodeMaw.UnifiedNodeMawConfig) : bool :=
  present (NodeMaw.appStore partial) || spec_has_shared_field (NodeMaw.top partial).

Definition spec_touches_playStore (partial : NodeMaw.UnifiedNodeMawConfig) : bool :=
  present (NodeMaw.playStore partial) || spec_has_shared_field (NodeMaw.top partial).

(** *** Error typing *)

(** The errors a store client's [getVersion] is documented to raise. *)
Definition typed_for_appStore (error : thrown) : bool :=
  match error with
  | AppStoreError _ _ _ | NetworkError _ _ => true
  | _ => false
  end.

Definition typed_for_playStore (error : thrown) : bool :=
  match error with
  | PlayStoreError _ _ _ | NetworkError _ _ => true
  | _ => false
  end.

(** A failure that comes from the transport or the upstream library, as
    opposed to an error of the three classes of [types.ts]. *)
Definition upstream_failure (error : thrown) : bool :=
  match error with
  | AxiosError _ _ | OtherError _ | NonError _ => true
  | _ => false
  end.

(** *** What the last attempt's failure becomes

    The App Store client turns an [AxiosError] (with or without a
    response) into an [AppStoreError] with the response status, wraps any
    other [Error] in a [NetworkError], and raises a [NetworkError] without
    cause for a thrown value that is not an [Error]. *)
Definition appStore_exhausted (bundleId : string) (failure : thrown) : thrown :=
  match failure with
  | AxiosError message status =>
      AppStoreError ("Failed to fetch App Store version: " +:+ message)
                    (VString bundleId) status
  | NonError _ =>
      NetworkError "Network error while fetching App Store version: Unknown error"
                   None
  | _ =>
      NetworkError ("Network error while fetching App Store version: "
                      +:+ message_of failure)
                   (Some failure)
  end.

(** The Play Store client goes by the message of the [Error]: not-found
    when it contains [not found] or [404], a [NetworkError] around the
    failure when it contains [network] or [timeout], a plain
    [PlayStoreError] otherwise; a thrown value that is not an [Error]
    becomes a [NetworkError] without cause when [JSON.stringify] renders it,
    and otherwise the [TypeError] of [JSON.stringify] comes out. *)
Definition playStore_exhausted (packageName : string) (failure : thrown) : thrown :=
  match failure with
  | NonError (Rendered text) =>
      NetworkError ("Unknown error while fetching Play Store version: " +:+ text)
                   None
  | NonError (Unrenderable typeError) => OtherError typeError
  | _ =>
      let message := message_of failure in
      if includes message "not found" || includes message "404"
      then PlayStoreError ("App not found: " +:+ packageName)
                          (VString packageName) (Some 404)
      else if includes message "network" || includes message "timeout"
      then NetworkError ("Network error while fetching Play Store version: "
                           +:+ message)
                        (Some failure)
      else PlayStoreError ("Failed to fetch Play Store version: " +:+ message)
                          (VString packageName) None
  end.

(** A thrown value that the Play Store client's [catch] block can put into
    a message: an [Error], or a value that [JSON.stringify] renders. *)
Definition renderable (error : thrown) : bool :=
  match error with
  | NonError (Unrenderable _) => false
  | _ => true
  end.

(** What the App Store client raises for the last failure, where the
    sources and their documentation agree: a [NetworkError] around an
    [Error] that is not an [AxiosError], a [NetworkError] without cause for a
    value that is not an [Error].  Nothing is stated for an [AxiosError]. *)
Definition appStore_last_error (failure : thrown) : option thrown :=
  match failure with
  | OtherError message =>
      Some (NetworkError ("Network error while fetching App Store version: "
                            +:+ message)
                         (Some failure))
  | NonError _ =>
      Some (NetworkError
              "Network error while fetching App Store version: Unknown error"
              None)
  | _ => None
  end.

(** What the Play Store client raises for the last failure: by the message
    of an [Error], and a [NetworkError] without cause for a value that
    [JSON.stringify] renders.  Nothing is stated for a value that it does
    not render. *)
Definition playStore_last_error (packageName : string) (failure : thrown)
  : option thrown :=
  match failure with
  | AxiosError _ _ | OtherError _ =>
      let message := message_of failure in
      if includes message "not found" || includes message "404"
      then Some (PlayStoreError ("App not found: " +:+ packageName)
                                (VString packageName) (Some 404))
      else if includes message "network" || includes message "timeout"
      then Some (NetworkError
                   ("Network error while fetching Play Store version: "
                      +:+ message)
                   (Some failure))
      else Some (PlayStoreError
                   ("Failed to fetch Play Store version: " +:+ message)
                   (VString packageName) None)
  | NonError (Rendered text) =>
      Some (NetworkError
              ("Unknown error while fetching Play Store version: " +:+ text)
              None)
  | _ => None
  end.

End Reference.

Import JS Types Reference.

(** * Properties *)

(** ** [compareVersions] *)

Section CompareVersions.

Lemma or_zero_finite (z : Z) : or_zero (Some (Finite z)) = Finite z.
Proof. destruct z; reflexivity. Qed.

Lemma compare_parts_range (parts1 parts2 : list number) (steps i : nat) :
  compare_parts parts1 parts2 steps i = -1
  \/ compare_parts parts1 parts2 steps i = 0
  \/ compare_parts parts1 parts2 steps i = 1.
Proof.
  revert i. induction steps as [|steps IH]; intros i; simpl.
  - right; left; reflexivity.
  - destruct (lt _ _); [left; reflexivity|].
    destruct (lt _ _); [right; right; reflexivity|].
    apply IH.
Qed.

Lemma compareVersions_range (a b : string) :
  compareVersions a b = -1 \/ compareVersions a b = 0 \/ compareVersions a b = 1.
Proof.
  unfold compareVersions.
  destruct (String.eqb a b); [right; left; reflexivity|].
  destruct (_ || _); [left; reflexivity|].
  destruct (_ || _); [right; right; reflexivity|].
  apply compare_parts_range.
Qed.

Lemma compareVersions_same (v : string) : compareVersions v v = 0.
Proof. unfold compareVersions. rewrite String.eqb_refl. reflexivity. Qed.

(** The loop does not look below its index. *)
Lemma compare_parts_shift (x y : number) (parts1 parts2 : list number)
      (steps i : nat) :
  compare_parts (x :: parts1) (y :: parts2) steps (S i)
  = compare_parts parts1 parts2 steps i.
Proof.
  revert i. induction steps as [|steps IH]; intros i; simpl; [reflexivity|].
  rewrite IH. reflexivity.
Qed.

(** The loop reads its arrays through [x || 0] only. *)
Lemma compare_parts_ext (parts1 parts2 parts1' parts2' : list number)
      (steps i : nat) :
  (forall k, or_zero (parts1 !! k) = or_zero (parts1' !! k)) ->
  (forall k, or_zero (parts2 !! k) = or_zero (parts2' !! k)) ->
  compare_parts parts1 parts2 steps i = compare_parts parts1' parts2' steps i.
Proof.
  intros H1 H2. revert i.
  induction steps as [|steps IH]; intros i; simpl; [reflexivity|].
  rewrite H1, H2, IH. reflexivity.
Qed.

Lemma or_zero_pad (n : nat) (l : list Z) (k : nat) :
  or_zero (map Finite l !! k) = or_zero (map Finite (spec_pad n l) !! k).
Proof.
  unfold spec_pad. rewrite map_app.
  destruct (Nat.lt_ge_cases k (length l)) as [Hk|Hk].
  - rewrite lookup_app_l by (rewrite length_map; exact Hk). reflexivity.
  - rewrite lookup_app_r by (rewrite length_map; exact Hk).
    rewrite (proj2 (lookup_ge_None (map Finite l) k))
      by (rewrite length_map; exact Hk).
    rewrite length_map.
    generalize (k - length l)%nat (n - length l)%nat. intros j m.
    revert j. induction m as [|m IH]; intros j; [reflexivity|].
    destruct j; [reflexivity|]. apply IH.
Qed.

Lemma spec_pad_length (n : nat) (l : list Z) :
  (length l <= n)%nat -> length (spec_pad n l) = n.
Proof.
  intros H. unfold spec_pad. rewrite length_app, repeat_length. lia.
Qed.

Lemma compare_parts_same_length (n : nat) :
  forall l1 l2 : list Z,
    length l1 = n -> length l2 = n ->
    compare_parts (map Finite l1) (map Finite l2) n 0
    = spec_first_difference l1 l2.
Proof.
  induction n as [|n IH]; intros l1 l2 H1 H2.
  - destruct l1; [|discriminate]. destruct l2; [|discriminate]. reflexivity.
  - destruct l1 as [|x l1]; [discriminate|].
    destruct l2 as [|y l2]; [discriminate|].
    cbn [compare_parts map spec_first_difference].
    change ((Finite x :: map Finite l1) !! 0%nat) with (Some (Finite x)).
    change ((Finite y :: map Finite l2) !! 0%nat) with (Some (Finite y)).
    rewrite !or_zero_finite. cbn [lt].
    destruct (x <? y); [reflexivity|]. destruct (y <? x); [reflexivity|].
    rewrite compare_parts_shift. apply IH; simpl in *; lia.
Qed.

(** On exact integers the index loop is the first difference of the two
    zero-padded lists. *)
Lemma compare_parts_first_difference (n : nat) (l1 l2 : list Z) :
  (length l1 <= n)%nat -> (length l2 <= n)%nat ->
  compare_parts (map Finite l1) (map Finite l2) n 0
  = spec_first_difference (spec_pad n l1) (spec_pad n l2).
Proof.
  intros H1 H2.
  rewrite (compare_parts_ext _ _ (map Finite (spec_pad n l1))
                             (map Finite (spec_pad n l2)))
    by (intros k; apply or_zero_pad).
  apply compare_parts_same_length; apply spec_pad_length; assumption.
Qed.

Lemma filter_chars_all (keep : ascii -> bool) (s : string) :
  all_chars keep (filter_chars keep s) = true.
Proof.
  induction s as [|c s IH]; simpl; [reflexivity|].
  destruct (keep c) eqn:E; simpl; [rewrite E|]; exact IH.
Qed.

Lemma split_digits (s : string) :
  all_chars (fun c => is_digit c || Ascii.eqb c ".") s = true ->
  Forall (fun seg => all_chars is_digit seg = true) (split "." s).
Proof.
  induction s as [|c s IH]; simpl; intros H.
  - repeat constructor.
  - apply andb_true_iff in H as [Hc Hs]. specialize (IH Hs).
    destruct (Ascii.eqb c ".") eqn:E.
    + constructor; [reflexivity|exact IH].
    + rewrite orb_false_r in Hc.
      destruct (split "." s) as [|seg rest].
      * constructor; [simpl; rewrite Hc; reflexivity|constructor].
      * inversion IH as [|? ? Hseg Hrest]; subst.
        constructor; [simpl; rewrite Hc, Hseg; reflexivity|exact Hrest].
Qed.

(** Only strings of digits reach [Number]. *)
Lemma split_clean_digits (v : string) :
  Forall (fun seg => all_chars is_digit seg = true) (split "." (clean v)).
Proof. apply split_digits, filter_chars_all. Qed.

Lemma Number_exact (seg : string) :
  all_chars is_digit seg = true ->
  (digits_value seg <? 2 ^ 53) = true ->
  Number seg = Finite (digits_value seg).
Proof.
  intros Hd Hv. unfold Number, round_double. rewrite Hd, Hv. reflexivity.
Qed.

Lemma parts_exact (v : string) :
  segments_exact v = true ->
  map Number (split "." (clean v)) = map Finite (spec_segments v).
Proof.
  unfold segments_exact, spec_segments. intros H.
  pose proof (split_clean_digits v) as Hd.
  induction (split "." (clean v)) as [|seg segs IH]; [reflexivity|].
  simpl in H. apply andb_true_iff in H as [Hseg Hsegs].
  inversion Hd as [|? ? Hdseg Hdsegs]; subst.
  simpl. rewrite Number_exact by assumption. rewrite IH by assumption.
  reflexivity.
Qed.

Lemma compareVersions_exact (a b : string) :
  segments_exact a = true -> segments_exact b = true ->
  compareVersions a b = spec_compareVersions a b.
Proof.
  intros Ha Hb. unfold compareVersions, spec_compareVersions, spec_is_sentinel.
  destruct (String.eqb a b); [reflexivity|].
  destruct (_ || _); [reflexivity|].
  destruct (_ || _); [reflexivity|].
  cbv zeta. rewrite (parts_exact a Ha), (parts_exact b Hb), !length_map.
  apply compare_parts_first_difference; lia.
Qed.

End CompareVersions.

(** C1, as amended.  [compareVersions] always returns -1, 0 or 1 and returns
    0 on two equal strings; whenever every dot-separated segment of the two
    stripped strings denotes an integer below 2^53 (so that the Number the
    code parses it to is that integer), it equals the reference algorithm of
    section 4.1 of the specification: 0 on literally equal strings, else -1
    when the first is a sentinel, else 1 when the second is, else the first
    difference, from the left, of the integer segments completed with zeros
    to the longer length.  The four examples of the specification hold. *)
Theorem compareVersions_reference :
  (forall a b : string,
      compareVersions a b = -1 \/ compareVersions a b = 0
      \/ compareVersions a b = 1)
  /\ (forall v : string, compareVersions v v = 0)
  /\ (forall a b : string,
         segments_exact a = true -> segments_exact b = true ->
         compareVersions a b = spec_compareVersions a b)
  /\ compareVersions "1.2.0" "1.10.0" = -1
  /\ compareVersions "1.0" "1.0.0" = 0
  /\ compareVersions "Unknown" "1.0.0" = -1
  /\ compareVersions "1.0.0" "Unknown" = 1.
Proof.
  split; [exact compareVersions_range|].
  split; [exact compareVersions_same|].
  split; [exact compareVersions_exact|].
  repeat split; reflexivity.
Qed.

Lemma compareVersions_reference_witness :
  segments_exact "v1.2.0-beta" = true
  /\ segments_exact "1.10" = true
  /\ compareVersions "v1.2.0-beta" "1.10" = spec_compareVersions "v1.2.0-beta" "1.10"
  /\ compareVersions "v1.2.0-beta" "1.10" = -1.
Proof.
  split; [reflexivity|]. split; [reflexivity|].
  split.
  - apply (proj1 (proj2 (proj2 compareVersions_reference))
             "v1.2.0-beta" "1.10"); reflexivity.
  - reflexivity.
Defined.

(** C1 fails as stated: a segment is parsed to a Number, not to an integer.
    2^53 + 1 and 2^53 are parsed to the same Number, so two versions the
    reference algorithm tells apart compare as equal. *)
Lemma compareVersions_reference_counterexample :
  compareVersions "9007199254740993" "9007199254740992" = 0
  /\ spec_compareVersions "9007199254740993" "9007199254740992" = 1.
Proof. split; vm_compute; reflexivity. Qed.

(** ** The retry loop *)

Section RetryLoop.

Import Retry.

Context {A : Type}.
Variable attempt : Z -> completion A.
Variable handler : Z -> thrown -> option thrown.
Variable fallback : thrown.
Variable maxAttempts : Z.

(** The [catch] block of the last attempt always throws. *)
Hypothesis handler_last :
  forall n e, maxAttempts <= n -> handler n e <> None.

Lemma loop_from (fuel : nat) :
  forall j : nat,
    Z.of_nat j < maxAttempts ->
    (Z.to_nat maxAttempts - j <= fuel)%nat ->
    exists k outcome,
      (j < k)%nat /\ Z.of_nat k <= maxAttempts
      /\ loop attempt handler fallback maxAttempts fuel
              (Z.of_nat j) (before_attempt j)
         = Some (schedule k, outcome)
      /\ (forall i, (j < i < k)%nat -> retried attempt handler i)
      /\ settles attempt handler k outcome.
Proof.
  induction fuel as [|fuel IH]; intros j Hj Hfuel; [lia|].
  cbn [loop]. rewrite (proj2 (Z.ltb_lt _ _) Hj).
  replace (Z.of_nat j + 1) with (Z.of_nat (S j)) by lia.
  destruct (attempt (Z.of_nat (S j))) as [v|e] eqn:Ea.
  - exists (S j), (Return v). repeat split; try lia.
    left. exists v. split; [exact Ea|reflexivity].
  - destruct (handler (Z.of_nat (S j)) e) as [e'|] eqn:Eh.
    + exists (S j), (Throw e'). repeat split; try lia.
      right. exists e, e'. repeat split; assumption.
    + assert (Hlt : Z.of_nat (S j) < maxAttempts).
      { destruct (Z.lt_ge_cases (Z.of_nat (S j)) maxAttempts) as [H|H];
          [exact H|]. exfalso. exact (handler_last _ e H Eh). }
      destruct (IH (S j) Hlt ltac:(lia)) as (k & outcome & Hk & Hmax & Hrun & Hre & Hst).
      exists k, outcome. split; [lia|]. split; [exact Hmax|].
      split.
      * cbn [before_attempt] in Hrun.
        rewrite <- Hrun. f_equal. rewrite <- app_assoc. reflexivity.
      * split; [|exact Hst]. intros i Hi.
        destruct (Nat.eq_dec i (S j)) as [->|Hne].
        -- exists e. split; assumption.
        -- apply Hre. lia.
Qed.

(** More fuel does not change a result. *)
Lemma loop_fuel_mono (fuel : nat) :
  forall (fuel' : nat) (attempts : Z) (log : list event) result,
    loop attempt handler fallback maxAttempts fuel attempts log = Some result ->
    (fuel <= fuel')%nat ->
    loop attempt handler fallback maxAttempts fuel' attempts log = Some result.
Proof.
  induction fuel as [|fuel IH]; intros fuel' attempts log result Hrun Hle;
    [discriminate|].
  destruct fuel' as [|fuel']; [lia|].
  cbn [loop] in Hrun |- *.
  destruct (attempts <? maxAttempts); [|exact Hrun].
  destruct (attempt (attempts + 1)); [exact Hrun|].
  destruct (handler (attempts + 1) error); [exact Hrun|].
  apply IH; [exact Hrun|lia].
Qed.

(** The whole loop: either no iteration at all and the fallback, or a
    stop at some attempt [k] between 1 and [maxAttempts], every earlier
    attempt having been followed by its wait. *)
Lemma loop_runs :
  (maxAttempts <= 0
   /\ loop attempt handler fallback maxAttempts (S (Z.to_nat maxAttempts)) 0 []
      = Some ([], Throw fallback))
  \/ (exists k outcome,
        (1 <= k)%nat /\ Z.of_nat k <= maxAttempts
        /\ loop attempt handler fallback maxAttempts
                (S (Z.to_nat maxAttempts)) 0 []
           = Some (schedule k, outcome)
        /\ (forall i, (1 <= i < k)%nat -> retried attempt handler i)
        /\ settles attempt handler k outcome).
Proof.
  destruct (Z.lt_ge_cases 0 maxAttempts) as [Hpos|Hneg].
  - right.
    destruct (loop_from (S (Z.to_nat maxAttempts)) 0%nat Hpos ltac:(lia))
      as (k & outcome & Hk & Hmax & Hrun & Hre & Hst).
    exists k, outcome. repeat split; try assumption; try lia.
  - left. split; [exact Hneg|].
    cbn [loop]. rewrite (proj2 (Z.ltb_ge _ _) Hneg). reflexivity.
Qed.

End RetryLoop.

Lemma before_attempt_backoff (j : nat) :
  forall n : nat,
    (1 <= n < j)%nat ->
    exists pre post,
      Retry.before_attempt j
      = (pre ++ [Request (Z.of_nat n); Sleep (2 ^ Z.of_nat n * 1000);
                 Request (Z.of_nat n + 1)] ++ post)%list.
Proof.
  induction j as [|j IH]; intros n Hn; [lia|].
  cbn [Retry.before_attempt].
  destruct (Nat.eq_dec n j) as [->|Hne].
  - destruct j as [|j']; [lia|]. cbn [Retry.before_attempt].
    exists (Retry.before_attempt j'), [Sleep (2 ^ Z.of_nat (S (S j')) * 1000)].
    rewrite <- app_assoc. cbn [app].
    replace (Z.of_nat (S j') + 1) with (Z.of_nat (S (S j'))) by lia.
    reflexivity.
  - destruct (IH n ltac:(lia)) as (pre & post & E). rewrite E.
    exists pre.
    exists (post ++ [Request (Z.of_nat (S j)); Sleep (2 ^ Z.of_nat (S j) * 1000)])%list.
    rewrite <- !app_assoc. reflexivity.
Qed.

(** Between two consecutive requests of a schedule lies exactly the wait of
    [2^n] seconds, [n] the number of the first of the two. *)
Lemma schedule_backoff (k n : nat) :
  (1 <= n < k)%nat ->
  exists pre post,
    Retry.schedule k
    = (pre ++ [Request (Z.of_nat n); Sleep (2 ^ Z.of_nat n * 1000);
               Request (Z.of_nat n + 1)] ++ post)%list.
Proof.
  intros Hn. destruct k as [|j]; [lia|]. cbn [Retry.schedule].
  destruct (Nat.eq_dec n j) as [->|Hne].
  - destruct j as [|j']; [lia|]. cbn [Retry.before_attempt].
    exists (Retry.before_attempt j'), [].
    rewrite <- app_assoc. cbn [app].
    replace (Z.of_nat (S j') + 1) with (Z.of_nat (S (S j'))) by lia.
    reflexivity.
  - destruct (before_attempt_backoff j n ltac:(lia)) as (pre & post & E).
    rewrite E. exists pre, (post ++ [Request (Z.of_nat (S j))])%list.
    rewrite <- !app_assoc. reflexivity.
Qed.

Lemma requests_app (events events' : list event) :
  Retry.requests (events ++ events')
  = (Retry.requests events + Retry.requests events')%nat.
Proof.
  induction events as [|[n|ms] events IH]; simpl; [reflexivity| |]; rewrite IH;
    reflexivity.
Qed.

Lemma before_attempt_requests (j : nat) :
  Retry.requests (Retry.before_attempt j) = j.
Proof.
  induction j as [|j IH]; [reflexivity|].
  cbn [Retry.before_attempt]. rewrite requests_app, IH.
  cbn [Retry.requests]. lia.
Qed.

(** A schedule that stops at attempt [k] holds [k] requests. *)
Lemma schedule_requests (k : nat) : Retry.requests (Retry.schedule k) = k.
Proof.
  destruct k as [|j]; [reflexivity|].
  cbn [Retry.schedule]. rewrite requests_app, before_attempt_requests.
  cbn [Retry.requests]. lia.
Qed.

Example schedule_3 :
  Retry.schedule 3 = [Request 1; Sleep 2000; Request 2; Sleep 4000; Request 3].
Proof. reflexivity. Qed.

(** ** The App Store client's loop *)

Section AppStoreLoop.

Import AppStoreClient.

Lemma appStore_loop_shape (get : backend) (bundleId : string) (maxAttempts : Z)
      (fuel : nat) :
  forall (attempts : Z) (log : list event),
    retry_loop fuel get bundleId maxAttempts attempts log
    = Retry.loop (fun n => try_attempt bundleId (get n))
                 (catch_attempt bundleId maxAttempts)
                 (NetworkError ("Failed to fetch App Store version after "
                                  +:+ show_int maxAttempts +:+ " attempts") None)
                 maxAttempts fuel attempts log.
Proof.
  induction fuel as [|fuel IH]; intros attempts log; [reflexivity|].
  cbn [retry_loop Retry.loop].
  destruct (attempts <? maxAttempts); [|reflexivity].
  destruct (try_attempt _ _); [reflexivity|].
  destruct (catch_attempt _ _ _ _); [reflexivity|].
  apply IH.
Qed.

Lemma appStore_validated (this : t) (get : backend) (bundleId : string) :
  no_identifier (VString bundleId) = false ->
  getVersion this get (VString bundleId)
  = retry_loop (S (Z.to_nat (max_attempts this))) get bundleId
               (max_attempts this) 0 [].
Proof.
  unfold getVersion, getVersion_fuel, no_identifier. intros ->. reflexivity.
Qed.

Lemma appStore_catch_last (bundleId : string) (maxAttempts n : Z) (e : thrown) :
  maxAttempts <= n -> catch_attempt bundleId maxAttempts n e <> None.
Proof.
  intros H. unfold catch_attempt. rewrite (proj2 (Z.leb_le _ _) H).
  destruct e; discriminate.
Qed.

Lemma appStore_catch_typed (bundleId : string) (maxAttempts n : Z)
      (e e' : thrown) :
  catch_attempt bundleId maxAttempts n e = Some e' ->
  typed_for_appStore e' = true.
Proof.
  unfold catch_attempt.
  destruct e; destruct (maxAttempts <=? n);
    try destruct (client_error_status _);
    intros [= <-]; reflexivity.
Qed.

(** A store error with a 4xx status is thrown again at once, whatever the
    number of the attempt. *)
Lemma appStore_catch_client_error (bundleId : string) (maxAttempts n : Z)
      (message : string) (id : value) (code : Z) :
  400 <= code < 500 ->
  catch_attempt bundleId maxAttempts n (AppStoreError message id (Some code))
  = Some (AppStoreError message id (Some code)).
Proof.
  intros H. unfold catch_attempt, client_error_status.
  destruct (maxAttempts <=? n); [reflexivity|].
  replace (code =? 0) with false by lia.
  replace (400 <=? code) with true by lia.
  replace (code <? 500) with true by lia.
  reflexivity.
Qed.

(** A failure of the transport is retried until the last attempt and
    classified there. *)
Lemma appStore_catch_upstream (bundleId : string) (maxAttempts n : Z)
      (e : thrown) :
  upstream_failure e = true ->
  catch_attempt bundleId maxAttempts n e
  = if maxAttempts <=? n then Some (appStore_exhausted bundleId e) else None.
Proof.
  unfold catch_attempt. destruct e; try discriminate; intros _;
    destruct (maxAttempts <=? n); reflexivity.
Qed.

End AppStoreLoop.

(** ** The Play Store client's loop *)

Section PlayStoreLoop.

Import PlayStoreClient.

Variable formatPlayStoreDate : updated_value -> string.

Lemma playStore_loop_shape (app : backend) (packageName : string)
      (maxAttempts : Z) (fuel : nat) :
  forall (attempts : Z) (log : list event),
    retry_loop formatPlayStoreDate fuel app packageName maxAttempts attempts log
    = Retry.loop (fun n => try_attempt formatPlayStoreDate packageName (app n))
                 (catch_attempt packageName maxAttempts)
                 (NetworkError ("Failed to fetch Play Store version after "
                                  +:+ show_int maxAttempts +:+ " attempts") None)
                 maxAttempts fuel attempts log.
Proof.
  induction fuel as [|fuel IH]; intros attempts log; [reflexivity|].
  cbn [retry_loop Retry.loop].
  destruct (attempts <? maxAttempts); [|reflexivity].
  destruct (try_attempt _ _ _); [reflexivity|].
  destruct (catch_attempt _ _ _ _); [reflexivity|].
  apply IH.
Qed.

Lemma playStore_validated (this : t) (app : backend) (packageName : string) :
  no_identifier (VString packageName) = false ->
  package_name_format packageName = true ->
  getVersion formatPlayStoreDate this app (VString packageName)
  = retry_loop formatPlayStoreDate (S (Z.to_nat (max_attempts this))) app
               packageName (max_attempts this) 0 [].
Proof.
  unfold getVersion, getVersion_fuel, no_identifier. intros -> ->. reflexivity.
Qed.

Lemma playStore_catch_last (packageName : string) (maxAttempts n : Z)
      (e : thrown) :
  maxAttempts <= n -> catch_attempt packageName maxAttempts n e <> None.
Proof.
  intros H. unfold catch_attempt. rewrite (proj2 (Z.leb_le _ _) H).
  discriminate.
Qed.

Lemma playStore_classify_typed (packageName : string) (e : thrown) :
  renderable e = true ->
  typed_for_playStore (classify packageName e) = true.
Proof.
  unfold classify. destruct e as [m k c|m k c|m o|m c|m|[text|typeError]];
    try discriminate; intros _; cbn [instanceof_Error stringify];
    try reflexivity;
    destruct (_ || _); try reflexivity; destruct (_ || _); reflexivity.
Qed.

Lemma playStore_catch_typed (packageName : string) (maxAttempts n : Z)
      (e e' : thrown) :
  renderable e = true ->
  catch_attempt packageName maxAttempts n e = Some e' ->
  typed_for_playStore e' = true.
Proof.
  intros Hr. unfold catch_attempt. destruct (maxAttempts <=? n); [|discriminate].
  intros [= <-]. apply playStore_classify_typed, Hr.
Qed.

Lemma playStore_try_renderable (packageName : string)
      (settled : completion (option AppDetails)) (e : thrown) :
  (forall typeError, settled <> Throw (NonError (Unrenderable typeError))) ->
  try_attempt formatPlayStoreDate packageName settled = Throw e ->
  renderable e = true.
Proof.
  intros Hr. unfold try_attempt.
  destruct settled as [[details|]|failure]; [discriminate| |].
  - intros [= <-]. reflexivity.
  - intros [= <-]. destruct failure as [ | | | | |[text|typeError]];
      try reflexivity. exfalso. exact (Hr typeError eq_refl).
Qed.

Lemma playStore_classify_upstream (packageName : string) (e : thrown) :
  upstream_failure e = true ->
  classify packageName e = playStore_exhausted packageName e.
Proof.
  destruct e as [ | | | | |[text|typeError]]; try discriminate; intros _;
    reflexivity.
Qed.

End PlayStoreLoop.

(** ** Bounded retry *)

(** The timer of the wait after attempt [n]: [2^n] seconds up to attempt 21,
    one millisecond afterwards, the delay being above [2^31 - 1] ms then. *)
Lemma setTimeout_backoff (n : nat) :
  (1 <= n)%nat ->
  setTimeout_delay (2 ^ Z.of_nat n * 1000)
  = if (n <=? 21)%nat then 2 ^ Z.of_nat n * 1000 else 1.
Proof.
  intros Hn. unfold setTimeout_delay.
  assert (Hpos : 2 ^ 1 <= 2 ^ Z.of_nat n) by (apply Z.pow_le_mono_r; lia).
  destruct (Nat.leb_spec n 21) as [Hle|Hgt].
  - assert (Hup : 2 ^ Z.of_nat n <= 2 ^ 21) by (apply Z.pow_le_mono_r; lia).
    change (2 ^ 1) with 2 in Hpos. change (2 ^ 21) with 2097152 in Hup.
    change (2 ^ 31 - 1) with 2147483647.
    replace (1 <=? 2 ^ Z.of_nat n * 1000) with true by lia.
    replace (2 ^ Z.of_nat n * 1000 <=? 2147483647) with true by lia.
    reflexivity.
  - assert (Hlow : 2 ^ 22 <= 2 ^ Z.of_nat n) by (apply Z.pow_le_mono_r; lia).
    change (2 ^ 22) with 4194304 in Hlow. change (2 ^ 31 - 1) with 2147483647.
    replace (2 ^ Z.of_nat n * 1000 <=? 2147483647) with false by lia.
    rewrite andb_false_r. reflexivity.
Qed.

(** C9, as amended.  For an identifier that passes validation, [getVersion]
    of either client ends after [k] backend attempts, [k] at most
    [maxAttempts = retryEnabled ? retryAttempts : 1] (the model's result is
    the same for every amount of fuel above [maxAttempts], so that it never
    runs out); its events are exactly request 1, a timer of 2^1 * 1000 ms,
    request 2, a timer of 2^2 * 1000 ms, ..., request [k]; the timer set
    after attempt [n] runs exactly [2^n] seconds up to [n = 21] and one
    millisecond from [n = 22] on; the call ends with a value or with an
    error, which for the App Store client is an [AppStoreError] or a
    [NetworkError], and for the Play Store client a [PlayStoreError] or a
    [NetworkError] as long as the backend throws no value that
    [JSON.stringify] cannot render; and when the loop is left without an
    attempt having returned or thrown, the error is the [NetworkError]
    whose message reports the attempt count ([maxAttempts] in decimal digits
    when its magnitude is below [2^53]). *)
Theorem getVersion_bounded_retry :
  (forall (this : AppStoreClient.t) (get : AppStoreClient.backend) (id : string),
      no_identifier (VString id) = false ->
      let maxAttempts :=
        if retryEnabled (AppStoreClient.shared (AppStoreClient.config this))
        then retryAttempts (AppStoreClient.shared (AppStoreClient.config this))
        else 1 in
      exists k outcome,
        AppStoreClient.getVersion this get (VString id)
        = Some (Retry.schedule k, outcome)
        /\ (forall fuel, (Z.to_nat maxAttempts < fuel)%nat ->
            AppStoreClient.getVersion_fuel fuel this get (VString id)
            = Some (Retry.schedule k, outcome))
        /\ Retry.requests (Retry.schedule k) = k
        /\ (k <= Z.to_nat maxAttempts)%nat
        /\ (forall n, (1 <= n < k)%nat ->
            (exists pre post,
                Retry.schedule k
                = (pre ++ [Request (Z.of_nat n); Sleep (2 ^ Z.of_nat n * 1000);
                           Request (Z.of_nat n + 1)] ++ post)%list)
            /\ setTimeout_delay (2 ^ Z.of_nat n * 1000)
               = if (n <=? 21)%nat then 2 ^ Z.of_nat n * 1000 else 1)
        /\ match outcome with
           | Return _ => (1 <= k)%nat
           | Throw e => typed_for_appStore e = true
           end
        /\ (k = 0%nat ->
            exists rendered,
              outcome = Throw (NetworkError
                                 ("Failed to fetch App Store version after "
                                    +:+ rendered +:+ " attempts")
                                 None)
              /\ (- 2 ^ 53 < maxAttempts -> rendered = show_int maxAttempts)))
  /\ (forall (formatPlayStoreDate : PlayStoreClient.updated_value -> string)
             (this : PlayStoreClient.t) (app : PlayStoreClient.backend)
             (id : string),
         no_identifier (VString id) = false ->
         PlayStoreClient.package_name_format id = true ->
         let maxAttempts :=
           if retryEnabled (PlayStoreClient.shared (PlayStoreClient.config this))
           then retryAttempts (PlayStoreClient.shared (PlayStoreClient.config this))
           else 1 in
         exists k outcome,
           PlayStoreClient.getVersion formatPlayStoreDate this app (VString id)
           = Some (Retry.schedule k, outcome)
           /\ (forall fuel, (Z.to_nat maxAttempts < fuel)%nat ->
               PlayStoreClient.getVersion_fuel formatPlayStoreDate fuel this app
                                               (VString id)
               = Some (Retry.schedule k, outcome))
           /\ Retry.requests (Retry.schedule k) = k
           /\ (k <= Z.to_nat maxAttempts)%nat
           /\ (forall n, (1 <= n < k)%nat ->
               (exists pre post,
                   Retry.schedule k
                   = (pre ++ [Request (Z.of_nat n); Sleep (2 ^ Z.of_nat n * 1000);
                              Request (Z.of_nat n + 1)] ++ post)%list)
               /\ setTimeout_delay (2 ^ Z.of_nat n * 1000)
                  = if (n <=? 21)%nat then 2 ^ Z.of_nat n * 1000 else 1)
           /\ ((forall n typeError,
                   app n <> Throw (NonError (Unrenderable typeError))) ->
               match outcome with
               | Return _ => (1 <= k)%nat
               | Throw e => typed_for_playStore e = true
               end)
           /\ (k = 0%nat ->
               exists rendered,
                 outcome = Throw (NetworkError
                                    ("Failed to fetch Play Store version after "
                                       +:+ rendered +:+ " attempts")
                                    None)
                 /\ (- 2 ^ 53 < maxAttempts -> rendered = show_int maxAttempts))).
Proof.
  split.
  - intros this get id Hid maxAttempts.
    assert (Hfuel : forall fuel,
               AppStoreClient.getVersion_fuel fuel this get (VString id)
               = Retry.loop (fun n => AppStoreClient.try_attempt id (get n))
                   (AppStoreClient.catch_attempt id maxAttempts)
                   (NetworkError ("Failed to fetch App Store version after "
                                    +:+ show_int maxAttempts +:+ " attempts") None)
                   maxAttempts fuel 0 []).
    { intros fuel. unfold AppStoreClient.getVersion_fuel.
      unfold no_identifier in Hid. rewrite Hid. apply appStore_loop_shape. }
    unfold AppStoreClient.getVersion.
    change (AppStoreClient.max_attempts this) with maxAttempts.
    destruct (loop_runs (fun n => AppStoreClient.try_attempt id (get n))
                (AppStoreClient.catch_attempt id maxAttempts)
                (NetworkError ("Failed to fetch App Store version after "
                                 +:+ show_int maxAttempts +:+ " attempts") None)
                maxAttempts (appStore_catch_last id maxAttempts))
      as [[Hneg Hrun]|(k & outcome & Hk & Hmax & Hrun & _ & Hst)].
    + exists 0%nat. eexists. rewrite Hfuel. split; [exact Hrun|].
      split; [intros fuel Hf; rewrite Hfuel;
              exact (loop_fuel_mono _ _ _ _ _ _ _ _ _ Hrun Hf)|].
      split; [reflexivity|].
      split; [lia|]. split; [intros n Hn; lia|]. split; [reflexivity|].
      intros _. exists (show_int maxAttempts). split; reflexivity.
    + exists k, outcome. rewrite Hfuel. split; [exact Hrun|].
      split; [intros fuel Hf; rewrite Hfuel;
              exact (loop_fuel_mono _ _ _ _ _ _ _ _ _ Hrun Hf)|].
      split; [apply schedule_requests|].
      split; [lia|].
      split; [intros n Hn; split;
              [apply schedule_backoff; exact Hn|apply setTimeout_backoff; lia]|].
      split; [|lia].
      destruct Hst as [(v & _ & ->)|(e & e' & _ & He & ->)]; [exact Hk|].
      exact (appStore_catch_typed _ _ _ _ _ He).
  - intros fmt this app id Hid Hfmt maxAttempts.
    assert (Hfuel : forall fuel,
               PlayStoreClient.getVersion_fuel fmt fuel this app (VString id)
               = Retry.loop (fun n => PlayStoreClient.try_attempt fmt id (app n))
                   (PlayStoreClient.catch_attempt id maxAttempts)
                   (NetworkError ("Failed to fetch Play Store version after "
                                    +:+ show_int maxAttempts +:+ " attempts") None)
                   maxAttempts fuel 0 []).
    { intros fuel. unfold PlayStoreClient.getVersion_fuel.
      unfold no_identifier in Hid. rewrite Hid, Hfmt. apply playStore_loop_shape. }
    unfold PlayStoreClient.getVersion.
    change (PlayStoreClient.max_attempts this) with maxAttempts.
    destruct (loop_runs (fun n => PlayStoreClient.try_attempt fmt id (app n))
                (PlayStoreClient.catch_attempt id maxAttempts)
                (NetworkError ("Failed to fetch Play Store version after "
                                 +:+ show_int maxAttempts +:+ " attempts") None)
                maxAttempts (playStore_catch_last id maxAttempts))
      as [[Hneg Hrun]|(k & outcome & Hk & Hmax & Hrun & _ & Hst)].
    + exists 0%nat. eexists. rewrite Hfuel. split; [exact Hrun|].
      split; [intros fuel Hf; rewrite Hfuel;
              exact (loop_fuel_mono _ _ _ _ _ _ _ _ _ Hrun Hf)|].
      split; [reflexivity|].
      split; [lia|]. split; [intros n Hn; lia|].
      split; [intros _; reflexivity|].
      intros _. exists (show_int maxAttempts). split; reflexivity.
    + exists k, outcome. rewrite Hfuel. split; [exact Hrun|].
      split; [intros fuel Hf; rewrite Hfuel;
              exact (loop_fuel_mono _ _ _ _ _ _ _ _ _ Hrun Hf)|].
      split; [apply schedule_requests|].
      split; [lia|].
      split; [intros n Hn; split;
              [apply schedule_backoff; exact Hn|apply setTimeout_backoff; lia]|].
      split; [|lia].
      intros Hrender.
      destruct Hst as [(v & _ & ->)|(e & e' & Htry & He & ->)]; [exact Hk|].
      apply (playStore_catch_typed id maxAttempts (Z.of_nat k) e e'); [|exact He].
      apply (playStore_try_renderable fmt id (app (Z.of_nat k)) e);
        [intros typeError; apply Hrender|exact Htry].
Qed.

Lemma getVersion_bounded_retry_witness :
  no_identifier (VString "com.example.app") = false
  /\ exists k outcome,
      AppStoreClient.getVersion
        (AppStoreClient.new AppStoreClient.no_AppStoreConfig)
        (fun _ => Throw (OtherError "socket hang up"))
        (VString "com.example.app")
      = Some (Retry.schedule k, outcome)
      /\ (k <= 3)%nat.
Proof.
  split; [reflexivity|].
  destruct (proj1 getVersion_bounded_retry
              (AppStoreClient.new AppStoreClient.no_AppStoreConfig)
              (fun _ => Throw (OtherError "socket hang up"))
              "com.example.app" eq_refl)
    as (k & outcome & E & _ & _ & Hk & _).
  exists k, outcome. split; [exact E|exact Hk].
Defined.

(** C9 fails as stated in two places.  With 23 attempts allowed, the timer set
    after attempt 22 is asked for [2^22 * 1000] ms and runs one millisecond,
    not [2^22] seconds.  And when the Play Store backend throws a value that
    is not an [Error] and that [JSON.stringify] cannot render, the call ends
    with the [TypeError] of [JSON.stringify], neither a [PlayStoreError] nor
    a [NetworkError]. *)
Lemma getVersion_bounded_retry_counterexample :
  AppStoreClient.getVersion
    (AppStoreClient.new
       {| AppStoreClient.shared :=
            {| timeout := None; userAgent := None; headers := None;
               retryEnabled := None; retryAttempts := Some 23 |};
          AppStoreClient.country := None;
          AppStoreClient.includeMetadata := None |})
    (fun _ => Throw (OtherError "socket hang up")) (VString "com.example.app")
  = Some (Retry.schedule 23,
          Throw (NetworkError
                   "Network error while fetching App Store version: socket hang up"
                   (Some (OtherError "socket hang up"))))
  /\ In (Sleep (2 ^ 22 * 1000)) (Retry.schedule 23)
  /\ setTimeout_delay (2 ^ 22 * 1000) = 1
  /\ 2 ^ 22 * 1000 <> 1
  /\ PlayStoreClient.getVersion (fun _ => "2024-01-01T00:00:00.000Z")
       (PlayStoreClient.new PlayStoreClient.no_PlayStoreConfig)
       (fun _ => Throw (NonError (Unrenderable
                                    "Converting circular structure to JSON")))
       (VString "com.example.app")
     = Some ([Request 1; Sleep 2000; Request 2; Sleep 4000; Request 3],
             Throw (OtherError "Converting circular structure to JSON"))
  /\ typed_for_playStore (OtherError "Converting circular structure to JSON")
     = false.
Proof.
  split; [vm_compute; reflexivity|].
  split; [vm_compute; tauto|].
  split; [vm_compute; reflexivity|].
  split; [vm_compute; discriminate|].
  split; vm_compute; reflexivity.
Qed.

(** C10.  With [retryEnabled] true and [retryAttempts] zero or negative,
    [getVersion] of either client, on an identifier that passes validation,
    makes no backend attempt and throws the fallback [NetworkError] placed
    after the loop, whose message reports the failure after [maxAttempts]
    attempts: the rendering of [retryAttempts], which is its decimal digits
    at least down to [- 2^53]. *)
Theorem getVersion_without_attempts :
  (forall (this : AppStoreClient.t) (get : AppStoreClient.backend) (id : string),
      no_identifier (VString id) = false ->
      retryEnabled (AppStoreClient.shared (AppStoreClient.config this)) = true ->
      retryAttempts (AppStoreClient.shared (AppStoreClient.config this)) <= 0 ->
      exists rendered,
        AppStoreClient.getVersion this get (VString id)
        = Some ([], Throw (NetworkError
                             ("Failed to fetch App Store version after "
                                +:+ rendered +:+ " attempts")
                             None))
        /\ (- 2 ^ 53
            <= retryAttempts (AppStoreClient.shared (AppStoreClient.config this)) ->
            rendered
            = show_int (retryAttempts
                          (AppStoreClient.shared (AppStoreClient.config this)))))
  /\ (forall (formatPlayStoreDate : PlayStoreClient.updated_value -> string)
             (this : PlayStoreClient.t) (app : PlayStoreClient.backend)
             (id : string),
         no_identifier (VString id) = false ->
         PlayStoreClient.package_name_format id = true ->
         retryEnabled (PlayStoreClient.shared (PlayStoreClient.config this)) = true ->
         retryAttempts (PlayStoreClient.shared (PlayStoreClient.config this)) <= 0 ->
         exists rendered,
           PlayStoreClient.getVersion formatPlayStoreDate this app (VString id)
           = Some ([], Throw (NetworkError
                                ("Failed to fetch Play Store version after "
                                   +:+ rendered +:+ " attempts")
                                None))
           /\ (- 2 ^ 53
               <= retryAttempts
                    (PlayStoreClient.shared (PlayStoreClient.config this)) ->
               rendered
               = show_int (retryAttempts
                             (PlayStoreClient.shared
                                (PlayStoreClient.config this))))).
Proof.
  split.
  - intros this get id Hid Hen Hneg.
    exists (show_int (retryAttempts
                        (AppStoreClient.shared (AppStoreClient.config this)))).
    split; [|reflexivity].
    rewrite (appStore_validated this get id Hid).
    unfold AppStoreClient.max_attempts. rewrite Hen.
    cbn [AppStoreClient.retry_loop].
    rewrite (proj2 (Z.ltb_ge _ _) Hneg). reflexivity.
  - intros fmt this app id Hid Hfmt Hen Hneg.
    exists (show_int (retryAttempts
                        (PlayStoreClient.shared (PlayStoreClient.config this)))).
    split; [|reflexivity].
    rewrite (playStore_validated fmt this app id Hid Hfmt).
    unfold PlayStoreClient.max_attempts. rewrite Hen.
    cbn [PlayStoreClient.retry_loop].
    rewrite (proj2 (Z.ltb_ge _ _) Hneg). reflexivity.
Qed.

Lemma getVersion_without_attempts_witness :
  no_identifier (VString "com.example.app") = false
  /\ PlayStoreClient.package_name_format "com.example.app" = true
  /\ PlayStoreClient.getVersion (fun _ => "2024-01-01T00:00:00.000Z")
       (PlayStoreClient.new
          {| PlayStoreClient.shared :=
               {| timeout := None; userAgent := None; headers := None;
                  retryEnabled := Some true; retryAttempts := Some 0 |};
             PlayStoreClient.language := None;
             PlayStoreClient.country := None;
             PlayStoreClient.includeMetadata := None |})
       (fun _ => Throw (OtherError "unused")) (VString "com.example.app")
     = Some ([], Throw (NetworkError
                          "Failed to fetch Play Store version after 0 attempts"
                          None)).
Proof.
  split; [reflexivity|]. split; [reflexivity|].
  destruct (proj2 getVersion_without_attempts
              (fun _ => "2024-01-01T00:00:00.000Z")
              (PlayStoreClient.new
                 {| PlayStoreClient.shared :=
                      {| timeout := None; userAgent := None; headers := None;
                         retryEnabled := Some true; retryAttempts := Some 0 |};
                    PlayStoreClient.language := None;
                    PlayStoreClient.country := None;
                    PlayStoreClient.includeMetadata := None |})
              (fun _ => Throw (OtherError "unused")) "com.example.app"
              eq_refl eq_refl eq_refl ltac:(simpl; lia))
    as (rendered & E & Hr).
  rewrite (Hr ltac:(simpl; lia)) in E. exact E.
Defined.

(** ** Errors that are not retried *)

(** In the App Store client an attempt that ends in a store error with a
    4xx status, the not-found error of an empty lookup among them, ends the
    call at once: no wait, no further attempt. *)
Lemma appStore_client_error_immediate (get : AppStoreClient.backend)
      (id : string) (maxAttempts attempts : Z) (log : list event) (fuel : nat)
      (message : string) (key : value) (code : Z) :
  attempts < maxAttempts ->
  AppStoreClient.try_attempt id (get (attempts + 1))
  = Throw (AppStoreError message key (Some code)) ->
  400 <= code < 500 ->
  AppStoreClient.retry_loop (S fuel) get id maxAttempts attempts log
  = Some ((log ++ [Request (attempts + 1)])%list,
          Throw (AppStoreError message key (Some code))).
Proof.
  intros Hlt Htry Hcode. cbn [AppStoreClient.retry_loop].
  rewrite (proj2 (Z.ltb_lt _ _) Hlt), Htry.
  rewrite (appStore_catch_client_error _ _ _ _ _ _ Hcode). reflexivity.
Qed.

Lemma appStore_not_found_immediate (get : AppStoreClient.backend)
      (id : string) (maxAttempts attempts : Z) (log : list event) (fuel : nat)
      (response : AppStoreClient.AppStoreResponse) :
  attempts < maxAttempts ->
  get (attempts + 1) = Return response ->
  AppStoreClient.resultCount response = 0 ->
  AppStoreClient.retry_loop (S fuel) get id maxAttempts attempts log
  = Some ((log ++ [Request (attempts + 1)])%list,
          Throw (AppStoreError ("App not found: " +:+ id) (VString id) (Some 404))).
Proof.
  intros Hlt Hget Hcount.
  apply appStore_client_error_immediate; [exact Hlt| |lia].
  unfold AppStoreClient.try_attempt. rewrite Hget, Hcount. reflexivity.
Qed.

(** In the Play Store client the [catch] block of an attempt that is not
    the last one never throws: whatever the error, it waits and retries. *)
Lemma playStore_catch_not_last (packageName : string) (maxAttempts n : Z)
      (e : thrown) :
  n < maxAttempts -> PlayStoreClient.catch_attempt packageName maxAttempts n e = None.
Proof.
  intros H. unfold PlayStoreClient.catch_attempt.
  rewrite (proj2 (Z.leb_gt _ _) H). reflexivity.
Qed.

(** C2 does not hold of the Play Store client.  With the default
    configuration (three attempts) and a backend that yields no record, the
    not-found error with status 404 thrown in the first attempt is not
    raised at once: the client waits 2 seconds, asks again, waits 4 seconds,
    asks a third time, and only then raises a not-found error. *)
Theorem playStore_not_found_is_retried
        (formatPlayStoreDate : PlayStoreClient.updated_value -> string) :
  PlayStoreClient.try_attempt formatPlayStoreDate "com.example.app" (Return None)
  = Throw (PlayStoreError "App not found: com.example.app"
                          (VString "com.example.app") (Some 404))
  /\ PlayStoreClient.getVersion formatPlayStoreDate
       (PlayStoreClient.new PlayStoreClient.no_PlayStoreConfig)
       (fun _ => Return None) (VString "com.example.app")
     = Some ([Request 1; Sleep 2000; Request 2; Sleep 4000; Request 3],
             Throw (PlayStoreError "App not found: com.example.app"
                                   (VString "com.example.app") (Some 404))).
Proof. split; vm_compute; reflexivity. Qed.

(** ** Validation *)

Section Validation.

Import PlayStoreClient.

Lemma split_nonempty (sep : ascii) (s : string) : split sep s <> [].
Proof.
  destruct s as [|c s]; simpl; [discriminate|].
  destruct (Ascii.eqb c sep); [discriminate|].
  destruct (split sep s); discriminate.
Qed.

Lemma dot_is_no_word (c : ascii) : is_word c = true -> Ascii.eqb c "." = false.
Proof.
  intros H. destruct (Ascii.eqb_spec c "."); [subst; discriminate|reflexivity].
Qed.

Lemma dot_is_no_letter (c : ascii) : is_letter c = true -> Ascii.eqb c "." = false.
Proof.
  intros H. destruct (Ascii.eqb_spec c "."); [subst; discriminate|reflexivity].
Qed.

(** The automaton, read off the segments of the string. *)
Lemma re_run_segments (s : string) :
  forall dotted : bool,
    re_run SegmentStart dotted s
    = match split "." s with
      | seg :: rest =>
          spec_segment_ok seg && forallb spec_segment_ok rest
          && (dotted || (0 <? length rest)%nat)
      | [] => false
      end
    /\ re_run InSegment dotted s
       = match split "." s with
         | seg :: rest =>
             all_chars is_word seg && forallb spec_segment_ok rest
             && (dotted || (0 <? length rest)%nat)
         | [] => false
         end.
Proof.
  induction s as [|c s IH]; intros dotted.
  - simpl. rewrite orb_false_r. split; reflexivity.
  - pose proof (split_nonempty "." s) as Hne.
    cbn [re_run split].
    destruct (Ascii.eqb c ".") eqn:Edot.
    + apply Ascii.eqb_eq in Edot. subst c.
      split; [reflexivity|].
      change (is_word ".") with false. cbv iota.
      rewrite (proj1 (IH true)).
      destruct (split "." s) as [|seg rest]; [contradiction|].
      cbn [all_chars forallb length andb orb Nat.ltb Nat.leb].
      rewrite !orb_true_r, !andb_true_r. reflexivity.
    + destruct (split "." s) as [|seg rest]; [contradiction|].
      rewrite (proj2 (IH dotted)).
      cbn [spec_segment_ok all_chars].
      split.
      * destruct (is_letter c), (all_chars is_word seg); reflexivity.
      * destruct (is_word c), (all_chars is_word seg); reflexivity.
Qed.

(** The pattern of the Play Store client accepts exactly the identifiers
    of the specification's grammar. *)
Lemma package_name_format_spec (s : string) :
  package_name_format s = spec_identifier_ok s.
Proof.
  unfold package_name_format, spec_identifier_ok.
  rewrite (proj1 (re_run_segments s false)).
  pose proof (split_nonempty "." s) as Hne.
  destruct (split "." s) as [|seg rest]; [contradiction|].
  cbn [forallb length orb].
  destruct rest as [|seg' rest]; cbn [length Nat.ltb Nat.leb forallb].
  - rewrite !andb_false_r. reflexivity.
  - rewrite andb_true_r. reflexivity.
Qed.

Lemma or_empty_string (s : string) : or_empty (VString s) = VString s.
Proof.
  unfold or_empty, truthy. destruct (String.eqb_spec s ""); [subst|]; reflexivity.
Qed.

End Validation.

(** C3, as amended.  The Play Store client's [getVersion] rejects every
    invalid identifier (a value that is not a string, the empty or blank
    string, a string that is not at least two dot-separated segments of
    letters, digits and underscores each starting with a letter) with a
    [PlayStoreError], before any backend request and without entering the
    retry loop.  The App Store client's [getVersion] rejects in that way the
    values that are not strings and the empty or blank string; it checks no
    format. *)
Theorem getVersion_rejects_invalid :
  (forall (formatPlayStoreDate : PlayStoreClient.updated_value -> string)
          (this : PlayStoreClient.t) (app : PlayStoreClient.backend)
          (id : value),
      spec_invalid id = true ->
      exists message,
        PlayStoreClient.getVersion formatPlayStoreDate this app id
        = Some ([], Throw (PlayStoreError message (or_empty id) None)))
  /\ (forall (this : AppStoreClient.t) (get : AppStoreClient.backend) (id : value),
         no_identifier id = true ->
         exists message,
           AppStoreClient.getVersion this get id
           = Some ([], Throw (AppStoreError message (or_empty id) None))).
Proof.
  split.
  - intros fmt this app id Hinv.
    unfold PlayStoreClient.getVersion, PlayStoreClient.getVersion_fuel.
    destruct id as [| |b|n|s|]; try (eexists; reflexivity).
    rewrite or_empty_string. cbn [spec_invalid] in Hinv.
    destruct (String.length (trim s) =? 0)%nat; [eexists; reflexivity|].
    cbn [orb] in Hinv. rewrite package_name_format_spec, Hinv.
    eexists; reflexivity.
  - intros this get id Hinv.
    unfold AppStoreClient.getVersion, AppStoreClient.getVersion_fuel.
    destruct id as [| |b|n|s|]; try (eexists; reflexivity).
    rewrite or_empty_string. cbn [no_identifier] in Hinv. rewrite Hinv.
    eexists; reflexivity.
Qed.

Lemma getVersion_rejects_invalid_witness :
  spec_invalid (VString "invalid-package") = true
  /\ exists message,
      PlayStoreClient.getVersion (fun _ => "2024-01-01T00:00:00.000Z")
        (PlayStoreClient.new PlayStoreClient.no_PlayStoreConfig)
        (fun _ => Return None) (VString "invalid-package")
      = Some ([], Throw (PlayStoreError message (VString "invalid-package") None)).
Proof.
  split; [reflexivity|].
  exact (proj1 getVersion_rejects_invalid (fun _ => "2024-01-01T00:00:00.000Z")
           (PlayStoreClient.new PlayStoreClient.no_PlayStoreConfig)
           (fun _ => Return None) (VString "invalid-package") eq_refl).
Defined.

(** C3 fails as stated: the App Store client lets a non-empty identifier
    without a dot pass its validation and asks the backend. *)
Lemma getVersion_rejects_invalid_counterexample :
  spec_invalid (VString "nodots") = true
  /\ AppStoreClient.getVersion
       (AppStoreClient.new AppStoreClient.no_AppStoreConfig)
       (fun _ => Return {| AppStoreClient.resultCount := 1;
                           AppStoreClient.results :=
                             [{| AppStoreClient.app_bundleId := "nodots";
                                 AppStoreClient.app_version := "1.0.0";
                                 AppStoreClient.app_currentVersionReleaseDate :=
                                   "2024-01-01T00:00:00Z";
                                 AppStoreClient.app_releaseNotes := "" |}] |})
       (VString "nodots")
     = Some ([Request 1],
             Return {| version := "1.0.0";
                       releaseDate := "2024-01-01T00:00:00Z";
                       releaseNotes := Some "";
                       bundleId := Some "nodots";
                       packageName := None |}).
Proof. split; vm_compute; reflexivity. Qed.

(** ** [checkForUpdates] *)

(** C4.  A [checkForUpdates] call that returns was given a string as current
    version; the [getVersion] call on the same identifier returned a record
    [info]; the result's comparison is
    [compareVersions(currentVersion, info.version)], an update is available
    exactly when the comparison is negative, the current and the latest
    version are echoed, and the update details are [info] when an update is
    available and absent otherwise.  This holds of both clients. *)
Theorem checkForUpdates_result :
  (forall (this : AppStoreClient.t) (get : AppStoreClient.backend)
          (id currentVersion : value) (events : list event)
          (result : UpdateCheckResult),
      AppStoreClient.checkForUpdates this get id currentVersion
      = Some (events, Return result) ->
      exists current info,
        currentVersion = VString current
        /\ AppStoreClient.getVersion this get id = Some (events, Return info)
        /\ versionComparison result = compareVersions current (version info)
        /\ updateAvailable result = (versionComparison result <? 0)
        /\ Types.currentVersion result = current
        /\ latestVersion result = version info
        /\ updateDetails result
           = if updateAvailable result then Some info else None)
  /\ (forall (formatPlayStoreDate : PlayStoreClient.updated_value -> string)
             (this : PlayStoreClient.t) (app : PlayStoreClient.backend)
             (id currentVersion : value) (events : list event)
             (result : UpdateCheckResult),
         PlayStoreClient.checkForUpdates formatPlayStoreDate this app id
                                         currentVersion
         = Some (events, Return result) ->
         exists current info,
           currentVersion = VString current
           /\ PlayStoreClient.getVersion formatPlayStoreDate this app id
              = Some (events, Return info)
           /\ versionComparison result = compareVersions current (version info)
           /\ updateAvailable result = (versionComparison result <? 0)
           /\ Types.currentVersion result = current
           /\ latestVersion result = version info
           /\ updateDetails result
              = if updateAvailable result then Some info else None).
Proof.
  split.
  - intros this get id cur events result.
    unfold AppStoreClient.checkForUpdates.
    destruct cur as [| |b|n|current|]; try discriminate.
    destruct (String.length (trim current) =? 0)%nat; [discriminate|].
    destruct (AppStoreClient.getVersion this get id) as [[log [info|e]]|];
      [|destruct e; discriminate|discriminate].
    intros [= <- <-]. exists current, info. repeat split; reflexivity.
  - intros fmt this app id cur events result.
    unfold PlayStoreClient.checkForUpdates.
    destruct cur as [| |b|n|current|]; try discriminate.
    destruct (String.length (trim current) =? 0)%nat; [discriminate|].
    destruct (PlayStoreClient.getVersion fmt this app id) as [[log [info|e]]|];
      [|destruct e; discriminate|discriminate].
    intros [= <- <-]. exists current, info. repeat split; reflexivity.
Qed.

Lemma checkForUpdates_result_witness :
  exists current info,
    VString "0.0.1" = VString current
    /\ PlayStoreClient.getVersion (fun _ => "2024-01-01T00:00:00.000Z")
         (PlayStoreClient.new PlayStoreClient.no_PlayStoreConfig)
         (fun _ => Return (Some {| PlayStoreClient.details_version := Some "2.3.1";
                                   PlayStoreClient.details_updated :=
                                     PlayStoreClient.UpdatedMissing;
                                   PlayStoreClient.details_recentChanges := None |}))
         (VString "com.example.app")
       = Some ([Request 1], Return info)
    /\ compareVersions current (version info) = -1
    /\ version info = "2.3.1".
Proof.
  destruct (proj2 checkForUpdates_result (fun _ => "2024-01-01T00:00:00.000Z")
              (PlayStoreClient.new PlayStoreClient.no_PlayStoreConfig)
              (fun _ => Return (Some {| PlayStoreClient.details_version := Some "2.3.1";
                                        PlayStoreClient.details_updated :=
                                          PlayStoreClient.UpdatedMissing;
                                        PlayStoreClient.details_recentChanges := None |}))
              (VString "com.example.app") (VString "0.0.1") [Request 1]
              {| updateAvailable := true;
                 currentVersion := "0.0.1";
                 latestVersion := "2.3.1";
                 updateDetails :=
                   Some {| version := "2.3.1";
                           releaseDate := "2024-01-01T00:00:00.000Z";
                           releaseNotes := None;
                           bundleId := None;
                           packageName := Some "com.example.app" |};
                 versionComparison := -1 |}
              eq_refl)
    as (current & info & Hcur & Hget & Hcmp & _ & _ & Hlatest & _).
  exists current, info.
  split; [exact Hcur|]. split; [exact Hget|].
  split; [symmetry; exact Hcmp|symmetry; exact Hlatest].
Defined.

(** ** [exists] *)

(** C7.  For both clients and every identifier: [exists] returns [false]
    exactly when the [getVersion] call it makes throws that store's error
    with status code 404; it returns [true] when [getVersion] returns; and
    any other error that [getVersion] throws is thrown again unchanged. *)
Theorem exists_not_found :
  (forall (this : AppStoreClient.t) (get : AppStoreClient.backend)
          (id : value) (events : list event),
      (AppStoreClient.exists_ this get id = Some (events, Return false)
       <-> exists message key,
             AppStoreClient.getVersion this get id
             = Some (events, Throw (AppStoreError message key (Some 404))))
      /\ (forall info,
             AppStoreClient.getVersion this get id = Some (events, Return info) ->
             AppStoreClient.exists_ this get id = Some (events, Return true))
      /\ (forall error,
             AppStoreClient.getVersion this get id = Some (events, Throw error) ->
             (forall message key, error <> AppStoreError message key (Some 404)) ->
             AppStoreClient.exists_ this get id = Some (events, Throw error)))
  /\ (forall (formatPlayStoreDate : PlayStoreClient.updated_value -> string)
             (this : PlayStoreClient.t) (app : PlayStoreClient.backend)
             (id : value) (events : list event),
         (PlayStoreClient.exists_ formatPlayStoreDate this app id
          = Some (events, Return false)
          <-> exists message key,
                PlayStoreClient.getVersion formatPlayStoreDate this app id
                = Some (events, Throw (PlayStoreError message key (Some 404))))
         /\ (forall info,
                PlayStoreClient.getVersion formatPlayStoreDate this app id
                = Some (events, Return info) ->
                PlayStoreClient.exists_ formatPlayStoreDate this app id
                = Some (events, Return true))
         /\ (forall error,
                PlayStoreClient.getVersion formatPlayStoreDate this app id
                = Some (events, Throw error) ->
                (forall message key, error <> PlayStoreError message key (Some 404)) ->
                PlayStoreClient.exists_ formatPlayStoreDate this app id
                = Some (events, Throw error))).
Proof.
  split.
  - intros this get id events. unfold AppStoreClient.exists_.
    destruct (AppStoreClient.getVersion this get id) as [[log [info|e]]|].
    + split; [split; [discriminate|intros (m & k & [=])]|].
      split; [intros info' [= <- <-]; reflexivity|intros e [=]].
    + split; [|split; [intros info [=]|]].
      * split.
        -- destruct e as [m k [c|]| | | | |]; cbn [AppStoreClient.is_not_found];
             try discriminate.
           destruct (Z.eqb_spec c 404) as [->|]; [|discriminate].
           intros [= <-]. exists m, k. reflexivity.
        -- intros (m & k & [= <- ->]). reflexivity.
      * intros e' [= <- <-] Hne.
        destruct e as [m k [c|]| | | | |]; cbn [AppStoreClient.is_not_found];
          try reflexivity.
        destruct (Z.eqb_spec c 404) as [->|]; [|reflexivity].
        exfalso. exact (Hne m k eq_refl).
    + split; [split; [discriminate|intros (m & k & [=])]|].
      split; [intros info [=]|intros e [=]].
  - intros fmt this app id events. unfold PlayStoreClient.exists_.
    destruct (PlayStoreClient.getVersion fmt this app id) as [[log [info|e]]|].
    + split; [split; [discriminate|intros (m & k & [=])]|].
      split; [intros info' [= <- <-]; reflexivity|intros e [=]].
    + split; [|split; [intros info [=]|]].
      * split.
        -- destruct e as [|m k [c|]| | | |]; cbn [PlayStoreClient.is_not_found];
             try discriminate.
           destruct (Z.eqb_spec c 404) as [->|]; [|discriminate].
           intros [= <-]. exists m, k. reflexivity.
        -- intros (m & k & [= <- ->]). reflexivity.
      * intros e' [= <- <-] Hne.
        destruct e as [|m k [c|]| | | |]; cbn [PlayStoreClient.is_not_found];
          try reflexivity.
        destruct (Z.eqb_spec c 404) as [->|]; [|reflexivity].
        exfalso. exact (Hne m k eq_refl).
    + split; [split; [discriminate|intros (m & k & [=])]|].
      split; [intros info [=]|intros e [=]].
Qed.

Lemma exists_not_found_witness :
  AppStoreClient.exists_
    (AppStoreClient.new AppStoreClient.no_AppStoreConfig)
    (fun _ => Throw (OtherError "socket hang up")) (VString "com.example.app")
  = Some ([Request 1; Sleep 2000; Request 2; Sleep 4000; Request 3],
          Throw (NetworkError
                   "Network error while fetching App Store version: socket hang up"
                   (Some (OtherError "socket hang up")))).
Proof.
  apply (proj1 exists_not_found
           (AppStoreClient.new AppStoreClient.no_AppStoreConfig)
           (fun _ => Throw (OtherError "socket hang up"))
           (VString "com.example.app")).
  - reflexivity.
  - intros message key. discriminate.
Defined.

(** ** The error of an exhausted call *)

Section Exhausted.

(** When every attempt fails with [failure n], the call stops at the last
    attempt, whose [catch] block throws. *)
Lemma loop_exhausted {A : Type} (attempt : Z -> completion A)
      (handler : Z -> thrown -> option thrown) (fallback : thrown)
      (maxAttempts : Z) (failure : Z -> thrown) (last : thrown -> thrown) :
  1 <= maxAttempts ->
  (forall n, 1 <= n <= maxAttempts -> attempt n = Throw (failure n)) ->
  (forall n, 1 <= n <= maxAttempts ->
             handler n (failure n)
             = if maxAttempts <=? n then Some (last (failure n)) else None) ->
  Retry.loop attempt handler fallback maxAttempts (S (Z.to_nat maxAttempts)) 0 []
  = Some (Retry.schedule (Z.to_nat maxAttempts),
          Throw (last (failure maxAttempts))).
Proof.
  intros Hmax Hatt Hhandle.
  assert (Hgen : forall fuel j,
             Z.of_nat j < maxAttempts ->
             (Z.to_nat maxAttempts - j <= fuel)%nat ->
             Retry.loop attempt handler fallback maxAttempts fuel
                        (Z.of_nat j) (Retry.before_attempt j)
             = Some (Retry.schedule (Z.to_nat maxAttempts),
                     Throw (last (failure maxAttempts)))).
  { induction fuel as [|fuel IH]; intros j Hj Hfuel; [lia|].
    cbn [Retry.loop]. rewrite (proj2 (Z.ltb_lt _ _) Hj).
    replace (Z.of_nat j + 1) with (Z.of_nat (S j)) by lia.
    rewrite (Hatt (Z.of_nat (S j))) by lia.
    rewrite (Hhandle (Z.of_nat (S j))) by lia.
    destruct (Z.leb_spec maxAttempts (Z.of_nat (S j))) as [Hle|Hgt].
    - assert (E : Z.of_nat (S j) = maxAttempts) by lia.
      rewrite E. replace (Z.to_nat maxAttempts) with (S j) by lia.
      cbn [Retry.schedule]. rewrite E. reflexivity.
    - rewrite <- (IH (S j) Hgt ltac:(lia)).
      cbn [Retry.before_attempt]. rewrite <- app_assoc. reflexivity. }
  apply (Hgen (S (Z.to_nat maxAttempts)) 0%nat); lia.
Qed.

End Exhausted.

Lemma appStore_last_error_exhausted (bundleId : string) (failure raised : thrown) :
  appStore_last_error failure = Some raised ->
  upstream_failure failure = true
  /\ appStore_exhausted bundleId failure = raised.
Proof.
  destruct failure; try discriminate; intros [= <-]; split; reflexivity.
Qed.

Lemma playStore_last_error_exhausted (packageName : string)
      (failure raised : thrown) :
  playStore_last_error packageName failure = Some raised ->
  upstream_failure failure = true
  /\ playStore_exhausted packageName failure = raised.
Proof.
  destruct failure as [ | |m o|m c|m|[text|typeError]]; try discriminate;
    cbn [playStore_last_error playStore_exhausted upstream_failure].
  - destruct (_ || _); [intros [= <-]; split; reflexivity|].
    destruct (_ || _); intros [= <-]; split; reflexivity.
  - destruct (_ || _); [intros [= <-]; split; reflexivity|].
    destruct (_ || _); intros [= <-]; split; reflexivity.
  - intros [= <-]. split; reflexivity.
Qed.

(** C8, as amended.  When every attempt of a [getVersion] call fails with a
    failure of the transport or of the upstream library, the call makes all
    its [maxAttempts] attempts and what it raises is decided by the last
    failure.  App Store client, the last failure not being an [AxiosError]:
    a [NetworkError] around the failure when it is an [Error], a
    [NetworkError] without cause when the thrown value is not an [Error].
    Play Store client: a not-found [PlayStoreError] when the failure's
    message contains [not found] or [404]; otherwise a [NetworkError] around
    the failure when the message contains [network] or [timeout]; otherwise
    a [PlayStoreError] without status; a [NetworkError] without cause when
    the thrown value is not an [Error] and [JSON.stringify] renders it.
    When every attempt of the App Store client receives a response that
    counts results and holds none, the call makes all its attempts and
    raises the invalid-format [AppStoreError]. *)
Theorem getVersion_exhausted :
  (forall (this : AppStoreClient.t) (get : AppStoreClient.backend) (id : string)
          (failure : Z -> thrown) (raised : thrown),
      no_identifier (VString id) = false ->
      1 <= AppStoreClient.max_attempts this ->
      (forall n, 1 <= n <= AppStoreClient.max_attempts this ->
                 get n = Throw (failure n) /\ upstream_failure (failure n) = true) ->
      appStore_last_error (failure (AppStoreClient.max_attempts this))
      = Some raised ->
      AppStoreClient.getVersion this get (VString id)
      = Some (Retry.schedule (Z.to_nat (AppStoreClient.max_attempts this)),
              Throw raised))
  /\ (forall (formatPlayStoreDate : PlayStoreClient.updated_value -> string)
             (this : PlayStoreClient.t) (app : PlayStoreClient.backend)
             (id : string) (failure : Z -> thrown) (raised : thrown),
         no_identifier (VString id) = false ->
         PlayStoreClient.package_name_format id = true ->
         1 <= PlayStoreClient.max_attempts this ->
         (forall n, 1 <= n <= PlayStoreClient.max_attempts this ->
                    app n = Throw (failure n) /\ upstream_failure (failure n) = true) ->
         playStore_last_error id (failure (PlayStoreClient.max_attempts this))
         = Some raised ->
         PlayStoreClient.getVersion formatPlayStoreDate this app (VString id)
         = Some (Retry.schedule (Z.to_nat (PlayStoreClient.max_attempts this)),
                 Throw raised))
  /\ (forall (this : AppStoreClient.t) (get : AppStoreClient.backend)
             (id : string),
         no_identifier (VString id) = false ->
         1 <= AppStoreClient.max_attempts this ->
         (forall n, 1 <= n <= AppStoreClient.max_attempts this ->
                    exists response,
                      get n = Return response
                      /\ AppStoreClient.resultCount response <> 0
                      /\ AppStoreClient.results response = []) ->
         AppStoreClient.getVersion this get (VString id)
         = Some (Retry.schedule (Z.to_nat (AppStoreClient.max_attempts this)),
                 Throw (AppStoreError ("Invalid response format for " +:+ id)
                                      (VString id) None))).
Proof.
  split; [|split].
  - intros this get id failure raised Hid Hmax Hfail Hlast.
    destruct (appStore_last_error_exhausted id _ _ Hlast) as [_ <-].
    rewrite (appStore_validated this get id Hid), appStore_loop_shape.
    apply (loop_exhausted _ _ _ _ failure (appStore_exhausted id) Hmax).
    + intros n Hn. destruct (Hfail n Hn) as [-> _]. reflexivity.
    + intros n Hn. destruct (Hfail n Hn) as [_ Hup].
      apply appStore_catch_upstream, Hup.
  - intros fmt this app id failure raised Hid Hfmt Hmax Hfail Hlast.
    destruct (playStore_last_error_exhausted id _ _ Hlast) as [_ <-].
    rewrite (playStore_validated fmt this app id Hid Hfmt), playStore_loop_shape.
    apply (loop_exhausted _ _ _ _ failure (playStore_exhausted id) Hmax).
    + intros n Hn. destruct (Hfail n Hn) as [-> _]. reflexivity.
    + intros n Hn. destruct (Hfail n Hn) as [_ Hup].
      unfold PlayStoreClient.catch_attempt.
      rewrite playStore_classify_upstream by exact Hup. reflexivity.
  - intros this get id Hid Hmax Hresp.
    rewrite (appStore_validated this get id Hid), appStore_loop_shape.
    apply (loop_exhausted _ _ _ _
             (fun _ => AppStoreError ("Invalid response format for " +:+ id)
                                     (VString id) None)
             (fun e => e) Hmax).
    + intros n Hn. destruct (Hresp n Hn) as (response & -> & Hcount & Hres).
      unfold AppStoreClient.try_attempt.
      rewrite (proj2 (Z.eqb_neq _ _) Hcount), Hres. reflexivity.
    + intros n Hn. unfold AppStoreClient.catch_attempt.
      destruct (AppStoreClient.max_attempts this <=? n); reflexivity.
Qed.

Lemma getVersion_exhausted_witness :
  PlayStoreClient.getVersion (fun _ => "2024-01-01T00:00:00.000Z")
    (PlayStoreClient.new PlayStoreClient.no_PlayStoreConfig)
    (fun _ => Throw (OtherError "request timeout")) (VString "com.example.app")
  = Some ([Request 1; Sleep 2000; Request 2; Sleep 4000; Request 3],
          Throw (NetworkError
                   "Network error while fetching Play Store version: request timeout"
                   (Some (OtherError "request timeout")))).
Proof.
  apply (proj1 (proj2 getVersion_exhausted)
           (fun _ => "2024-01-01T00:00:00.000Z")
           (PlayStoreClient.new PlayStoreClient.no_PlayStoreConfig)
           (fun _ => Throw (OtherError "request timeout")) "com.example.app"
           (fun _ => OtherError "request timeout")).
  - reflexivity.
  - reflexivity.
  - vm_compute. discriminate.
  - intros n _. split; reflexivity.
  - reflexivity.
Defined.

(** C8 fails as stated.  In the Play Store client a refused connection on
    every attempt, a failure of the transport without any response, ends in
    a [PlayStoreError], which does not carry the original failure: the
    [catch] block goes by the words of the message, and this one holds
    neither [network] nor [timeout].  In the App Store client a thrown value
    that is not an [Error] ends in a [NetworkError] without cause. *)
Lemma getVersion_exhausted_counterexample :
  PlayStoreClient.getVersion (fun _ => "2024-01-01T00:00:00.000Z")
    (PlayStoreClient.new PlayStoreClient.no_PlayStoreConfig)
    (fun _ => Throw (OtherError "connect ECONNREFUSED 142.250.0.1:443"))
    (VString "com.example.app")
  = Some ([Request 1; Sleep 2000; Request 2; Sleep 4000; Request 3],
          Throw (PlayStoreError
                   "Failed to fetch Play Store version: connect ECONNREFUSED 142.250.0.1:443"
                   (VString "com.example.app") None))
  /\ AppStoreClient.getVersion
       (AppStoreClient.new AppStoreClient.no_AppStoreConfig)
       (fun _ => Throw (NonError (Rendered "{}"))) (VString "com.example.app")
     = Some ([Request 1; Sleep 2000; Request 2; Sleep 4000; Request 3],
             Throw (NetworkError
                      "Network error while fetching App Store version: Unknown error"
                      None)).
Proof. split; vm_compute; reflexivity. Qed.

(** ** The facade *)

Lemma coalesce_spread_value {A : Type} (a d : A) (o : property A) :
  coalesce (spread_property (Value a) o) d = amended_override d a o.
Proof. destruct o; reflexivity. Qed.

Lemma coalesce_spread_absent {A : Type} (d : A) (o : property A) :
  coalesce (spread_property Absent o) d = amended_override d d o.
Proof. destruct o; reflexivity. Qed.

Lemma amended_override_defined {A : Type} (d base : A) (o : property A) :
  defined o = true -> amended_override d base o = spec_override base (held o).
Proof. destruct o; [reflexivity|discriminate|reflexivity]. Qed.

Lemma amended_override_shared_defined (d base : NodeMawConfig_ required)
      (over : NodeMawConfig_ property) :
  defined_shared over = true ->
  amended_override_shared d base over
  = spec_override_shared base (held_shared over).
Proof.
  unfold defined_shared. intros H.
  apply andb_true_iff in H as [H Hra]. apply andb_true_iff in H as [H Hre].
  apply andb_true_iff in H as [H Hh]. apply andb_true_iff in H as [Ht Hua].
  unfold amended_override_shared, spec_override_shared, held_shared.
  cbn [timeout userAgent headers retryEnabled retryAttempts].
  rewrite !amended_override_defined by assumption. reflexivity.
Qed.

Lemma appStore_construct_config (cfg : NodeMaw.LiteralConfig) :
  AppStoreClient.getConfig (NodeMaw.appStoreClient (NodeMaw.construct cfg))
  = amended_appStore_config cfg.
Proof.
  destruct cfg as [[t ua h re ra] app play].
  unfold NodeMaw.construct, amended_appStore_config, AppStoreClient.getConfig,
    AppStoreClient.construct, AppStoreClient.spread_literal,
    spread_literal_shared, amended_override_shared.
  cbn -[replace coalesce spread_property amended_override].
  rewrite !coalesce_spread_value, !coalesce_spread_absent.
  destruct t, ua, h, re, ra; reflexivity.
Qed.

Lemma playStore_construct_config (cfg : NodeMaw.LiteralConfig) :
  PlayStoreClient.getConfig (NodeMaw.playStoreClient (NodeMaw.construct cfg))
  = amended_playStore_config cfg.
Proof.
  destruct cfg as [[t ua h re ra] app play].
  unfold NodeMaw.construct, amended_playStore_config, PlayStoreClient.getConfig,
    PlayStoreClient.construct, PlayStoreClient.spread_literal,
    spread_literal_shared, amended_override_shared.
  cbn -[replace coalesce spread_property amended_override].
  rewrite !coalesce_spread_value, !coalesce_spread_absent.
  destruct t, ua, h, re, ra; reflexivity.
Qed.

Lemma given_held {A : Type} (o : option A) : held (given o) = o.
Proof. destruct o; reflexivity. Qed.

Lemma coalesce_given {A : Type} (o : option A) (d : A) :
  coalesce (given o) d = nullish o d.
Proof. destruct o; reflexivity. Qed.

Lemma spread_given {A : Type} (a b : option A) :
  spread_property (given a) (given b) = given (spread a b).
Proof. destruct a, b; reflexivity. Qed.

Lemma appStore_new_construct (cfg : AppStoreClient.AppStoreConfig) :
  AppStoreClient.new cfg = AppStoreClient.construct (AppStoreClient.raw cfg).
Proof.
  unfold AppStoreClient.new, AppStoreClient.construct, AppStoreClient.raw,
    raw_shared. cbn -[coalesce]. rewrite !coalesce_given. reflexivity.
Qed.

Lemma playStore_new_construct (cfg : PlayStoreClient.PlayStoreConfig) :
  PlayStoreClient.new cfg = PlayStoreClient.construct (PlayStoreClient.raw cfg).
Proof.
  unfold PlayStoreClient.new, PlayStoreClient.construct, PlayStoreClient.raw,
    raw_shared. cbn -[coalesce]. rewrite !coalesce_given. reflexivity.
Qed.

Lemma raw_spread_shared (a b : NodeMawConfig) :
  raw_shared (spread_shared a b)
  = spread_literal_shared (raw_shared a) (raw_shared b).
Proof.
  unfold raw_shared, spread_shared, spread_literal_shared.
  cbn -[spread spread_property given]. rewrite !spread_given. reflexivity.
Qed.

Lemma appStore_raw_spread (a b : AppStoreClient.AppStoreConfig) :
  AppStoreClient.raw (AppStoreClient.spread_config a b)
  = AppStoreClient.spread_literal (AppStoreClient.raw a) (AppStoreClient.raw b).
Proof.
  unfold AppStoreClient.raw, AppStoreClient.spread_config,
    AppStoreClient.spread_literal.
  cbn -[spread spread_property given raw_shared spread_shared
          spread_literal_shared].
  rewrite raw_spread_shared, !spread_given. reflexivity.
Qed.

Lemma playStore_raw_spread (a b : PlayStoreClient.PlayStoreConfig) :
  PlayStoreClient.raw (PlayStoreClient.spread_config a b)
  = PlayStoreClient.spread_literal (PlayStoreClient.raw a)
      (PlayStoreClient.raw b).
Proof.
  unfold PlayStoreClient.raw, PlayStoreClient.spread_config,
    PlayStoreClient.spread_literal.
  cbn -[spread spread_property given raw_shared spread_shared
          spread_literal_shared].
  rewrite raw_spread_shared, !spread_given. reflexivity.
Qed.

(** The constructor on option fields is the constructor on the object
    literals none of whose properties is explicitly [undefined]. *)
Lemma facade_new_construct (cfg : NodeMaw.UnifiedNodeMawConfig) :
  NodeMaw.new cfg = NodeMaw.construct (NodeMaw.raw cfg).
Proof.
  destruct cfg as [[t ua h re ra] app play].
  unfold NodeMaw.new, NodeMaw.construct, NodeMaw.raw.
  rewrite appStore_new_construct, playStore_new_construct,
    appStore_raw_spread, playStore_raw_spread.
  cbn -[replace coalesce nullish AppStoreClient.construct
          PlayStoreClient.construct AppStoreClient.spread_literal
          PlayStoreClient.spread_literal AppStoreClient.raw
          PlayStoreClient.raw given].
  rewrite !coalesce_given.
  destruct app, play; reflexivity.
Qed.

(** C6, as amended.  Whatever configuration is written to the facade's
    constructor, the configuration of each store client is that store's
    defaults, overridden by the shared fields that hold a value (the user
    agent with the store's token in place of the shared one), overridden by
    that store's own override, where an override property that holds a value
    replaces the field and one that is explicitly [undefined] puts the field
    back to the store's default; the override of the other store does not
    enter.  When no override property is explicitly [undefined] this is the
    plain layering of defaults, shared fields and override.  With shared
    [{timeout: 5000}] and App Store override [{country: "ca"}], the App
    Store client has timeout 5000, country ["ca"] and defaults elsewhere,
    the Play Store client timeout 5000 and its own defaults. *)
Theorem facade_construction :
  (forall cfg : NodeMaw.LiteralConfig,
      AppStoreClient.getConfig (NodeMaw.appStoreClient (NodeMaw.construct cfg))
      = amended_appStore_config cfg
      /\ PlayStoreClient.getConfig (NodeMaw.playStoreClient (NodeMaw.construct cfg))
         = amended_playStore_config cfg)
  /\ (forall cfg : NodeMaw.LiteralConfig,
         defined_overrides cfg = true ->
         AppStoreClient.getConfig (NodeMaw.appStoreClient (NodeMaw.construct cfg))
         = spec_literal_appStore_config cfg
         /\ PlayStoreClient.getConfig
              (NodeMaw.playStoreClient (NodeMaw.construct cfg))
            = spec_literal_playStore_config cfg)
  /\ (forall sharedConfig appOverride playOverride playOverride',
         NodeMaw.appStoreClient
           (NodeMaw.construct {| NodeMaw.literal_top := sharedConfig;
                                 NodeMaw.literal_appStore := appOverride;
                                 NodeMaw.literal_playStore := playOverride |})
         = NodeMaw.appStoreClient
             (NodeMaw.construct {| NodeMaw.literal_top := sharedConfig;
                                   NodeMaw.literal_appStore := appOverride;
                                   NodeMaw.literal_playStore := playOverride' |}))
  /\ (forall sharedConfig appOverride appOverride' playOverride,
         NodeMaw.playStoreClient
           (NodeMaw.construct {| NodeMaw.literal_top := sharedConfig;
                                 NodeMaw.literal_appStore := appOverride;
                                 NodeMaw.literal_playStore := playOverride |})
         = NodeMaw.playStoreClient
             (NodeMaw.construct {| NodeMaw.literal_top := sharedConfig;
                                   NodeMaw.literal_appStore := appOverride';
                                   NodeMaw.literal_playStore := playOverride |}))
  /\ (let facade :=
        NodeMaw.construct
          {| NodeMaw.literal_top :=
               {| timeout := Value 5000; userAgent := Absent; headers := Absent;
                  retryEnabled := Absent; retryAttempts := Absent |};
             NodeMaw.literal_appStore :=
               Value {| AppStoreClient.shared := absent_NodeMawConfig;
                        AppStoreClient.country := Value "ca";
                        AppStoreClient.includeMetadata := Absent |};
             NodeMaw.literal_playStore := Absent |} in
      AppStoreClient.getConfig (NodeMaw.appStoreClient facade)
      = {| AppStoreClient.shared :=
             {| timeout := 5000; userAgent := "node-maw-appstore/1.0.0";
                headers := ∅; retryEnabled := true; retryAttempts := 3 |};
           AppStoreClient.country := "ca";
           AppStoreClient.includeMetadata := false |}
      /\ PlayStoreClient.getConfig (NodeMaw.playStoreClient facade)
         = {| PlayStoreClient.shared :=
                {| timeout := 5000; userAgent := "node-maw-playstore/1.0.0";
                   headers := ∅; retryEnabled := true; retryAttempts := 3 |};
              PlayStoreClient.language := "en";
              PlayStoreClient.country := "us";
              PlayStoreClient.includeMetadata := false |}).
Proof.
  split; [|split; [|split; [|split]]].
  - intros cfg. split;
      [apply appStore_construct_config|apply playStore_construct_config].
  - intros cfg Hdef. unfold defined_overrides in Hdef.
    apply andb_true_iff in Hdef as [Happ Hplay].
    rewrite appStore_construct_config, playStore_construct_config. split.
    + unfold amended_appStore_config, spec_literal_appStore_config,
        spec_appStore_config, held_appStore.
      unfold AppStoreClient.defined_config in Happ.
      apply andb_true_iff in Happ as [Happ Him].
      apply andb_true_iff in Happ as [Hsh Hc].
      destruct (NodeMaw.literal_appStore cfg) as [| |over];
        cbn [coalesce spec_override] in *;
        rewrite (amended_override_shared_defined _ _ _ Hsh),
          !amended_override_defined by assumption; reflexivity.
    + unfold amended_playStore_config, spec_literal_playStore_config,
        spec_playStore_config, held_playStore.
      unfold PlayStoreClient.defined_config in Hplay.
      apply andb_true_iff in Hplay as [Hplay Him].
      apply andb_true_iff in Hplay as [Hplay Hc].
      apply andb_true_iff in Hplay as [Hsh Hl].
      destruct (NodeMaw.literal_playStore cfg) as [| |over];
        cbn [coalesce spec_override] in *;
        rewrite (amended_override_shared_defined _ _ _ Hsh),
          !amended_override_defined by assumption; reflexivity.
  - reflexivity.
  - reflexivity.
  - split; reflexivity.
Qed.

Lemma facade_construction_witness :
  AppStoreClient.getConfig
    (NodeMaw.appStoreClient
       (NodeMaw.construct
          {| NodeMaw.literal_top :=
               {| timeout := Value 5000; userAgent := Undefined;
                  headers := Absent; retryEnabled := Absent;
                  retryAttempts := Absent |};
             NodeMaw.literal_appStore :=
               Value {| AppStoreClient.shared := absent_NodeMawConfig;
                        AppStoreClient.country := Value "ca";
                        AppStoreClient.includeMetadata := Absent |};
             NodeMaw.literal_playStore := Undefined |}))
  = {| AppStoreClient.shared :=
         {| timeout := 5000; userAgent := "node-maw-appstore/1.0.0";
            headers := ∅; retryEnabled := true; retryAttempts := 3 |};
       AppStoreClient.country := "ca";
       AppStoreClient.includeMetadata := false |}.
Proof.
  exact (proj1 (proj1 (proj2 facade_construction)
           {| NodeMaw.literal_top :=
                {| timeout := Value 5000; userAgent := Undefined;
                   headers := Absent; retryEnabled := Absent;
                   retryAttempts := Absent |};
              NodeMaw.literal_appStore :=
                Value {| AppStoreClient.shared := absent_NodeMawConfig;
                         AppStoreClient.country := Value "ca";
                         AppStoreClient.includeMetadata := Absent |};
              NodeMaw.literal_playStore := Undefined |}
           eq_refl)).
Defined.

(** C6 fails as stated: with shared [{timeout: 5000}] and App Store override
    [{timeout: undefined, country: "ca"}] the App Store client's time-out is
    the default 10000, where the layering of defaults, shared fields and
    override gives the shared 5000. *)
Lemma facade_construction_counterexample :
  timeout
    (AppStoreClient.shared
       (AppStoreClient.getConfig
          (NodeMaw.appStoreClient
             (NodeMaw.construct
                {| NodeMaw.literal_top :=
                     {| timeout := Value 5000; userAgent := Absent;
                        headers := Absent; retryEnabled := Absent;
                        retryAttempts := Absent |};
                   NodeMaw.literal_appStore :=
                     Value {| AppStoreClient.shared :=
                                {| timeout := Undefined; userAgent := Absent;
                                   headers := Absent; retryEnabled := Absent;
                                   retryAttempts := Absent |};
                              AppStoreClient.country := Value "ca";
                              AppStoreClient.includeMetadata := Absent |};
                   NodeMaw.literal_playStore := Absent |}))))
  = 10000
  /\ timeout
       (AppStoreClient.shared
          (spec_literal_appStore_config
             {| NodeMaw.literal_top :=
                  {| timeout := Value 5000; userAgent := Absent;
                     headers := Absent; retryEnabled := Absent;
                     retryAttempts := Absent |};
                NodeMaw.literal_appStore :=
                  Value {| AppStoreClient.shared :=
                             {| timeout := Undefined; userAgent := Absent;
                                headers := Absent; retryEnabled := Absent;
                                retryAttempts := Absent |};
                           AppStoreClient.country := Value "ca";
                           AppStoreClient.includeMetadata := Absent |};
                NodeMaw.literal_playStore := Absent |}))
     = 5000.
Proof. split; reflexivity. Qed.

Lemma some_other_key_spec (partial : NodeMaw.UnifiedNodeMawConfig) :
  NodeMaw.some_other_key partial = spec_has_shared_field (NodeMaw.top partial).
Proof.
  destruct partial as [[t ua h re ra] app play].
  destruct t, ua, h, re, ra, app, play; reflexivity.
Qed.



(** * Further properties *)

(** ** [compareVersions]: order properties *)

Section CompareOrder.

Lemma lt_irrefl (x : number) : lt x x = false.
Proof. destruct x as [|z|]; simpl; [reflexivity|apply Z.ltb_irrefl|reflexivity]. Qed.

Lemma lt_asym (x y : number) : lt x y = true -> lt y x = false.
Proof.
  destruct x as [|a|], y as [|b|]; simpl; try discriminate; try reflexivity.
  intros H. apply Z.ltb_lt in H. apply Z.ltb_ge. lia.
Qed.

Lemma compare_parts_swap (parts1 parts2 : list number) (steps : nat) :
  forall i, compare_parts parts2 parts1 steps i
            = - compare_parts parts1 parts2 steps i.
Proof.
  induction steps as [|steps IH]; intros i; [reflexivity|].
  cbn [compare_parts].
  destruct (lt (or_zero (parts1 !! i)) (or_zero (parts2 !! i))) eqn:E12.
  - rewrite (lt_asym _ _ E12). reflexivity.
  - destruct (lt (or_zero (parts2 !! i)) (or_zero (parts1 !! i)));
      [reflexivity|apply IH].
Qed.

Lemma compare_parts_same (parts : list number) (steps : nat) :
  forall i, compare_parts parts parts steps i = 0.
Proof.
  induction steps as [|steps IH]; intros i; [reflexivity|].
  cbn [compare_parts]. rewrite lt_irrefl. apply IH.
Qed.

Lemma filter_chars_app (keep : ascii -> bool) (s t : string) :
  filter_chars keep (s +:+ t) = filter_chars keep s +:+ filter_chars keep t.
Proof.
  induction s as [|c s IH]; [reflexivity|].
  simpl. destruct (keep c); simpl; rewrite IH; reflexivity.
Qed.

Lemma split_app_sep (sep : ascii) (s t : string) :
  split sep (s +:+ String sep t) = (split sep s ++ split sep t)%list.
Proof.
  induction s as [|c s IH].
  - simpl. rewrite Ascii.eqb_refl. reflexivity.
  - simpl. rewrite IH.
    destruct (Ascii.eqb c sep); [reflexivity|].
    pose proof (split_nonempty sep s) as Hne.
    destruct (split sep s) as [|seg rest]; [contradiction|]. reflexivity.
Qed.

Lemma or_zero_snoc_zero (parts : list number) (k : nat) :
  or_zero ((parts ++ [Finite 0])%list !! k) = or_zero (parts !! k).
Proof.
  destruct (Nat.lt_ge_cases k (length parts)) as [Hk|Hk].
  - rewrite lookup_app_l by exact Hk. reflexivity.
  - rewrite lookup_app_r by exact Hk.
    rewrite (proj2 (lookup_ge_None parts k)) by exact Hk.
    destruct (k - length parts)%nat as [|[|m]]; reflexivity.
Qed.

Lemma clean_sentinel (v : string) :
  spec_is_sentinel v = true -> clean v = "".
Proof.
  unfold spec_is_sentinel. intros H. apply orb_true_iff in H as [H|H];
    apply String.eqb_eq in H; subst; reflexivity.
Qed.

Lemma compareVersions_swap (a b : string) :
  (spec_is_sentinel a && spec_is_sentinel b && negb (String.eqb a b)) = false ->
  compareVersions b a = - compareVersions a b.
Proof.
  unfold compareVersions, spec_is_sentinel. intros H.
  rewrite (String.eqb_sym b a).
  destruct (String.eqb a b); [reflexivity|].
  destruct (String.eqb a "Unknown" || String.eqb a "VARY"),
           (String.eqb b "Unknown" || String.eqb b "VARY");
    try discriminate; try reflexivity.
  cbv zeta. rewrite Nat.max_comm. apply compare_parts_swap.
Qed.

End CompareOrder.

(** X1.  Swapping the arguments of [compareVersions] negates the result,
    unless the two are different sentinels (then both orders give -1). *)
Theorem compareVersions_antisymmetric (a b : string) :
  (spec_is_sentinel a && spec_is_sentinel b && negb (String.eqb a b)) = false ->
  compareVersions b a = - compareVersions a b.
Proof. apply compareVersions_swap. Qed.

Lemma compareVersions_antisymmetric_witness :
  compareVersions "2.0" "Unknown" = - compareVersions "Unknown" "2.0"
  /\ compareVersions "VARY" "Unknown" = -1
  /\ compareVersions "Unknown" "VARY" = -1.
Proof.
  split; [apply (compareVersions_antisymmetric "Unknown" "2.0"); reflexivity|].
  split; reflexivity.
Defined.

(** X2.  Two versions that are not sentinels and differ only in characters
    other than digits and dots compare as equal. *)
Theorem compareVersions_ignores_other_characters (a b : string) :
  spec_is_sentinel a = false -> spec_is_sentinel b = false ->
  clean a = clean b ->
  compareVersions a b = 0.
Proof.
  unfold compareVersions, spec_is_sentinel. intros -> -> Hclean.
  destruct (String.eqb a b); [reflexivity|].
  cbv zeta. rewrite Hclean. apply compare_parts_same.
Qed.

Lemma compareVersions_ignores_other_characters_witness :
  compareVersions "v1.2.0" "1.2.0-beta" = 0.
Proof.
  apply (compareVersions_ignores_other_characters "v1.2.0" "1.2.0-beta");
    reflexivity.
Defined.

(** X3.  A version that is not a sentinel compares as equal to itself with a
    further [.0] segment, in either order. *)
Theorem compareVersions_trailing_zero (a : string) :
  spec_is_sentinel a = false ->
  compareVersions (a +:+ ".0") a = 0 /\ compareVersions a (a +:+ ".0") = 0.
Proof.
  intros Ha.
  assert (Hs : spec_is_sentinel (a +:+ ".0") = false).
  { destruct (spec_is_sentinel (a +:+ ".0")) eqn:E; [|reflexivity].
    apply clean_sentinel in E. unfold clean in E.
    rewrite filter_chars_app in E.
    destruct (filter_chars _ a); discriminate. }
  assert (H1 : compareVersions (a +:+ ".0") a = 0).
  { unfold compareVersions. unfold spec_is_sentinel in Ha, Hs. rewrite Ha, Hs.
    destruct (String.eqb (a +:+ ".0") a); [reflexivity|].
    cbv zeta. unfold clean at 1. rewrite filter_chars_app.
    change (filter_chars _ ".0") with (String "." "0").
    fold (clean a). rewrite split_app_sep, map_app.
    change (map Number (split "." "0")) with [Finite 0].
    rewrite (compare_parts_ext _ _ (map Number (split "." (clean a)))
                               (map Number (split "." (clean a))));
      [apply compare_parts_same|intros k; apply or_zero_snoc_zero|reflexivity]. }
  split; [exact H1|].
  rewrite (compareVersions_swap (a +:+ ".0") a), H1; [reflexivity|].
  rewrite Ha, andb_false_r. reflexivity.
Qed.

Lemma compareVersions_trailing_zero_witness :
  compareVersions "3.1.0" "3.1" = 0 /\ compareVersions "3.1" "3.1.0" = 0.
Proof. exact (compareVersions_trailing_zero "3.1" eq_refl). Defined.

(** ** [getVersion]: what a run looks like *)

Section Runs.

Lemma appStore_getVersion_runs (this : AppStoreClient.t)
      (get : AppStoreClient.backend) (s : string) :
  no_identifier (VString s) = false ->
  (AppStoreClient.max_attempts this <= 0
   /\ AppStoreClient.getVersion this get (VString s)
      = Some ([], Throw (NetworkError
                           ("Failed to fetch App Store version after "
                              +:+ show_int (AppStoreClient.max_attempts this)
                              +:+ " attempts") None)))
  \/ (exists k outcome,
        (1 <= k)%nat /\ Z.of_nat k <= AppStoreClient.max_attempts this
        /\ AppStoreClient.getVersion this get (VString s)
           = Some (Retry.schedule k, outcome)
        /\ Retry.settles (fun n => AppStoreClient.try_attempt s (get n))
             (AppStoreClient.catch_attempt s (AppStoreClient.max_attempts this))
             k outcome).
Proof.
  intros Hid. rewrite (appStore_validated this get s Hid), appStore_loop_shape.
  destruct (loop_runs (fun n => AppStoreClient.try_attempt s (get n))
              (AppStoreClient.catch_attempt s (AppStoreClient.max_attempts this))
              (NetworkError ("Failed to fetch App Store version after "
                               +:+ show_int (AppStoreClient.max_attempts this)
                               +:+ " attempts") None)
              (AppStoreClient.max_attempts this)
              (appStore_catch_last s (AppStoreClient.max_attempts this)))
    as [[Hneg Hrun]|(k & outcome & Hk & Hmax & Hrun & _ & Hst)].
  - left. split; assumption.
  - right. exists k, outcome. repeat split; assumption.
Qed.

Lemma playStore_getVersion_runs
      (formatPlayStoreDate : PlayStoreClient.updated_value -> string)
      (this : PlayStoreClient.t) (app : PlayStoreClient.backend) (s : string) :
  no_identifier (VString s) = false ->
  PlayStoreClient.package_name_format s = true ->
  (PlayStoreClient.max_attempts this <= 0
   /\ PlayStoreClient.getVersion formatPlayStoreDate this app (VString s)
      = Some ([], Throw (NetworkError
                           ("Failed to fetch Play Store version after "
                              +:+ show_int (PlayStoreClient.max_attempts this)
                              +:+ " attempts") None)))
  \/ (exists k outcome,
        (1 <= k)%nat /\ Z.of_nat k <= PlayStoreClient.max_attempts this
        /\ PlayStoreClient.getVersion formatPlayStoreDate this app (VString s)
           = Some (Retry.schedule k, outcome)
        /\ Retry.settles
             (fun n => PlayStoreClient.try_attempt formatPlayStoreDate s (app n))
             (PlayStoreClient.catch_attempt s (PlayStoreClient.max_attempts this))
             k outcome).
Proof.
  intros Hid Hfmt.
  rewrite (playStore_validated formatPlayStoreDate this app s Hid Hfmt),
    playStore_loop_shape.
  destruct (loop_runs
              (fun n => PlayStoreClient.try_attempt formatPlayStoreDate s (app n))
              (PlayStoreClient.catch_attempt s (PlayStoreClient.max_attempts this))
              (NetworkError ("Failed to fetch Play Store version after "
                               +:+ show_int (PlayStoreClient.max_attempts this)
                               +:+ " attempts") None)
              (PlayStoreClient.max_attempts this)
              (playStore_catch_last s (PlayStoreClient.max_attempts this)))
    as [[Hneg Hrun]|(k & outcome & Hk & Hmax & Hrun & _ & Hst)].
  - left. split; assumption.
  - right. exists k, outcome. repeat split; assumption.
Qed.

(** Whatever the argument, the events of a call are a schedule. *)
Lemma appStore_getVersion_schedule (this : AppStoreClient.t)
      (get : AppStoreClient.backend) (id : value) events outcome :
  AppStoreClient.getVersion this get id = Some (events, outcome) ->
  exists k, events = Retry.schedule k
            /\ (k = 0%nat \/ Z.of_nat k <= AppStoreClient.max_attempts this).
Proof.
  intros Hrun.
  destruct (no_identifier id) eqn:Hid.
  - exists 0%nat. split; [|left; reflexivity].
    unfold AppStoreClient.getVersion, AppStoreClient.getVersion_fuel in Hrun.
    destruct id; cbn [no_identifier] in Hid; try (injection Hrun as <- _; reflexivity).
    rewrite Hid in Hrun. injection Hrun as <- _. reflexivity.
  - destruct id as [| |b|n|s|]; try discriminate.
    destruct (appStore_getVersion_runs this get s Hid)
      as [[_ E]|(k & o & Hk & Hmax & E & _)]; rewrite E in Hrun;
      injection Hrun as <- _.
    + exists 0%nat. split; [reflexivity|left; reflexivity].
    + exists k. split; [reflexivity|right; exact Hmax].
Qed.

Lemma playStore_getVersion_schedule
      (formatPlayStoreDate : PlayStoreClient.updated_value -> string)
      (this : PlayStoreClient.t) (app : PlayStoreClient.backend) (id : value)
      events outcome :
  PlayStoreClient.getVersion formatPlayStoreDate this app id
  = Some (events, outcome) ->
  exists k, events = Retry.schedule k
            /\ (k = 0%nat \/ Z.of_nat k <= PlayStoreClient.max_attempts this).
Proof.
  intros Hrun.
  destruct id as [| |b|n|s|];
    try (exists 0%nat; split; [|left; reflexivity];
         injection Hrun as <- _; reflexivity).
  destruct (no_identifier (VString s)) eqn:Hid.
  - exists 0%nat. split; [|left; reflexivity].
    unfold PlayStoreClient.getVersion, PlayStoreClient.getVersion_fuel in Hrun.
    cbn [no_identifier] in Hid. rewrite Hid in Hrun.
    injection Hrun as <- _. reflexivity.
  - destruct (PlayStoreClient.package_name_format s) eqn:Hfmt.
    + destruct (playStore_getVersion_runs formatPlayStoreDate this app s Hid Hfmt)
        as [[_ E]|(k & o & Hk & Hmax & E & _)]; rewrite E in Hrun;
        injection Hrun as <- _.
      * exists 0%nat. split; [reflexivity|left; reflexivity].
      * exists k. split; [reflexivity|right; exact Hmax].
    + exists 0%nat. split; [|left; reflexivity].
      unfold PlayStoreClient.getVersion, PlayStoreClient.getVersion_fuel in Hrun.
      cbn [no_identifier] in Hid. rewrite Hid, Hfmt in Hrun.
      injection Hrun as <- _. reflexivity.
Qed.

Lemma total_wait_app (events events' : list event) :
  Retry.total_wait (events ++ events')
  = Retry.total_wait events + Retry.total_wait events'.
Proof.
  induction events as [|[n|ms] events IH]; simpl; [reflexivity| |];
    rewrite IH; lia.
Qed.

Lemma before_attempt_wait (j : nat) :
  Retry.total_wait (Retry.before_attempt j) = 1000 * (2 ^ (Z.of_nat j + 1) - 2).
Proof.
  induction j as [|j IH]; [reflexivity|].
  cbn [Retry.before_attempt]. rewrite total_wait_app, IH.
  cbn [Retry.total_wait].
  replace (Z.of_nat (S j) + 1) with (Z.succ (Z.of_nat (S j))) by lia.
  rewrite (Z.pow_succ_r 2 (Z.of_nat (S j))) by lia.
  replace (Z.of_nat j + 1) with (Z.of_nat (S j)) by lia. lia.
Qed.

(** A call that stops at attempt [k] has waited [2 + 4 + ... + 2^(k-1)]
    seconds. *)
Lemma schedule_wait (k : nat) :
  Retry.total_wait (Retry.schedule k) = 1000 * Z.max 0 (2 ^ Z.of_nat k - 2).
Proof.
  destruct k as [|j]; [reflexivity|].
  cbn [Retry.schedule]. rewrite total_wait_app, before_attempt_wait.
  cbn [Retry.total_wait].
  replace (Z.of_nat j + 1) with (Z.of_nat (S j)) by lia.
  assert (2 ^ 1 <= 2 ^ Z.of_nat (S j)) by (apply Z.pow_le_mono_r; lia).
  change (2 ^ 1) with 2 in *. lia.
Qed.

Lemma schedule_wait_bound (k : nat) (maxAttempts : Z) :
  k = 0%nat \/ Z.of_nat k <= maxAttempts ->
  Retry.total_wait (Retry.schedule k) <= 1000 * Z.max 0 (2 ^ maxAttempts - 2).
Proof.
  intros [->|Hk]; [simpl; lia|].
  rewrite schedule_wait.
  destruct k as [|j]; [simpl; lia|].
  assert (2 ^ Z.of_nat (S j) <= 2 ^ maxAttempts) by (apply Z.pow_le_mono_r; lia).
  lia.
Qed.

End Runs.

(** X4.  The time a [getVersion] call of either client spends in backoff
    waits is fixed by the number [k] of requests it made: [2^k - 2] seconds
    (nothing for one request or none), hence at most [2^maxAttempts - 2]
    seconds; and it never makes more than [maxAttempts] requests. *)
Theorem getVersion_total_wait :
  (forall (this : AppStoreClient.t) (get : AppStoreClient.backend) (id : value)
          (events : list event) (outcome : completion AppVersion),
      AppStoreClient.getVersion this get id = Some (events, outcome) ->
      Retry.total_wait events
      = 1000 * Z.max 0 (2 ^ Z.of_nat (Retry.requests events) - 2)
      /\ Retry.total_wait events
         <= 1000 * Z.max 0 (2 ^ AppStoreClient.max_attempts this - 2)
      /\ (Retry.requests events <= Z.to_nat (AppStoreClient.max_attempts this))%nat)
  /\ (forall (formatPlayStoreDate : PlayStoreClient.updated_value -> string)
             (this : PlayStoreClient.t) (app : PlayStoreClient.backend)
             (id : value) (events : list event)
             (outcome : completion AppVersion),
         PlayStoreClient.getVersion formatPlayStoreDate this app id
         = Some (events, outcome) ->
         Retry.total_wait events
         = 1000 * Z.max 0 (2 ^ Z.of_nat (Retry.requests events) - 2)
         /\ Retry.total_wait events
            <= 1000 * Z.max 0 (2 ^ PlayStoreClient.max_attempts this - 2)
         /\ (Retry.requests events
             <= Z.to_nat (PlayStoreClient.max_attempts this))%nat).
Proof.
  split.
  - intros this get id events outcome Hrun.
    destruct (appStore_getVersion_schedule _ _ _ _ _ Hrun) as (k & -> & Hk).
    rewrite schedule_requests.
    split; [apply schedule_wait|].
    split; [apply schedule_wait_bound; exact Hk|].
    destruct Hk as [->|Hk]; lia.
  - intros fmt this app id events outcome Hrun.
    destruct (playStore_getVersion_schedule _ _ _ _ _ _ Hrun) as (k & -> & Hk).
    rewrite schedule_requests.
    split; [apply schedule_wait|].
    split; [apply schedule_wait_bound; exact Hk|].
    destruct Hk as [->|Hk]; lia.
Qed.

Lemma getVersion_total_wait_witness :
  Retry.total_wait [Request 1; Sleep 2000; Request 2; Sleep 4000; Request 3]
  <= 1000 * Z.max 0 (2 ^ 3 - 2).
Proof.
  exact (proj1 (proj2 (proj1 getVersion_total_wait
           (AppStoreClient.new AppStoreClient.no_AppStoreConfig)
           (fun _ => Throw (OtherError "socket hang up"))
           (VString "com.example.app")
           [Request 1; Sleep 2000; Request 2; Sleep 4000; Request 3]
           (Throw (NetworkError
                     "Network error while fetching App Store version: socket hang up"
                     (Some (OtherError "socket hang up"))))
           eq_refl))).
Defined.

(** X5.  With [retryEnabled] false, [getVersion] of either client makes
    exactly one request for an identifier that passes validation, whatever
    [retryAttempts] is (zero and negative values included), and makes no
    backoff wait. *)
Theorem getVersion_retry_disabled :
  (forall (this : AppStoreClient.t) (get : AppStoreClient.backend) (s : string),
      no_identifier (VString s) = false ->
      retryEnabled (AppStoreClient.shared (AppStoreClient.config this)) = false ->
      exists outcome,
        AppStoreClient.getVersion this get (VString s)
        = Some ([Request 1], outcome))
  /\ (forall (formatPlayStoreDate : PlayStoreClient.updated_value -> string)
             (this : PlayStoreClient.t) (app : PlayStoreClient.backend)
             (s : string),
         no_identifier (VString s) = false ->
         PlayStoreClient.package_name_format s = true ->
         retryEnabled (PlayStoreClient.shared (PlayStoreClient.config this)) = false ->
         exists outcome,
           PlayStoreClient.getVersion formatPlayStoreDate this app (VString s)
           = Some ([Request 1], outcome)).
Proof.
  split.
  - intros this get s Hid Hoff.
    assert (Hmax : AppStoreClient.max_attempts this = 1)
      by (unfold AppStoreClient.max_attempts; rewrite Hoff; reflexivity).
    destruct (appStore_getVersion_runs this get s Hid)
      as [[Hneg _]|(k & outcome & Hk & Hle & E & _)]; [lia|].
    exists outcome. rewrite E. replace k with 1%nat by lia. reflexivity.
  - intros fmt this app s Hid Hfmt Hoff.
    assert (Hmax : PlayStoreClient.max_attempts this = 1)
      by (unfold PlayStoreClient.max_attempts; rewrite Hoff; reflexivity).
    destruct (playStore_getVersion_runs fmt this app s Hid Hfmt)
      as [[Hneg _]|(k & outcome & Hk & Hle & E & _)]; [lia|].
    exists outcome. rewrite E. replace k with 1%nat by lia. reflexivity.
Qed.

Lemma getVersion_retry_disabled_witness :
  exists outcome,
    AppStoreClient.getVersion
      (AppStoreClient.new
         {| AppStoreClient.shared :=
              {| timeout := None; userAgent := None; headers := None;
                 retryEnabled := Some false; retryAttempts := Some 0 |};
            AppStoreClient.country := None;
            AppStoreClient.includeMetadata := None |})
      (fun _ => Throw (OtherError "socket hang up")) (VString "com.example.app")
    = Some ([Request 1], outcome).
Proof.
  exact (proj1 getVersion_retry_disabled
           (AppStoreClient.new
              {| AppStoreClient.shared :=
                   {| timeout := None; userAgent := None; headers := None;
                      retryEnabled := Some false; retryAttempts := Some 0 |};
                 AppStoreClient.country := None;
                 AppStoreClient.includeMetadata := None |})
           (fun _ => Throw (OtherError "socket hang up")) "com.example.app"
           eq_refl eq_refl).
Defined.

Lemma or_undefined_not_empty (s : option string) :
  PlayStoreClient.or_undefined s <> Some "".
Proof.
  destruct s as [str|]; simpl; [|discriminate].
  destruct (String.eqb_spec str ""); [discriminate|congruence].
Qed.

(** X6.  A value returned by [getVersion] was built from the answer to the
    last request of the call.  App Store client: from the first record of a
    response whose result count is not zero, with the record's own bundle
    id and release notes and no package name.  Play Store client: from a
    record that is not falsy, with the package name that was asked for, no
    bundle id, a version that is never empty ([Unknown] stands in) and
    release notes that are never the empty string. *)
Theorem getVersion_returned_value :
  (forall (this : AppStoreClient.t) (get : AppStoreClient.backend) (id : value)
          (events : list event) (info : AppVersion),
      AppStoreClient.getVersion this get id = Some (events, Return info) ->
      (1 <= Retry.requests events)%nat
      /\ exists response app rest,
          get (Z.of_nat (Retry.requests events)) = Return response
          /\ AppStoreClient.resultCount response <> 0
          /\ AppStoreClient.results response = app :: rest
          /\ info = AppStoreClient.to_version app
          /\ bundleId info = Some (AppStoreClient.app_bundleId app)
          /\ packageName info = None)
  /\ (forall (formatPlayStoreDate : PlayStoreClient.updated_value -> string)
             (this : PlayStoreClient.t) (app : PlayStoreClient.backend)
             (id : value) (events : list event) (info : AppVersion),
         PlayStoreClient.getVersion formatPlayStoreDate this app id
         = Some (events, Return info) ->
         (1 <= Retry.requests events)%nat
         /\ exists s details,
             id = VString s
             /\ app (Z.of_nat (Retry.requests events)) = Return (Some details)
             /\ packageName info = Some s
             /\ bundleId info = None
             /\ version info <> ""
             /\ releaseNotes info <> Some "").
Proof.
  split.
  - intros this get id events info Hrun.
    destruct (no_identifier id) eqn:Hid.
    { unfold AppStoreClient.getVersion, AppStoreClient.getVersion_fuel in Hrun.
      destruct id; cbn [no_identifier] in Hid; try discriminate.
      rewrite Hid in Hrun. discriminate. }
    destruct id as [| |b|n|s|]; try discriminate.
    destruct (appStore_getVersion_runs this get s Hid)
      as [[_ E]|(k & o & Hk & _ & E & Hst)]; rewrite E in Hrun;
      [discriminate|].
    injection Hrun as <- ->. rewrite schedule_requests.
    split; [exact Hk|].
    destruct Hst as [(v & Hatt & [= <-])|(e & e' & _ & _ & [=])].
    unfold AppStoreClient.try_attempt in Hatt.
    destruct (get (Z.of_nat k)) as [response|]; [|discriminate].
    destruct (Z.eqb_spec (AppStoreClient.resultCount response) 0) as [|Hcount];
      [discriminate|].
    destruct (AppStoreClient.results response) as [|record rest] eqn:Hres;
      [discriminate|].
    injection Hatt as <-.
    exists response, record, rest. repeat split; try reflexivity; assumption.
  - intros fmt this app id events info Hrun.
    destruct id as [| |b|n|s|]; try discriminate.
    destruct (no_identifier (VString s)) eqn:Hid.
    { unfold PlayStoreClient.getVersion, PlayStoreClient.getVersion_fuel in Hrun.
      cbn [no_identifier] in Hid. rewrite Hid in Hrun. discriminate. }
    destruct (PlayStoreClient.package_name_format s) eqn:Hfmt.
    2:{ unfold PlayStoreClient.getVersion, PlayStoreClient.getVersion_fuel in Hrun.
        cbn [no_identifier] in Hid. rewrite Hid, Hfmt in Hrun. discriminate. }
    destruct (playStore_getVersion_runs fmt this app s Hid Hfmt)
      as [[_ E]|(k & o & Hk & _ & E & Hst)]; rewrite E in Hrun;
      [discriminate|].
    injection Hrun as <- ->. rewrite schedule_requests.
    split; [exact Hk|].
    destruct Hst as [(v & Hatt & [= <-])|(e & e' & _ & _ & [=])].
    unfold PlayStoreClient.try_attempt in Hatt.
    destruct (app (Z.of_nat k)) as [[details|]|]; try discriminate.
    injection Hatt as <-.
    exists s, details. cbn [packageName bundleId version releaseNotes].
    repeat split; try reflexivity.
    + pose proof (or_undefined_not_empty (PlayStoreClient.details_version details)) as Hne.
      destruct (PlayStoreClient.or_undefined (PlayStoreClient.details_version details));
        cbn [nullish]; [congruence|discriminate].
    + apply or_undefined_not_empty.
Qed.

Lemma getVersion_returned_value_witness :
  exists s details,
    VString "com.example.app" = VString s
    /\ (fun _ : Z => Return (Some {| PlayStoreClient.details_version := Some "";
                                     PlayStoreClient.details_updated :=
                                       PlayStoreClient.UpdatedMissing;
                                     PlayStoreClient.details_recentChanges := Some "" |}))
         (Z.of_nat (Retry.requests [Request 1]))
       = Return (Some details)
    /\ packageName
         {| version := "Unknown";
            releaseDate := "2024-01-01T00:00:00.000Z";
            releaseNotes := None;
            bundleId := None;
            packageName := Some "com.example.app" |} = Some s.
Proof.
  destruct (proj2 getVersion_returned_value
              (fun _ => "2024-01-01T00:00:00.000Z")
              (PlayStoreClient.new PlayStoreClient.no_PlayStoreConfig)
              (fun _ => Return (Some {| PlayStoreClient.details_version := Some "";
                                        PlayStoreClient.details_updated :=
                                          PlayStoreClient.UpdatedMissing;
                                        PlayStoreClient.details_recentChanges :=
                                          Some "" |}))
              (VString "com.example.app") [Request 1]
              {| version := "Unknown";
                 releaseDate := "2024-01-01T00:00:00.000Z";
                 releaseNotes := None;
                 bundleId := None;
                 packageName := Some "com.example.app" |}
              eq_refl)
    as (_ & s & details & Hid & Happ & Hpkg & _).
  exists s, details. split; [exact Hid|]. split; [exact Happ|exact Hpkg].
Defined.

(** ** [search] and [getFullDetails] *)

Lemma truthy_string (s : string) : s <> "" -> truthy (VString s) = true.
Proof.
  intros H. cbn [truthy]. destruct (String.eqb_spec s ""); [contradiction|reflexivity].
Qed.

Lemma appStore_first_attempt (this : AppStoreClient.t)
      (get : AppStoreClient.backend) (s : string) (info : AppVersion) :
  no_identifier (VString s) = false ->
  1 <= AppStoreClient.max_attempts this ->
  AppStoreClient.try_attempt s (get 1) = Return info ->
  AppStoreClient.getVersion this get (VString s) = Some ([Request 1], Return info).
Proof.
  intros Hid Hmax Htry. rewrite (appStore_validated this get s Hid).
  cbn [AppStoreClient.retry_loop].
  replace (0 <? AppStoreClient.max_attempts this) with true by lia.
  change (0 + 1) with 1. rewrite Htry. reflexivity.
Qed.

(** X7.  The App Store client's [search] and [getVersion] read a response in
    the same way, record by record: when the lookup answers with a result
    count that is not zero and at least one record, [getVersion] returns, at
    its first attempt, the head of the list that [search] returns for the
    same response.  They differ on a response without result: [getVersion]
    raises a not-found error with status 404, [search] returns the empty
    list. *)
Theorem appStore_search_agrees_with_getVersion
        (this : AppStoreClient.t) (response : AppStoreClient.AppStoreResponse)
        (s term : string) (limit : Z) :
  no_identifier (VString s) = false ->
  term <> "" ->
  1 <= AppStoreClient.max_attempts this ->
  (forall app rest,
      AppStoreClient.resultCount response <> 0 ->
      AppStoreClient.results response = app :: rest ->
      AppStoreClient.getVersion this (fun _ => Return response) (VString s)
      = Some ([Request 1], Return (AppStoreClient.to_version app))
      /\ AppStoreClient.search this (Return response) (VString term) limit
         = ([Request 1],
            Return (AppStoreClient.to_version app
                      :: map AppStoreClient.to_version rest)))
  /\ (AppStoreClient.resultCount response = 0 ->
      AppStoreClient.results response = [] ->
      AppStoreClient.getVersion this (fun _ => Return response) (VString s)
      = Some ([Request 1],
              Throw (AppStoreError ("App not found: " +:+ s) (VString s) (Some 404)))
      /\ AppStoreClient.search this (Return response) (VString term) limit
         = ([Request 1], Return [])).
Proof.
  intros Hid Hterm Hmax.
  assert (Hsearch : AppStoreClient.search this (Return response) (VString term) limit
                    = ([Request 1],
                       Return (map AppStoreClient.to_version
                                   (AppStoreClient.results response)))).
  { unfold AppStoreClient.search. rewrite (truthy_string term Hterm). reflexivity. }
  split.
  - intros app rest Hcount Hres. split.
    + apply appStore_first_attempt; [exact Hid|exact Hmax|].
      unfold AppStoreClient.try_attempt. rewrite Hres.
      destruct (Z.eqb_spec (AppStoreClient.resultCount response) 0);
        [contradiction|reflexivity].
    + rewrite Hsearch, Hres. reflexivity.
  - intros Hcount Hres. split.
    + rewrite (appStore_validated this _ s Hid).
      apply (appStore_not_found_immediate (fun _ => Return response) s
               (AppStoreClient.max_attempts this) 0 [] _ response);
        [lia|reflexivity|exact Hcount].
    + rewrite Hsearch, Hres. reflexivity.
Qed.

Lemma appStore_search_agrees_with_getVersion_witness :
  AppStoreClient.search (AppStoreClient.new AppStoreClient.no_AppStoreConfig)
    (Return {| AppStoreClient.resultCount := 0; AppStoreClient.results := [] |})
    (VString "calculator") 50
  = ([Request 1], Return []).
Proof.
  exact (proj2 (proj2 (appStore_search_agrees_with_getVersion
           (AppStoreClient.new AppStoreClient.no_AppStoreConfig)
           {| AppStoreClient.resultCount := 0; AppStoreClient.results := [] |}
           "com.example.app" "calculator" 50 eq_refl
           ltac:(discriminate) ltac:(vm_compute; discriminate))
           eq_refl eq_refl)).
Defined.

(** X8.  [search] of both clients and [getFullDetails] test their argument
    for truthiness only: every string that is not empty reaches the backend,
    with one request.  A blank string, or one outside the package-name
    grammar, is among them, although [getVersion] of the Play Store client
    rejects it before any request. *)
Theorem search_accepts_what_getVersion_rejects
        (formatPlayStoreDate : PlayStoreClient.updated_value -> string)
        (app_this : AppStoreClient.t) (play_this : PlayStoreClient.t)
        (get : completion AppStoreClient.AppStoreResponse)
        (gsearch : completion (list PlayStoreClient.SearchHit))
        (gapp : completion (option PlayStoreClient.AppDetails))
        (backend : PlayStoreClient.backend)
        (s : string) (limit : Z) :
  s <> "" ->
  spec_invalid (VString s) = true ->
  fst (AppStoreClient.search app_this get (VString s) limit) = [Request 1]
  /\ fst (PlayStoreClient.search formatPlayStoreDate play_this gsearch (VString s))
     = [Request 1]
  /\ fst (PlayStoreClient.getFullDetails play_this gapp (VString s)) = [Request 1]
  /\ exists message,
      PlayStoreClient.getVersion formatPlayStoreDate play_this backend (VString s)
      = Some ([], Throw (PlayStoreError message (VString s) None)).
Proof.
  intros Hs Hinv.
  unfold AppStoreClient.search, PlayStoreClient.search,
    PlayStoreClient.getFullDetails.
  rewrite (truthy_string s Hs). cbn [negb fst].
  repeat (split; [reflexivity|]).
  unfold PlayStoreClient.getVersion, PlayStoreClient.getVersion_fuel.
  cbn [spec_invalid] in Hinv.
  destruct (String.length (trim s) =? 0)%nat; [eexists; reflexivity|].
  cbn [orb] in Hinv. rewrite package_name_format_spec, Hinv.
  eexists; reflexivity.
Qed.

Lemma search_accepts_what_getVersion_rejects_witness :
  fst (PlayStoreClient.getFullDetails
         (PlayStoreClient.new PlayStoreClient.no_PlayStoreConfig)
         (Return None) (VString " "))
  = [Request 1].
Proof.
  exact (proj1 (proj2 (proj2 (search_accepts_what_getVersion_rejects
           (fun _ => "2024-01-01T00:00:00.000Z")
           (AppStoreClient.new AppStoreClient.no_AppStoreConfig)
           (PlayStoreClient.new PlayStoreClient.no_PlayStoreConfig)
           (Throw (OtherError "unused")) (Return []) (Return None)
           (fun _ => Return None) " " 50
           ltac:(discriminate) eq_refl)))).
Defined.

(** X9.  Once its term is accepted, the Play Store client's [search] raises
    nothing but a [NetworkError]: every failure of the backend, a not-found
    one included, is wrapped (the failure kept as [originalError] when it is
    an [Error]); and a successful search returns one record per hit, in
    order, each with the hit's [appId] as package name, no bundle id and a
    version that is never empty. *)
Theorem playStore_search_outcome
        (formatPlayStoreDate : PlayStoreClient.updated_value -> string)
        (this : PlayStoreClient.t)
        (gsearch : completion (list PlayStoreClient.SearchHit)) (term : string) :
  term <> "" ->
  match gsearch with
  | Throw failure =>
      exists message,
        PlayStoreClient.search formatPlayStoreDate this gsearch (VString term)
        = ([Request 1], Throw (NetworkError message (as_Error failure)))
  | Return hits =>
      exists versions,
        PlayStoreClient.search formatPlayStoreDate this gsearch (VString term)
        = ([Request 1], Return versions)
        /\ map packageName versions
           = map (fun hit => Some (PlayStoreClient.hit_appId hit)) hits
        /\ Forall (fun info => bundleId info = None /\ version info <> "") versions
  end.
Proof.
  intros Hterm. unfold PlayStoreClient.search. rewrite (truthy_string term Hterm).
  cbn [negb]. destruct gsearch as [hits|failure]; [|eexists; reflexivity].
  eexists. split; [reflexivity|]. split.
  - rewrite map_map. reflexivity.
  - induction hits as [|hit hits IH]; [constructor|].
    cbn [map]. constructor; [|exact IH].
    split; [reflexivity|]. cbn [PlayStoreClient.hit_to_version version].
    pose proof (or_undefined_not_empty (PlayStoreClient.hit_version hit)) as Hne.
    destruct (PlayStoreClient.or_undefined (PlayStoreClient.hit_version hit));
      cbn [nullish]; [congruence|discriminate].
Qed.

Lemma playStore_search_outcome_witness :
  exists message,
    PlayStoreClient.search (fun _ => "2024-01-01T00:00:00.000Z")
      (PlayStoreClient.new PlayStoreClient.no_PlayStoreConfig)
      (Throw (OtherError "App not found (404)")) (VString "calculator")
    = ([Request 1],
       Throw (NetworkError message (Some (OtherError "App not found (404)")))).
Proof.
  exact (playStore_search_outcome (fun _ => "2024-01-01T00:00:00.000Z")
           (PlayStoreClient.new PlayStoreClient.no_PlayStoreConfig)
           (Throw (OtherError "App not found (404)")) "calculator"
           ltac:(discriminate)).
Defined.

(** X10.  For a failure that is an [Error], [getFullDetails] always raises a
    [PlayStoreError] carrying the package name, never a [NetworkError], and
    it reports not-found (status 404) exactly when the last attempt of
    [getVersion] would for the same failure; a falsy record is handed back,
    not turned into a not-found error. *)
Theorem getFullDetails_classification (this : PlayStoreClient.t) (s : string) :
  s <> "" ->
  (forall failure,
      instanceof_Error failure = true ->
      exists message status,
        PlayStoreClient.getFullDetails this (Throw failure) (VString s)
        = ([Request 1], Throw (PlayStoreError message (VString s) status))
        /\ PlayStoreClient.is_not_found (PlayStoreError message (VString s) status)
           = PlayStoreClient.is_not_found (PlayStoreClient.classify s failure))
  /\ PlayStoreClient.getFullDetails this (Return None) (VString s)
     = ([Request 1], Return None).
Proof.
  intros Hs. unfold PlayStoreClient.getFullDetails.
  rewrite (truthy_string s Hs). cbn [negb].
  split; [|reflexivity].
  intros failure Herr. rewrite Herr. unfold PlayStoreClient.classify.
  rewrite Herr. cbv zeta.
  destruct (includes (message_of failure) "not found"
            || includes (message_of failure) "404").
  - eexists. eexists. split; reflexivity.
  - eexists. eexists. split; [reflexivity|].
    destruct (_ || _); reflexivity.
Qed.

Lemma getFullDetails_classification_witness :
  PlayStoreClient.getFullDetails
    (PlayStoreClient.new PlayStoreClient.no_PlayStoreConfig)
    (Return None) (VString "com.example.app")
  = ([Request 1], Return None).
Proof.
  exact (proj2 (getFullDetails_classification
                  (PlayStoreClient.new PlayStoreClient.no_PlayStoreConfig)
                  "com.example.app" ltac:(discriminate))).
Defined.

(** ** Configuration of the store clients *)

Lemma nullish_spread {A : Type} (a b : option A) (d : A) :
  nullish (spread a b) d = nullish b (nullish a d).
Proof. destruct a, b; reflexivity. Qed.

Lemma update_shared_spread (c : NodeMawConfig_ required) (p q : NodeMawConfig) :
  update_shared (update_shared c p) q = update_shared c (spread_shared p q).
Proof.
  unfold update_shared, spread_shared. cbn.
  rewrite !nullish_spread. reflexivity.
Qed.

Lemma update_shared_nothing (c : NodeMawConfig_ required) :
  update_shared c no_NodeMawConfig = c.
Proof. destruct c; reflexivity. Qed.

(** X11.  Updates of a store client's configuration compose: two updates in
    a row are the single update with the second partial spread over the
    first, so that the later value of a field wins and fields named by
    neither keep their value; and an update with an empty partial leaves the
    configuration as it is.  This holds of both clients. *)
Theorem client_updateConfig_composes :
  (forall (this : AppStoreClient.t) (p q : AppStoreClient.AppStoreConfig),
      AppStoreClient.updateConfig (AppStoreClient.updateConfig this p) q
      = AppStoreClient.updateConfig this (AppStoreClient.spread_config p q))
  /\ (forall this : AppStoreClient.t,
         AppStoreClient.getConfig
           (AppStoreClient.updateConfig this AppStoreClient.no_AppStoreConfig)
         = AppStoreClient.getConfig this)
  /\ (forall (this : PlayStoreClient.t) (p q : PlayStoreClient.PlayStoreConfig),
         PlayStoreClient.updateConfig (PlayStoreClient.updateConfig this p) q
         = PlayStoreClient.updateConfig this (PlayStoreClient.spread_config p q))
  /\ (forall this : PlayStoreClient.t,
         PlayStoreClient.updateConfig this PlayStoreClient.no_PlayStoreConfig
         = this).
Proof.
  split; [|split; [|split]].
  - intros this p q. unfold AppStoreClient.updateConfig, AppStoreClient.spread_config.
    cbn [AppStoreClient.config AppStoreClient.shared AppStoreClient.country
           AppStoreClient.includeMetadata].
    rewrite update_shared_spread, !nullish_spread. reflexivity.
  - intros [cl [sh c m]]. unfold AppStoreClient.updateConfig, AppStoreClient.getConfig.
    cbn. rewrite update_shared_nothing. reflexivity.
  - intros this p q. unfold PlayStoreClient.updateConfig, PlayStoreClient.spread_config.
    cbn [PlayStoreClient.config PlayStoreClient.shared PlayStoreClient.country
           PlayStoreClient.language PlayStoreClient.includeMetadata].
    rewrite update_shared_spread, !nullish_spread. reflexivity.
  - intros [[sh l c m]]. unfold PlayStoreClient.updateConfig.
    cbn. rewrite update_shared_nothing. reflexivity.
Qed.

(** ** The facade, continued *)

Lemma appStore_single_attempt (this : AppStoreClient.t)
      (get : AppStoreClient.backend) (s : string) :
  no_identifier (VString s) = false ->
  retryEnabled (AppStoreClient.shared (AppStoreClient.config this)) = false ->
  exists outcome,
    AppStoreClient.getVersion this get (VString s) = Some ([Request 1], outcome).
Proof.
  intros Hid Hoff.
  assert (Hmax : AppStoreClient.max_attempts this = 1)
    by (unfold AppStoreClient.max_attempts; rewrite Hoff; reflexivity).
  destruct (appStore_getVersion_runs this get s Hid)
    as [[Hneg _]|(k & outcome & Hk & Hle & E & _)]; [lia|].
  exists outcome. rewrite E. replace k with 1%nat by lia. reflexivity.
Qed.

Lemma playStore_single_attempt
      (formatPlayStoreDate : PlayStoreClient.updated_value -> string)
      (this : PlayStoreClient.t) (app : PlayStoreClient.backend) (s : string) :
  no_identifier (VString s) = false ->
  PlayStoreClient.package_name_format s = true ->
  retryEnabled (PlayStoreClient.shared (PlayStoreClient.config this)) = false ->
  exists outcome,
    PlayStoreClient.getVersion formatPlayStoreDate this app (VString s)
    = Some ([Request 1], outcome).
Proof.
  intros Hid Hfmt Hoff.
  assert (Hmax : PlayStoreClient.max_attempts this = 1)
    by (unfold PlayStoreClient.max_attempts; rewrite Hoff; reflexivity).
  destruct (playStore_getVersion_runs formatPlayStoreDate this app s Hid Hfmt)
    as [[Hneg _]|(k & outcome & Hk & Hle & E & _)]; [lia|].
  exists outcome. rewrite E. replace k with 1%nat by lia. reflexivity.
Qed.

(** X13.  [updateConfig] of the facade with an empty partial changes
    nothing: neither the shared snapshot nor either store client. *)
Theorem facade_updateConfig_empty (this : NodeMaw.t) :
  NodeMaw.updateConfig this
    {| NodeMaw.top := no_NodeMawConfig;
       NodeMaw.appStore := None;
       NodeMaw.playStore := None |}
  = this.
Proof.
  destruct this as [app play cfg]. unfold NodeMaw.updateConfig.
  cbn. rewrite update_shared_nothing. reflexivity.
Qed.

(** X14.  When [updateConfig] of the facade reaches a store client, all the
    shared fields of that client are replaced: each becomes the value of the
    partial's override for that store when it has one and the facade's new
    shared value otherwise, whatever the client held before, while the
    store's own fields keep their value unless the override names them.  In
    particular the client's user agent becomes the facade's shared user
    agent as it is, without the store token, unless the override gives
    one. *)
Theorem facade_updateConfig_replaces_shared (this : NodeMaw.t)
        (partial : NodeMaw.UnifiedNodeMawConfig) :
  let this' := NodeMaw.updateConfig this partial in
  (spec_touches_appStore partial = true ->
   let over := nullish (NodeMaw.appStore partial) AppStoreClient.no_AppStoreConfig in
   let cfg := AppStoreClient.getConfig (NodeMaw.appStoreClient this') in
   let old := AppStoreClient.getConfig (NodeMaw.appStoreClient this) in
   AppStoreClient.shared cfg
   = update_shared (NodeMaw.getConfig this') (AppStoreClient.shared over)
   /\ AppStoreClient.country cfg
      = nullish (AppStoreClient.country over) (AppStoreClient.country old)
   /\ AppStoreClient.includeMetadata cfg
      = nullish (AppStoreClient.includeMetadata over)
                (AppStoreClient.includeMetadata old)
   /\ (userAgent (AppStoreClient.shared over) = None ->
       userAgent (AppStoreClient.shared cfg) = userAgent (NodeMaw.getConfig this')))
  /\ (spec_touches_playStore partial = true ->
      let over := nullish (NodeMaw.playStore partial)
                          PlayStoreClient.no_PlayStoreConfig in
      let cfg := PlayStoreClient.getConfig (NodeMaw.playStoreClient this') in
      let old := PlayStoreClient.getConfig (NodeMaw.playStoreClient this) in
      PlayStoreClient.shared cfg
      = update_shared (NodeMaw.getConfig this') (PlayStoreClient.shared over)
      /\ PlayStoreClient.language cfg
         = nullish (PlayStoreClient.language over) (PlayStoreClient.language old)
      /\ PlayStoreClient.country cfg
         = nullish (PlayStoreClient.country over) (PlayStoreClient.country old)
      /\ PlayStoreClient.includeMetadata cfg
         = nullish (PlayStoreClient.includeMetadata over)
                   (PlayStoreClient.includeMetadata old)
      /\ (userAgent (PlayStoreClient.shared over) = None ->
          userAgent (PlayStoreClient.shared cfg)
          = userAgent (NodeMaw.getConfig this'))).
Proof.
  intros this'. subst this'.
  unfold NodeMaw.updateConfig, spec_touches_appStore, spec_touches_playStore.
  rewrite !some_other_key_spec.
  cbn [NodeMaw.appStoreClient NodeMaw.playStoreClient NodeMaw.getConfig
         NodeMaw.config].
  split.
  - intros ->. cbv zeta.
    unfold AppStoreClient.getConfig, AppStoreClient.updateConfig,
      AppStoreClient.spread_config, update_shared, spread_shared, partial_of.
    cbn -[nullish spread]. rewrite !nullish_spread. cbn [nullish spread].
    repeat split. intros ->. reflexivity.
  - intros ->. cbv zeta.
    unfold PlayStoreClient.getConfig, PlayStoreClient.updateConfig,
      PlayStoreClient.spread_config, update_shared, spread_shared, partial_of.
    cbn -[nullish spread]. rewrite !nullish_spread. cbn [nullish spread].
    repeat split. intros ->. reflexivity.
Qed.

Lemma facade_updateConfig_replaces_shared_witness :
  userAgent
    (AppStoreClient.shared
       (AppStoreClient.getConfig
          (NodeMaw.appStoreClient
             (NodeMaw.updateConfig
                (NodeMaw.new {| NodeMaw.top := no_NodeMawConfig;
                                NodeMaw.appStore := None;
                                NodeMaw.playStore := None |})
                {| NodeMaw.top :=
                     {| timeout := Some 8000; userAgent := None;
                        headers := None; retryEnabled := None;
                        retryAttempts := None |};
                   NodeMaw.appStore := None;
                   NodeMaw.playStore := None |}))))
  = "node-maw/1.0.0".
Proof.
  pose proof (facade_updateConfig_replaces_shared
                (NodeMaw.new {| NodeMaw.top := no_NodeMawConfig;
                                NodeMaw.appStore := None;
                                NodeMaw.playStore := None |})
                {| NodeMaw.top :=
                     {| timeout := Some 8000; userAgent := None;
                        headers := None; retryEnabled := None;
                        retryAttempts := None |};
                   NodeMaw.appStore := None;
                   NodeMaw.playStore := None |}) as H.
  cbv zeta in H. destruct H as [H _].
  destruct (H eq_refl) as (_ & _ & _ & Hua).
  exact (Hua eq_refl).
Defined.

(** X15.  Retry settings given to the facade's [updateConfig] govern the
    next calls through the facade: after an update whose shared fields turn
    [retryEnabled] off, and whose store overrides do not turn it on again,
    [getAppStoreVersion] and [getPlayStoreVersion] make exactly one request
    for an identifier that passes validation. *)
Theorem facade_retry_disabled
        (formatPlayStoreDate : PlayStoreClient.updated_value -> string)
        (this : NodeMaw.t) (partial : NodeMaw.UnifiedNodeMawConfig)
        (get : AppStoreClient.backend) (app : PlayStoreClient.backend)
        (s : string) :
  retryEnabled (NodeMaw.top partial) = Some false ->
  retryEnabled (AppStoreClient.shared
                  (nullish (NodeMaw.appStore partial)
                           AppStoreClient.no_AppStoreConfig)) = None ->
  retryEnabled (PlayStoreClient.shared
                  (nullish (NodeMaw.playStore partial)
                           PlayStoreClient.no_PlayStoreConfig)) = None ->
  no_identifier (VString s) = false ->
  PlayStoreClient.package_name_format s = true ->
  (exists outcome,
      NodeMaw.getAppStoreVersion (NodeMaw.updateConfig this partial) get (VString s)
      = Some ([Request 1], outcome))
  /\ (exists outcome,
         NodeMaw.getPlayStoreVersion formatPlayStoreDate
                                     (NodeMaw.updateConfig this partial) app
                                     (VString s)
         = Some ([Request 1], outcome)).
Proof.
  intros Htop Happ Hplay Hid Hfmt.
  assert (Hshared : spec_has_shared_field (NodeMaw.top partial) = true).
  { unfold spec_has_shared_field. rewrite Htop. cbn [present].
    rewrite !orb_true_r. reflexivity. }
  unfold NodeMaw.getAppStoreVersion, NodeMaw.getPlayStoreVersion,
    NodeMaw.updateConfig.
  rewrite !some_other_key_spec, Hshared, !orb_true_r.
  cbn [NodeMaw.appStoreClient NodeMaw.playStoreClient].
  split.
  - apply appStore_single_attempt; [exact Hid|].
    unfold AppStoreClient.updateConfig, AppStoreClient.spread_config,
      update_shared, spread_shared, partial_of.
    cbn -[nullish spread]. rewrite Happ, Htop. reflexivity.
  - apply playStore_single_attempt; [exact Hid|exact Hfmt|].
    unfold PlayStoreClient.updateConfig, PlayStoreClient.spread_config,
      update_shared, spread_shared, partial_of.
    cbn -[nullish spread]. rewrite Hplay, Htop. reflexivity.
Qed.

Lemma facade_retry_disabled_witness :
  exists outcome,
    NodeMaw.getPlayStoreVersion (fun _ => "2024-01-01T00:00:00.000Z")
      (NodeMaw.updateConfig
         (NodeMaw.new {| NodeMaw.top := no_NodeMawConfig;
                         NodeMaw.appStore := None;
                         NodeMaw.playStore := None |})
         {| NodeMaw.top :=
              {| timeout := None; userAgent := None; headers := None;
                 retryEnabled := Some false; retryAttempts := None |};
            NodeMaw.appStore := None;
            NodeMaw.playStore := None |})
      (fun _ => Throw (OtherError "request timeout")) (VString "com.example.app")
    = Some ([Request 1], outcome).
Proof.
  exact (proj2 (facade_retry_disabled (fun _ => "2024-01-01T00:00:00.000Z")
           (NodeMaw.new {| NodeMaw.top := no_NodeMawConfig;
                           NodeMaw.appStore := None;
                           NodeMaw.playStore := None |})
           {| NodeMaw.top :=
                {| timeout := None; userAgent := None; headers := None;
                   retryEnabled := Some false; retryAttempts := None |};
              NodeMaw.appStore := None;
              NodeMaw.playStore := None |}
           (fun _ => Throw (OtherError "socket hang up"))
           (fun _ => Throw (OtherError "request timeout")) "com.example.app"
           eq_refl eq_refl eq_refl eq_refl eq_refl)).
Defined.

(** ** [checkForUpdates] and [exists], continued *)

Lemma appStore_rejects (this : AppStoreClient.t) (get : AppStoreClient.backend)
      (id : value) :
  no_identifier id = true ->
  exists message,
    AppStoreClient.getVersion this get id
    = Some ([], Throw (AppStoreError message (or_empty id) None)).
Proof.
  intros Hinv. unfold AppStoreClient.getVersion, AppStoreClient.getVersion_fuel.
  destruct id as [| |b|n|s|]; try (eexists; reflexivity).
  rewrite or_empty_string. cbn [no_identifier] in Hinv. rewrite Hinv.
  eexists; reflexivity.
Qed.

Lemma playStore_rejects
      (formatPlayStoreDate : PlayStoreClient.updated_value -> string)
      (this : PlayStoreClient.t) (app : PlayStoreClient.backend) (id : value) :
  spec_invalid id = true ->
  exists message,
    PlayStoreClient.getVersion formatPlayStoreDate this app id
    = Some ([], Throw (PlayStoreError message (or_empty id) None)).
Proof.
  intros Hinv. unfold PlayStoreClient.getVersion, PlayStoreClient.getVersion_fuel.
  destruct id as [| |b|n|s|]; try (eexists; reflexivity).
  rewrite or_empty_string. cbn [spec_invalid] in Hinv.
  destruct (String.length (trim s) =? 0)%nat; [eexists; reflexivity|].
  cbn [orb] in Hinv. rewrite package_name_format_spec, Hinv.
  eexists; reflexivity.
Qed.

(** X16.  [checkForUpdates] of either client raises nothing but that store's
    error or a [NetworkError]; it either rejects the current version (not a
    string, or blank) before any request, or makes exactly the requests and
    waits of the [getVersion] call on the same identifier; and a
    [NetworkError] raised by that [getVersion] call is not passed on as it
    is but wrapped in a second [NetworkError], which keeps it as
    [originalError]. *)
Theorem checkForUpdates_errors :
  (forall (this : AppStoreClient.t) (get : AppStoreClient.backend)
          (id currentVersion : value) (events : list event)
          (outcome : completion UpdateCheckResult),
      AppStoreClient.checkForUpdates this get id currentVersion
      = Some (events, outcome) ->
      match outcome with
      | Throw error => typed_for_appStore error = true
      | Return _ => True
      end
      /\ ((no_identifier currentVersion = true /\ events = [])
          \/ (no_identifier currentVersion = false
              /\ exists result,
                  AppStoreClient.getVersion this get id = Some (events, result)
                  /\ forall message cause,
                      result = Throw (NetworkError message cause) ->
                      outcome
                      = Throw (NetworkError
                                 ("Failed to check for updates: " +:+ message)
                                 (Some (NetworkError message cause))))))
  /\ (forall (formatPlayStoreDate : PlayStoreClient.updated_value -> string)
             (this : PlayStoreClient.t) (app : PlayStoreClient.backend)
             (id currentVersion : value) (events : list event)
             (outcome : completion UpdateCheckResult),
         PlayStoreClient.checkForUpdates formatPlayStoreDate this app id
                                         currentVersion
         = Some (events, outcome) ->
         match outcome with
         | Throw error => typed_for_playStore error = true
         | Return _ => True
         end
         /\ ((no_identifier currentVersion = true /\ events = [])
             \/ (no_identifier currentVersion = false
                 /\ exists result,
                     PlayStoreClient.getVersion formatPlayStoreDate this app id
                     = Some (events, result)
                     /\ forall message cause,
                         result = Throw (NetworkError message cause) ->
                         outcome
                         = Throw (NetworkError
                                    ("Failed to check for updates: " +:+ message)
                                    (Some (NetworkError message cause)))))).
Proof.
  split.
  - intros this get id cur events outcome.
    unfold AppStoreClient.checkForUpdates.
    destruct cur as [| |b|n|current|];
      try (intros [= <- <-]; split; [reflexivity|left; split; reflexivity]).
    cbn [no_identifier].
    destruct (String.length (trim current) =? 0)%nat;
      [intros [= <- <-]; split; [reflexivity|left; split; reflexivity]|].
    destruct (AppStoreClient.getVersion this get id) as [[log [info|e]]|];
      [| |discriminate].
    + intros [= <- <-]. split; [exact I|]. right. split; [reflexivity|].
      eexists. split; [reflexivity|]. intros m c [=].
    + intros H. split.
      * destruct e; injection H as <- <-; reflexivity.
      * right. split; [reflexivity|].
        exists (Throw e). destruct e; injection H as <- <-;
          (split; [reflexivity|]); intros m c [=]; subst; reflexivity.
  - intros fmt this app id cur events outcome.
    unfold PlayStoreClient.checkForUpdates.
    destruct cur as [| |b|n|current|];
      try (intros [= <- <-]; split; [reflexivity|left; split; reflexivity]).
    cbn [no_identifier].
    destruct (String.length (trim current) =? 0)%nat;
      [intros [= <- <-]; split; [reflexivity|left; split; reflexivity]|].
    destruct (PlayStoreClient.getVersion fmt this app id) as [[log [info|e]]|];
      [| |discriminate].
    + intros [= <- <-]. split; [exact I|]. right. split; [reflexivity|].
      eexists. split; [reflexivity|]. intros m c [=].
    + intros H. split.
      * destruct e; injection H as <- <-; reflexivity.
      * right. split; [reflexivity|].
        exists (Throw e). destruct e; injection H as <- <-;
          (split; [reflexivity|]); intros m c [=]; subst; reflexivity.
Qed.

Lemma checkForUpdates_errors_witness :
  typed_for_appStore
    (NetworkError
       "Failed to check for updates: Network error while fetching App Store version: socket hang up"
       (Some (NetworkError
                "Network error while fetching App Store version: socket hang up"
                (Some (OtherError "socket hang up")))))
  = true.
Proof.
  exact (proj1 (proj1 checkForUpdates_errors
           (AppStoreClient.new AppStoreClient.no_AppStoreConfig)
           (fun _ => Throw (OtherError "socket hang up"))
           (VString "com.example.app") (VString "1.0.0")
           [Request 1; Sleep 2000; Request 2; Sleep 4000; Request 3]
           (Throw (NetworkError
                     "Failed to check for updates: Network error while fetching App Store version: socket hang up"
                     (Some (NetworkError
                              "Network error while fetching App Store version: socket hang up"
                              (Some (OtherError "socket hang up"))))))
           eq_refl)).
Defined.

(** X17.  [exists] does not answer [false] for an identifier that fails
    validation: it throws the validation error (which carries no status
    code), without any request.  For the App Store client these are the
    values that are not strings and the empty or blank string; for the Play
    Store client also every string outside the package-name grammar. *)
Theorem exists_throws_on_invalid :
  (forall (this : AppStoreClient.t) (get : AppStoreClient.backend) (id : value),
      no_identifier id = true ->
      exists message,
        AppStoreClient.exists_ this get id
        = Some ([], Throw (AppStoreError message (or_empty id) None)))
  /\ (forall (formatPlayStoreDate : PlayStoreClient.updated_value -> string)
             (this : PlayStoreClient.t) (app : PlayStoreClient.backend)
             (id : value),
         spec_invalid id = true ->
         exists message,
           PlayStoreClient.exists_ formatPlayStoreDate this app id
           = Some ([], Throw (PlayStoreError message (or_empty id) None))).
Proof.
  split.
  - intros this get id Hinv.
    destruct (appStore_rejects this get id Hinv) as (message & E).
    exists message. unfold AppStoreClient.exists_. rewrite E. reflexivity.
  - intros fmt this app id Hinv.
    destruct (playStore_rejects fmt this app id Hinv) as (message & E).
    exists message. unfold PlayStoreClient.exists_. rewrite E. reflexivity.
Qed.

Lemma exists_throws_on_invalid_witness :
  exists message,
    PlayStoreClient.exists_ (fun _ => "2024-01-01T00:00:00.000Z")
      (PlayStoreClient.new PlayStoreClient.no_PlayStoreConfig)
      (fun _ => Return None) (VString "invalid-package")
    = Some ([], Throw (PlayStoreError message (VString "invalid-package") None)).
Proof.
  exact (proj2 exists_throws_on_invalid (fun _ => "2024-01-01T00:00:00.000Z")
           (PlayStoreClient.new PlayStoreClient.no_PlayStoreConfig)
           (fun _ => Return None) (VString "invalid-package") eq_refl).
Defined.

(** X18.  The App Store client's [exists] answers [false] in two ways.  An
    empty lookup (result count zero) at the first attempt gives [false]
    after that one request.  An HTTP 404 from the transport (an
    [AxiosError] whose response has status 404) is retried like any other
    transport failure: [false] comes only after all [maxAttempts] requests
    and the waits between them. *)
Theorem appStore_exists_false :
  (forall (this : AppStoreClient.t) (get : AppStoreClient.backend) (s : string)
          (response : AppStoreClient.AppStoreResponse),
      no_identifier (VString s) = false ->
      1 <= AppStoreClient.max_attempts this ->
      get 1 = Return response ->
      AppStoreClient.resultCount response = 0 ->
      AppStoreClient.exists_ this get (VString s) = Some ([Request 1], Return false))
  /\ (forall (this : AppStoreClient.t) (get : AppStoreClient.backend) (s : string)
             (message : Z -> string),
         no_identifier (VString s) = false ->
         1 <= AppStoreClient.max_attempts this ->
         (forall n, 1 <= n <= AppStoreClient.max_attempts this ->
                    get n = Throw (AxiosError (message n) (Some 404))) ->
         AppStoreClient.exists_ this get (VString s)
         = Some (Retry.schedule (Z.to_nat (AppStoreClient.max_attempts this)),
                 Return false)).
Proof.
  split.
  - intros this get s response Hid Hmax Hget Hcount.
    unfold AppStoreClient.exists_.
    rewrite (appStore_validated this get s Hid).
    rewrite (appStore_not_found_immediate get s (AppStoreClient.max_attempts this)
               0 [] _ response ltac:(lia) Hget Hcount).
    reflexivity.
  - intros this get s message Hid Hmax Hfail.
    unfold AppStoreClient.exists_.
    rewrite (appStore_validated this get s Hid), appStore_loop_shape.
    rewrite (loop_exhausted _ _ _ _ (fun n => AxiosError (message n) (Some 404))
               (appStore_exhausted s) Hmax).
    + reflexivity.
    + intros n Hn. rewrite (Hfail n Hn). reflexivity.
    + intros n Hn. apply appStore_catch_upstream. reflexivity.
Qed.

Lemma appStore_exists_false_witness :
  AppStoreClient.exists_ (AppStoreClient.new AppStoreClient.no_AppStoreConfig)
    (fun _ => Throw (AxiosError "Request failed with status code 404" (Some 404)))
    (VString "com.example.app")
  = Some ([Request 1; Sleep 2000; Request 2; Sleep 4000; Request 3], Return false).
Proof.
  apply (proj2 appStore_exists_false
           (AppStoreClient.new AppStoreClient.no_AppStoreConfig)
           (fun _ => Throw (AxiosError "Request failed with status code 404"
                                       (Some 404)))
           "com.example.app"
           (fun _ => "Request failed with status code 404")).
  - reflexivity.
  - vm_compute. discriminate.
  - intros n _. reflexivity.
Defined.

(** ** Package names, and versions that are not known *)

Section PackageNames.

Import PlayStoreClient.

Lemma letter_is_word (c : ascii) : is_letter c = true -> is_word c = true.
Proof. intros H. unfold is_word. rewrite H. reflexivity. Qed.

Lemma letter_is_no_space (c : ascii) : is_letter c = true -> is_space c = false.
Proof.
  destruct c as [b0 b1 b2 b3 b4 b5 b6 b7].
  destruct b0, b1, b2, b3, b4, b5, b6, b7; try discriminate; reflexivity.
Qed.

Lemma re_run_charset (s : string) :
  forall (st : re_state) (dotted : bool),
    re_run st dotted s = true ->
    all_chars (fun c => is_word c || Ascii.eqb c ".") s = true.
Proof.
  induction s as [|c s IH]; intros st dotted H; [reflexivity|].
  cbn [all_chars]. destruct st; cbn [re_run] in H.
  - apply andb_true_iff in H as [Hc Hs].
    rewrite (letter_is_word c Hc), (IH _ _ Hs). reflexivity.
  - destruct (is_word c); [rewrite (IH _ _ H); reflexivity|].
    destruct (Ascii.eqb c "."); [rewrite (IH _ _ H); reflexivity|discriminate].
Qed.

Lemma drop_while_end_cons (p : ascii -> bool) (c : ascii) (s : string) :
  p c = false -> drop_while_end p (String c s) <> "".
Proof.
  intros Hc. cbn [drop_while_end].
  destruct (drop_while_end p s); [rewrite Hc|]; discriminate.
Qed.

Lemma format_not_blank (s : string) :
  package_name_format s = true -> no_identifier (VString s) = false.
Proof.
  unfold package_name_format. destruct s as [|c s]; [discriminate|].
  cbn [re_run]. intros H. apply andb_true_iff in H as [Hc _].
  cbn [no_identifier]. unfold trim. cbn [drop_while].
  rewrite (letter_is_no_space c Hc).
  pose proof (drop_while_end_cons is_space c s (letter_is_no_space c Hc)) as Hne.
  destruct (drop_while_end is_space (String c s)); [contradiction|reflexivity].
Qed.

Lemma before_attempt_head (j : nat) (tail : list event) :
  exists events,
    (Retry.before_attempt (S j) ++ tail)%list = Request 1 :: events.
Proof.
  revert tail. induction j as [|j IH]; intros tail.
  - eexists. reflexivity.
  - cbn [Retry.before_attempt] in IH |- *. rewrite <- app_assoc. apply IH.
Qed.

(** A call that makes a request starts with request 1. *)
Lemma schedule_head (k : nat) :
  (1 <= k)%nat -> exists events, Retry.schedule k = Request 1 :: events.
Proof.
  intros Hk. destruct k as [|[|j]]; [lia| |].
  - exists []. reflexivity.
  - cbn [Retry.schedule]. apply before_attempt_head.
Qed.

End PackageNames.

(** X19.  A string that the Play Store client's pattern accepts consists of
    letters, digits, underscores and dots only and is never blank, so that
    for strings the pattern alone decides whether [getVersion] goes on to the
    backend: an accepted string with at least one allowed attempt leads to a
    first request, a rejected one to none. *)
Theorem package_name_accepted
        (formatPlayStoreDate : PlayStoreClient.updated_value -> string)
        (this : PlayStoreClient.t) (app : PlayStoreClient.backend) (s : string) :
  (PlayStoreClient.package_name_format s = true ->
   all_chars (fun c => PlayStoreClient.is_word c || Ascii.eqb c ".") s = true
   /\ no_identifier (VString s) = false
   /\ (1 <= PlayStoreClient.max_attempts this ->
       exists events outcome,
         PlayStoreClient.getVersion formatPlayStoreDate this app (VString s)
         = Some (Request 1 :: events, outcome)))
  /\ (PlayStoreClient.package_name_format s = false ->
      exists error,
        PlayStoreClient.getVersion formatPlayStoreDate this app (VString s)
        = Some ([], Throw error)).
Proof.
  split.
  - intros Hfmt.
    split; [exact (re_run_charset s _ _ Hfmt)|].
    pose proof (format_not_blank s Hfmt) as Hid.
    split; [exact Hid|]. intros Hmax.
    destruct (playStore_getVersion_runs formatPlayStoreDate this app s Hid Hfmt)
      as [[Hneg _]|(k & outcome & Hk & _ & E & _)]; [lia|].
    destruct (schedule_head k Hk) as (events & Hev).
    exists events, outcome. rewrite E, Hev. reflexivity.
  - intros Hfmt.
    unfold PlayStoreClient.getVersion, PlayStoreClient.getVersion_fuel.
    destruct (String.length (trim s) =? 0)%nat; [eexists; reflexivity|].
    rewrite Hfmt. eexists; reflexivity.
Qed.

Lemma package_name_accepted_witness :
  exists events outcome,
    PlayStoreClient.getVersion (fun _ => "2024-01-01T00:00:00.000Z")
      (PlayStoreClient.new PlayStoreClient.no_PlayStoreConfig)
      (fun _ => Return None) (VString "a.b_1")
    = Some (Request 1 :: events, outcome).
Proof.
  destruct (proj1 (package_name_accepted (fun _ => "2024-01-01T00:00:00.000Z")
                     (PlayStoreClient.new PlayStoreClient.no_PlayStoreConfig)
                     (fun _ => Return None) "a.b_1") eq_refl)
    as (_ & _ & H).
  apply H. vm_compute. discriminate.
Defined.

(** X20.  When the store's version is not known (the Play Store client
    reports [Unknown] for a record without version), [checkForUpdates]
    reports no update for any current version that is not itself a sentinel:
    the comparison is 1 and no details are attached. *)
Theorem checkForUpdates_unknown_latest :
  forall (formatPlayStoreDate : PlayStoreClient.updated_value -> string)
         (this : PlayStoreClient.t) (app : PlayStoreClient.backend)
         (id : value) (current : string) (events : list event)
         (result : UpdateCheckResult),
    PlayStoreClient.checkForUpdates formatPlayStoreDate this app id
                                    (VString current)
    = Some (events, Return result) ->
    latestVersion result = "Unknown" ->
    spec_is_sentinel current = false ->
    versionComparison result = 1
    /\ updateAvailable result = false
    /\ updateDetails result = None.
Proof.
  intros fmt this app id current events result.
  unfold PlayStoreClient.checkForUpdates.
  destruct (String.length (trim current) =? 0)%nat; [discriminate|].
  destruct (PlayStoreClient.getVersion fmt this app id) as [[log [info|e]]|];
    [|destruct e; discriminate|discriminate].
  intros [= <- <-]. cbn [latestVersion versionComparison updateAvailable
                           updateDetails].
  intros -> Hcur.
  assert (Hcmp : compareVersions current "Unknown" = 1).
  { unfold compareVersions. unfold spec_is_sentinel in Hcur.
    destruct (String.eqb_spec current "Unknown") as [->|_]; [discriminate|].
    rewrite Hcur. reflexivity. }
  rewrite Hcmp. repeat split; reflexivity.
Qed.

Lemma checkForUpdates_unknown_latest_witness :
  versionComparison
    {| updateAvailable := false;
       currentVersion := "1.0.0";
       latestVersion := "Unknown";
       updateDetails := None;
       versionComparison := 1 |} = 1.
Proof.
  exact (proj1 (checkForUpdates_unknown_latest
           (fun _ => "2024-01-01T00:00:00.000Z")
           (PlayStoreClient.new PlayStoreClient.no_PlayStoreConfig)
           (fun _ => Return (Some {| PlayStoreClient.details_version := None;
                                     PlayStoreClient.details_updated :=
                                       PlayStoreClient.UpdatedMissing;
                                     PlayStoreClient.details_recentChanges := None |}))
           (VString "com.example.app") "1.0.0" [Request 1]
           {| updateAvailable := false;
              currentVersion := "1.0.0";
              latestVersion := "Unknown";
              updateDetails := None;
              versionComparison := 1 |}
           eq_refl eq_refl eq_refl)).
Defined.
